(** * CalculadoraAPI: a shallow embedding of the Express routes

    The routes of [routes/calculo.ts], [routes/cliente.ts] and
    [routes/usuario.ts] are embedded as functions from the database to a
    response and a new database.  JavaScript numbers that hold money are
    IEEE-754 binary64 values ([PrimFloat.float]); identifiers are the TEXT
    keys of the migration; timestamps are TIMESTAMP(3) values counted in
    milliseconds.  A JavaScript string is modelled by [string], one
    character per code unit, for strings of the Latin-1 range.

    The database is PostgreSQL behind the Prisma client.  What the two do
    and the routes do not spell out is modelled where a route depends on it:
    a [Float] is carried as a decimal of 16 significant digits
    ([Decimal.round16]), [contains] is a LIKE or ILIKE pattern ([Sql.like]),
    and the order of rows of one creation time under [orderBy] is the
    engine's own ([Motor]). *)

From Stdlib Require Import String Ascii List ZArith Bool Lia.
From Stdlib Require Import PrimFloat SpecFloat FloatOps FloatAxioms.
From Stdlib Require Import Permutation Sorted.
Import ListNotations.


(** ** JavaScript string primitives used by the routes *)

Module Js.

(** [!s] is false for every string but the empty one. *)
Definition truthy (s : string) : bool := negb (String.eqb s "").

(** [s.includes(pat)]. *)
Fixpoint includes (pat s : string) : bool :=
  String.prefix pat s ||
  match s with
  | EmptyString => false
  | String _ s' => includes pat s'
  end.

Fixpoint drop (n : nat) (s : string) : string :=
  match n, s with
  | O, _ => s
  | S n', String _ s' => drop n' s'
  | S _, EmptyString => EmptyString
  end.

(** [s.replace(pat, rep)] with a string pattern: the first occurrence only. *)
Fixpoint replace (pat rep s : string) : string :=
  if String.prefix pat s then rep ++ drop (String.length pat) s
  else match s with
       | EmptyString => EmptyString
       | String c s' => String c (replace pat rep s')
       end.

(** White space of [String.prototype.trim] in the Latin-1 range. *)
Definition isSpace (c : ascii) : bool :=
  let n := nat_of_ascii c in
  (Nat.leb 9 n && Nat.leb n 13) || Nat.eqb n 32 || Nat.eqb n 160.

Fixpoint trimStart (s : string) : string :=
  match s with
  | EmptyString => EmptyString
  | String c s' => if isSpace c then trimStart s' else s
  end.

(** Removes trailing white space: a character is kept when something that
    is kept follows it, or when it is not white space. *)
Fixpoint trimEnd (s : string) : string :=
  match s with
  | EmptyString => EmptyString
  | String c s' =>
      match trimEnd s' with
      | EmptyString => if isSpace c then EmptyString else String c EmptyString
      | t => String c t
      end
  end.

Definition trim (s : string) : string := trimEnd (trimStart s).

End Js.

(** ** Text patterns of the database: LIKE and ILIKE

    In a pattern [%] stands for any run of characters, [_] for any one
    character, and a backslash makes the character after it stand for
    itself.  ILIKE compares after [lower] on both sides, which in the Latin-1
    range folds the letters A-Z and the accented capitals (code units 192 to
    222, but for the sign 215). *)

Module Sql.

Definition lowerChar (c : ascii) : ascii :=
  let n := nat_of_ascii c in
  if (Nat.leb 65 n && Nat.leb n 90)
     || (Nat.leb 192 n && Nat.leb n 222 && negb (Nat.eqb n 215))
  then ascii_of_nat (n + 32) else c.

Fixpoint lower (s : string) : string :=
  match s with
  | EmptyString => EmptyString
  | String c s' => String (lowerChar c) (lower s')
  end.

Inductive Token :=
| AnyRun
| AnyOne
| Literal (c : ascii).

Definition percent : ascii := "%"%char.
Definition underscore : ascii := "_"%char.
Definition backslash : ascii := ascii_of_nat 92.

(** A pattern may not end in a lone backslash. *)
Fixpoint tokens (pattern : string) : option (list Token) :=
  match pattern with
  | EmptyString => Some []
  | String c rest =>
      if Ascii.eqb c backslash
      then match rest with
           | EmptyString => None
           | String d rest' => option_map (cons (Literal d)) (tokens rest')
           end
      else if Ascii.eqb c percent then option_map (cons AnyRun) (tokens rest)
      else if Ascii.eqb c underscore
      then option_map (cons AnyOne) (tokens rest)
      else option_map (cons (Literal c)) (tokens rest)
  end.

(** The whole of [s] against the whole of the pattern. *)
Fixpoint matches (ts : list Token) (s : string) : bool :=
  match ts with
  | [] => match s with EmptyString => true | String _ _ => false end
  | AnyRun :: ts' =>
      (fix from (s : string) : bool :=
         matches ts' s
         || match s with
            | EmptyString => false
            | String _ s' => from s'
            end) s
  | AnyOne :: ts' =>
      match s with
      | EmptyString => false
      | String _ s' => matches ts' s'
      end
  | Literal c :: ts' =>
      match s with
      | EmptyString => false
      | String d s' => Ascii.eqb c d && matches ts' s'
      end
  end.

(** [s LIKE pattern] and [s ILIKE pattern]; [None] is the error of a pattern
    that ends in a lone backslash. *)
Definition like (pattern s : string) : option bool :=
  option_map (fun ts => matches ts s) (tokens pattern).

Definition ilike (pattern s : string) : option bool :=
  like (lower pattern) (lower s).


End Sql.

(** ** A [Float] on its way to the database

    The Prisma engine carries a [Float] as a decimal number that it writes
    with 16 significant digits, rounding to even, and the column gets the
    double nearest to that decimal: [3617.9999999999995] is stored as [3618],
    [0.30000000000000004] as [0.3]. *)

Module Decimal.

(** The quotient of two positive integers, rounded to the nearest integer,
    and to the even one of two that are as near. *)
Definition divNearestEven (a b : Z) : Z :=
  let q := (a / b)%Z in
  match (2 * (a mod b) ?= b)%Z with
  | Lt => q
  | Gt => (q + 1)%Z
  | Eq => if Z.even q then q else (q + 1)%Z
  end.

(** The largest exponent from [p] on with [d * 10^p <= n], and the smallest
    one from [j] on with [d <= n * 10^j].  A double that is not zero lies
    between [10^-324] and [10^309], so 400 steps are enough. *)
Fixpoint up (fuel : nat) (n d p : Z) : Z :=
  match fuel with
  | O => p
  | S fuel' =>
      if (d * 10 ^ (p + 1) <=? n)%Z then up fuel' n d (p + 1)%Z else p
  end.

Fixpoint down (fuel : nat) (n d j : Z) : Z :=
  match fuel with
  | O => j
  | S fuel' => if (d <=? n * 10 ^ j)%Z then j else down fuel' n d (j + 1)%Z
  end.

(** The decimal exponent [e] of the positive fraction [n / d]:
    [10^e <= n / d < 10^(e+1)]. *)
Definition exponent10 (n d : Z) : Z :=
  if (d <=? n)%Z then up 400 n d 0%Z else (- down 400 n d 1)%Z.

(** [m * 2^e] written with 16 significant digits: the pair [(q, k)] stands
    for [q * 10^k]. *)
Definition digits16 (m e : Z) : Z * Z :=
  let n := (m * 2 ^ Z.max e 0)%Z in
  let d := (2 ^ Z.max (- e) 0)%Z in
  let k := (exponent10 n d - 15)%Z in
  (divNearestEven (n * 10 ^ Z.max (- k) 0) (d * 10 ^ Z.max k 0), k).

(** The double nearest to [q * 10^k]. *)
Definition toDouble (s : bool) (q k : Z) : float :=
  match q with
  | Zpos _ =>
      SF2Prim (SFdiv prec emax
                 (S754_finite s (Z.to_pos (q * 10 ^ Z.max k 0)) 0)
                 (S754_finite false (Z.to_pos (10 ^ Z.max (- k) 0)) 0))
  | _ => SF2Prim (S754_zero s)
  end.

(** A decimal zero has no sign; [Infinity] and [NaN] have no decimal, and
    are left as they are. *)
Definition round16 (x : float) : float :=
  match Prim2SF x with
  | S754_finite s m e => let (q, k) := digits16 (Zpos m) e in toDouble s q k
  | S754_zero _ => 0%float
  | _ => x
  end.

End Decimal.

(** ** Rows of the three tables (prisma/migrations) *)

Definition Id := string.
Definition Timestamp := Z.

Module Usuario.
Record t := mk
  { id : Id; nome : string; email : string; senha : string; role : string;
    createdAt : Timestamp; updatedAt : Timestamp }.
End Usuario.

Module Cliente.
Record t := mk
  { id : Id; nome : string; telefone : string; cpf : string; email : string;
    createdAt : Timestamp; updatedAt : Timestamp }.
End Cliente.

Module Calculo.
Record t := mk
  { id : Id;
    valorLocacao : float; valorTaxas : float;
    valorInicial : float; valorOriginal : float;
    valorComDesconto : float; valorCorrigido : float;
    taxaPoupanca : float;
    clienteId : Id; usuarioId : option Id;
    createdAt : Timestamp; updatedAt : Timestamp }.
End Calculo.

(** The database behind [req.prisma].  A table is the list of its rows in
    the order the engine holds them; a new row goes to the end. *)
Record Prisma := mkPrisma
  { usuario : list Usuario.t;
    cliente : list Cliente.t;
    calculo : list Calculo.t }.

(** ** Exceptions and the handler monad *)

Inductive Error :=
| ZodError (issues : list string)
| PrismaError (code : string)
| JsonWebTokenError.

Inductive Result (A : Type) :=
| Ok (a : A)
| Throw (e : Error).
Arguments Ok {A} a.
Arguments Throw {A} e.

(** An [await]ed database call: it may throw, and what it wrote before
    throwing stays written (the routes open no transaction). *)
Definition M (A : Type) := Prisma -> Result A * Prisma.

Definition ret {A} (a : A) : M A := fun db => (Ok a, db).
Definition bind {A B} (m : M A) (k : A -> M B) : M B :=
  fun db => match m db with
            | (Ok a, db') => k a db'
            | (Throw e, db') => (Throw e, db')
            end.
Definition get : M Prisma := fun db => (Ok db, db).

Declare Scope handler_scope.
Delimit Scope handler_scope with handler.
Notation "x <- m ;; k" := (bind m (fun x => k))
  (at level 61, m at next level, right associativity) : handler_scope.
Notation "'await' m ;; k" := (bind m (fun _ => k))
  (at level 61, m at next level, right associativity) : handler_scope.

Definition tryCatch {A} (m : M A) (handler : Error -> M A) : M A :=
  fun db => match m db with
            | (Ok a, db') => (Ok a, db')
            | (Throw e, db') => handler e db'
            end.

Open Scope string_scope.
Open Scope Z_scope.

(** ** The Prisma client, as far as the routes call it

    Unique indexes ([id], [usuarios.email], [clientes.cpf]) and the two
    foreign keys of [calculos] are those of the migration: a write that would
    break one throws, deleting a [cliente] deletes its [calculos] (ON DELETE
    CASCADE) and deleting a [usuario] clears [usuarioId] (ON DELETE SET
    NULL). *)

Definition P2002 := PrismaError "P2002". (* unique constraint failed *)
Definition P2003 := PrismaError "P2003". (* foreign key constraint failed *)
Definition P2025 := PrismaError "P2025". (* record not found *)
Definition PrismaValidation := PrismaError "PrismaClientValidationError".

(** A stable sort, largest key first: rows of one key keep the order in
    which the list has them. *)
Fixpoint insertDesc {A} (key : A -> Z) (x : A) (l : list A) : list A :=
  match l with
  | [] => [x]
  | y :: l' => if key y <=? key x then x :: l else y :: insertDesc key x l'
  end.

Definition orderByDesc {A} (key : A -> Z) (l : list A) : list A :=
  fold_right (insertDesc key) [] l.

(** [ORDER BY "createdAt" DESC] and [ASC] as the engine answers them.  The
    statement names no second key, so the engine is free in the order of rows
    of one creation time: [tie] ranks the rows as this engine has them for
    this query, and rows of one creation time come by rank. *)
Definition orderDesc {A} (tie key : A -> Z) (l : list A) : list A :=
  orderByDesc key (orderByDesc tie l).

Definition orderAsc {A} (tie key : A -> Z) (l : list A) : list A :=
  orderByDesc (fun x => - key x) (orderByDesc tie l).

(** [orderBy: { createdAt: 'desc' }, skip, take]: a negative [skip] is
    rejected; for a negative [take] the client asks the engine for the
    opposite order, takes [-take] rows after [skip] and reverses them. *)
Definition window {A} (tie key : A -> Z) (skip take : Z) (l : list A)
  : Result (list A) :=
  if skip <? 0 then Throw PrismaValidation
  else if 0 <=? take
       then Ok (firstn (Z.to_nat take)
                  (skipn (Z.to_nat skip) (orderDesc tie key l)))
       else Ok (rev (firstn (Z.to_nat (- take))
                       (skipn (Z.to_nat skip) (orderAsc tie key l)))).

Definition liftResult {A} (r : Result A) : M A := fun db => (r, db).

(** *** usuario *)

Definition usuarioPorId (id : Id) (u : Usuario.t) : bool :=
  String.eqb (Usuario.id u) id.
Definition usuarioPorEmail (email : string) (u : Usuario.t) : bool :=
  String.eqb (Usuario.email u) email.

Definition usuario_findUnique (where_ : Usuario.t -> bool)
  : M (option Usuario.t) :=
  fun db => (Ok (find where_ (usuario db)), db).

(** The [data] of [usuario.update]: [senha] is a key of the object only when
    the route has put it there. *)
Record UsuarioUpdate := mkUsuarioUpdate
  { upd_nome : string; upd_email : string; upd_role : string;
    upd_senha : option string }.

Definition aplicaUsuarioUpdate (agora : Timestamp) (d : UsuarioUpdate)
  (u : Usuario.t) : Usuario.t :=
  Usuario.mk (Usuario.id u) (upd_nome d) (upd_email d)
    (match upd_senha d with Some h => h | None => Usuario.senha u end)
    (upd_role d) (Usuario.createdAt u) agora.

Definition usuario_update (agora : Timestamp) (id : Id) (d : UsuarioUpdate)
  : M Usuario.t :=
  fun db =>
    match find (usuarioPorId id) (usuario db) with
    | None => (Throw P2025, db)
    | Some u =>
        if existsb (fun v => usuarioPorEmail (upd_email d) v
                             && negb (usuarioPorId id v)) (usuario db)
        then (Throw P2002, db)
        else
          let u' := aplicaUsuarioUpdate agora d u in
          (Ok u',
           mkPrisma
             (map (fun v => if usuarioPorId id v
                            then aplicaUsuarioUpdate agora d v else v)
                  (usuario db))
             (cliente db) (calculo db))
    end.

Definition setNullUsuario (id : Id) (k : Calculo.t) : Calculo.t :=
  match Calculo.usuarioId k with
  | Some uid =>
      if String.eqb uid id
      then Calculo.mk (Calculo.id k) (Calculo.valorLocacao k)
             (Calculo.valorTaxas k) (Calculo.valorInicial k)
             (Calculo.valorOriginal k) (Calculo.valorComDesconto k)
             (Calculo.valorCorrigido k) (Calculo.taxaPoupanca k)
             (Calculo.clienteId k) None
             (Calculo.createdAt k) (Calculo.updatedAt k)
      else k
  | None => k
  end.

Definition usuario_delete (id : Id) : M unit :=
  fun db =>
    match find (usuarioPorId id) (usuario db) with
    | None => (Throw P2025, db)
    | Some _ =>
        (Ok tt,
         mkPrisma (filter (fun v => negb (usuarioPorId id v)) (usuario db))
                  (cliente db)
                  (map (setNullUsuario id) (calculo db)))
    end.

(** *** cliente *)

Record ClienteDados := mkClienteDados
  { d_nome : string; d_telefone : string; d_cpf : string; d_email : string }.

Definition clientePorId (id : Id) (c : Cliente.t) : bool :=
  String.eqb (Cliente.id c) id.
Definition clientePorCpf (cpf : string) (c : Cliente.t) : bool :=
  String.eqb (Cliente.cpf c) cpf.

Definition cliente_findUnique (where_ : Cliente.t -> bool)
  : M (option Cliente.t) :=
  fun db => (Ok (find where_ (cliente db)), db).

(** [cliente.create({ data })]: [id] is the default of the column, drawn by
    the client, and both timestamps are the time of the call. *)
Definition cliente_create (novoId : Id) (agora : Timestamp) (d : ClienteDados)
  : M Cliente.t :=
  fun db =>
    if existsb (clientePorId novoId) (cliente db)
       || existsb (clientePorCpf (d_cpf d)) (cliente db)
    then (Throw P2002, db)
    else
      let c := Cliente.mk novoId (d_nome d) (d_telefone d) (d_cpf d)
                 (d_email d) agora agora in
      (Ok c, mkPrisma (usuario db) (cliente db ++ [c]) (calculo db)).

Definition aplicaClienteDados (agora : Timestamp) (d : ClienteDados)
  (c : Cliente.t) : Cliente.t :=
  Cliente.mk (Cliente.id c) (d_nome d) (d_telefone d) (d_cpf d) (d_email d)
    (Cliente.createdAt c) agora.

(** [cliente.update({ where: { cpf }, data })]. *)
Definition cliente_update (agora : Timestamp) (cpf : string) (d : ClienteDados)
  : M Cliente.t :=
  fun db =>
    match find (clientePorCpf cpf) (cliente db) with
    | None => (Throw P2025, db)
    | Some c =>
        if existsb (fun v => clientePorCpf (d_cpf d) v
                             && negb (clientePorCpf cpf v))
                   (cliente db)
        then (Throw P2002, db)
        else
          (Ok (aplicaClienteDados agora d c),
           mkPrisma (usuario db)
             (map (fun v => if clientePorCpf cpf v
                            then aplicaClienteDados agora d v else v)
                  (cliente db))
             (calculo db))
    end.

Definition calculoDoCliente (id : Id) (k : Calculo.t) : bool :=
  String.eqb (Calculo.clienteId k) id.

(** [_count: { select: { calculos: true } }]. *)
Definition countCalculos (db : Prisma) (c : Cliente.t) : Z :=
  Z.of_nat (length (filter (calculoDoCliente (Cliente.id c)) (calculo db))).

Definition cliente_delete (id : Id) : M unit :=
  fun db =>
    match find (clientePorId id) (cliente db) with
    | None => (Throw P2025, db)
    | Some _ =>
        (Ok tt,
         mkPrisma (usuario db)
                  (filter (fun v => negb (clientePorId id v)) (cliente db))
                  (filter (fun k => negb (calculoDoCliente id k))
                          (calculo db)))
    end.

(** The filter of [cliente.findMany]: [{}] or [{ OR: [...] }]. *)
Inductive Mode := CaseSensitive | Insensitive.

(** [{ contains: pat, mode }] on a text column: the client puts [pat]
    between two [%] and hands it to LIKE, or to ILIKE for [mode:
    'insensitive'], as it is.  The pattern ends in the [%] that the client
    has added, so the error of LIKE cannot come up. *)
Definition contains (mode : Mode) (pat field : string) : bool :=
  let pattern := "%" ++ pat ++ "%" in
  match match mode with
        | CaseSensitive => Sql.like pattern field
        | Insensitive => Sql.ilike pattern field
        end with
  | Some b => b
  | None => false
  end.

Inductive ClienteWhere :=
| WhereTodos
| WhereOR (alternativas : list (Cliente.t -> bool)).

Definition clienteSatisfaz (w : ClienteWhere) (c : Cliente.t) : bool :=
  match w with
  | WhereTodos => true
  | WhereOR alternativas => existsb (fun p => p c) alternativas
  end.

Definition cliente_count (w : ClienteWhere) : M Z :=
  fun db => (Ok (Z.of_nat (length (filter (clienteSatisfaz w) (cliente db)))),
             db).

(** *** calculo *)

Definition calculoPorId (id : Id) (k : Calculo.t) : bool :=
  String.eqb (Calculo.id k) id.

(** [include: { cliente: true }]. *)
Definition incluiCliente (db : Prisma) (k : Calculo.t)
  : Calculo.t * option Cliente.t :=
  (k, find (clientePorId (Calculo.clienteId k)) (cliente db)).

Definition calculo_findUnique (id : Id) : M (option Calculo.t) :=
  fun db => (Ok (find (calculoPorId id) (calculo db)), db).

Definition calculo_findUnique_include (id : Id)
  : M (option (Calculo.t * option Cliente.t)) :=
  fun db => (Ok (option_map (incluiCliente db)
                   (find (calculoPorId id) (calculo db))), db).

(** The [Float] columns of a row, and the row as the database gets it. *)
Definition floats (k : Calculo.t) : list float :=
  [ Calculo.valorLocacao k; Calculo.valorTaxas k; Calculo.valorInicial k;
    Calculo.valorOriginal k; Calculo.valorComDesconto k;
    Calculo.valorCorrigido k; Calculo.taxaPoupanca k ].

Definition stored (k : Calculo.t) : Calculo.t :=
  Calculo.mk (Calculo.id k)
    (Decimal.round16 (Calculo.valorLocacao k))
    (Decimal.round16 (Calculo.valorTaxas k))
    (Decimal.round16 (Calculo.valorInicial k))
    (Decimal.round16 (Calculo.valorOriginal k))
    (Decimal.round16 (Calculo.valorComDesconto k))
    (Decimal.round16 (Calculo.valorCorrigido k))
    (Decimal.round16 (Calculo.taxaPoupanca k))
    (Calculo.clienteId k) (Calculo.usuarioId k)
    (Calculo.createdAt k) (Calculo.updatedAt k).

(** [calculo.create({ data, include })] for a row whose columns the route
    has filled in, but for [id] and the timestamps.  A [Float] that is
    [Infinity] or [NaN] is refused before the table is touched; the row
    written, which is the row returned, holds the other numbers as
    [Decimal.round16] gives them. *)
Definition calculo_create (novoId : Id) (agora : Timestamp)
  (data : Id -> Timestamp -> Timestamp -> Calculo.t)
  : M (Calculo.t * option Cliente.t) :=
  fun db =>
    if negb (forallb PrimFloat.is_finite (floats (data novoId agora agora)))
    then (Throw PrismaValidation, db)
    else
      let k := stored (data novoId agora agora) in
      if existsb (calculoPorId novoId) (calculo db) then (Throw P2002, db)
      else if negb (existsb (clientePorId (Calculo.clienteId k)) (cliente db))
      then (Throw P2003, db)
      else if match Calculo.usuarioId k with
              | Some uid => negb (existsb (usuarioPorId uid) (usuario db))
              | None => false
              end
      then (Throw P2003, db)
      else
        let db' := mkPrisma (usuario db) (cliente db) (calculo db ++ [k]) in
        (Ok (incluiCliente db' k), db').

(** The filter of [calculo.findMany]: the keys that are present must all
    hold. *)
Record CalculoWhere := mkCalculoWhere
  { w_clienteId : option Id; w_usuarioId : option Id }.

Definition calculoSatisfaz (w : CalculoWhere) (k : Calculo.t) : bool :=
  match w_clienteId w with
  | Some cid => String.eqb (Calculo.clienteId k) cid
  | None => true
  end
  &&
  match w_usuarioId w with
  | Some uid =>
      match Calculo.usuarioId k with
      | Some x => String.eqb x uid
      | None => false
      end
  | None => true
  end.

(** *** Queries that ask for an order

    The four queries of the routes that carry [orderBy: { createdAt: 'desc' }],
    each with the rows of the table it reads.  [tieBreak] is the rank the
    engine gives a row, by its [id], among rows of one creation time: it is
    the engine's and may differ from one query to the next. *)
Inductive Query :=
| UsuarioFindMany (table : list Usuario.t)
| ClienteFindMany (table : list Cliente.t) (where_ : ClienteWhere)
    (skip take : Z)
| CalculoFindMany (table : list Calculo.t) (where_ : CalculoWhere)
    (skip take : Z)
| ClienteCalculos (table : list Calculo.t) (clienteId : Id).

Class Motor := mkMotor { tieBreak : Query -> Id -> Z }.

Definition cliente_findMany {Mo : Motor} (w : ClienteWhere) (skip take : Z)
  : M (list (Cliente.t * Z)) :=
  fun db =>
    match window
            (fun c => tieBreak (ClienteFindMany (cliente db) w skip take)
                        (Cliente.id c))
            Cliente.createdAt skip take
            (filter (clienteSatisfaz w) (cliente db)) with
    | Ok rows => (Ok (map (fun c => (c, countCalculos db c)) rows), db)
    | Throw e => (Throw e, db)
    end.

Definition calculo_findMany {Mo : Motor} (w : CalculoWhere) (skip take : Z)
  : M (list (Calculo.t * option Cliente.t)) :=
  fun db =>
    match window
            (fun k => tieBreak (CalculoFindMany (calculo db) w skip take)
                        (Calculo.id k))
            Calculo.createdAt skip take
            (filter (calculoSatisfaz w) (calculo db)) with
    | Ok rows => (Ok (map (incluiCliente db) rows), db)
    | Throw e => (Throw e, db)
    end.

Definition calculo_count (w : CalculoWhere) : M Z :=
  fun db => (Ok (Z.of_nat (length (filter (calculoSatisfaz w) (calculo db)))),
             db).

Definition calculo_delete (id : Id) : M unit :=
  fun db =>
    match find (calculoPorId id) (calculo db) with
    | None => (Throw P2025, db)
    | Some _ =>
        (Ok tt,
         mkPrisma (usuario db) (cliente db)
                  (filter (fun k => negb (calculoPorId id k)) (calculo db)))
    end.

(** ** Requests and responses *)

(** What a request brings from outside the code: the clock, the keys drawn
    for the rows it may insert, and the salt drawn by [bcrypt.hash]. *)
Record Env := mkEnv
  { agora : Timestamp; cuidCliente : Id; cuidCalculo : Id; salt : string }.

(** [req.usuario], the columns selected by [authMiddleware]. *)
Record Perfil := mkPerfil
  { p_id : Id; p_nome : string; p_email : string; p_role : string }.

(** The columns selected by the admin routes. *)
Record UsuarioPublico := mkUsuarioPublico
  { pub_id : Id; pub_nome : string; pub_email : string; pub_role : string;
    pub_createdAt : Timestamp }.

(** [pages] is [Math.ceil(total / limit)]; the quotient by zero is [NaN] or
    [Infinity], which [res.json] writes as [null]. *)
Record Pagination := mkPagination
  { page : Z; limit : Z; total : Z; pages : option Z }.

Definition ceilDiv (total limit : Z) : option Z :=
  if limit =? 0 then None else Some (- ((- total) / limit)).

Inductive Data :=
| DataCalculo (k : Calculo.t * option Cliente.t)
| DataCalculos (ks : list (Calculo.t * option Cliente.t))
| DataClientes (cs : list (Cliente.t * Z))
| DataUsuario (u : UsuarioPublico).

Inductive Body :=
| Sucesso (data : option Data) (message : option string)
    (pagination : option Pagination)
| Falha (message : string) (detail : option Error).

Record Response := mkResponse { status : Z; json : Body }.

Definition falha (st : Z) (msg : string) : Response :=
  mkResponse st (Falha msg None).

(** The [catch] of the routes that parse a body. *)
Definition catchZod (e : Error) : M Response :=
  match e with
  | ZodError _ => ret (mkResponse 400 (Falha "Dados inválidos" (Some e)))
  | _ => ret (mkResponse 500 (Falha "Erro interno do servidor" (Some e)))
  end.

(** The [catch] of the other routes. *)
Definition catch500 (e : Error) : M Response :=
  ret (mkResponse 500 (Falha "Erro interno do servidor" (Some e))).

(** ** Collaborators the routes import

    [jwt.verify] under [JWT_KEY] (reads the clock for [exp]), [bcrypt.hash]
    and the e-mail check of zod. *)
Record Claims := mkClaims { userId : Id; claim_email : string }.

Class Provedores := mkProvedores
  { jwt_verify : Timestamp -> string -> option Claims;
    bcrypt_hash : string -> string -> string;
    isEmail : string -> bool }.

(** ** zod schemas *)

Definition zMin (n : nat) (msg : string) (s : string) : list string :=
  if Nat.leb n (String.length s) then [] else [msg].

(** [z.number()] refuses [NaN]; [.positive(msg)] asks for [> 0]. *)
Definition zNumber (x : float) : list string :=
  if PrimFloat.is_nan x then ["Expected number, received nan"] else [].

Definition zPositive (msg : string) (x : float) : list string :=
  if PrimFloat.is_nan x then ["Expected number, received nan"]
  else if PrimFloat.ltb 0%float x then [] else [msg].

Definition zParse {A} (issues : list string) (dados : A) : Result A :=
  match issues with
  | [] => Ok dados
  | _ => Throw (ZodError issues)
  end.

(** The body of POST /api/calculos as JSON gives it, and after the parse:
    [taxaPoupanca] is optional with default 0.005, the double
    [0x1.47ae147ae147bp-8]. *)
Record CriarCalculoBody := mkCriarCalculoBody
  { b_valorLocacao : float; b_valorTaxas : float; b_cliente : ClienteDados;
    b_taxaPoupanca : option float }.

Record CriarCalculoDados := mkCriarCalculoDados
  { dados_valorLocacao : float; dados_valorTaxas : float;
    dados_cliente : ClienteDados; dados_taxaPoupanca : float }.

Definition taxaPoupancaDefault : float := 0x1.47ae147ae147bp-8%float.

(** The body of PUT /api/usuarios/:id and its parse. *)
Record UsuarioAdminUpdateBody := mkUsuarioAdminUpdateBody
  { ub_nome : string; ub_email : string; ub_senha : option string;
    ub_role : option string }.

Record UsuarioAdminUpdateDados := mkUsuarioAdminUpdateDados
  { ud_nome : string; ud_email : string; ud_senha : option string;
    ud_role : string }.

(** Query strings, after [Number(...)] where the route applies it: a query
    that names no [page] or [limit] gets the defaults 1 and 50. *)
Record CalculosQuery := mkCalculosQuery
  { q_page : option Z; q_limit : option Z; q_clienteId : option string }.

Record ClientesQuery := mkClientesQuery
  { cq_page : option Z; cq_limit : option Z; cq_search : option string }.

Definition orDefault (d : Z) (o : option Z) : Z :=
  match o with Some z => z | None => d end.

Section Rotas.

Context {P : Provedores} {Mo : Motor}.

Local Open Scope handler_scope.

Definition zEmail (msg : string) (s : string) : list string :=
  if isEmail s then [] else [msg].

Definition clienteIssues (c : ClienteDados) : list string :=
  zMin 2 "Nome deve ter pelo menos 2 caracteres" (d_nome c)
  ++ zMin 10 "Telefone inválido" (d_telefone c)
  ++ zMin 11 "CPF inválido" (d_cpf c)
  ++ zEmail "Email inválido" (d_email c).

Definition criarCalculoSchema (body : CriarCalculoBody)
  : Result CriarCalculoDados :=
  let taxa := match b_taxaPoupanca body with
              | Some t => t
              | None => taxaPoupancaDefault
              end in
  zParse
    (zPositive "Valor da locação deve ser positivo" (b_valorLocacao body)
     ++ zPositive "Valor das taxas deve ser positivo" (b_valorTaxas body)
     ++ clienteIssues (b_cliente body)
     ++ zNumber taxa)
    (mkCriarCalculoDados (b_valorLocacao body) (b_valorTaxas body)
       (b_cliente body) taxa).

Definition usuarioAdminUpdateSchema (body : UsuarioAdminUpdateBody)
  : Result UsuarioAdminUpdateDados :=
  let role := match ub_role body with Some r => r | None => "user" end in
  zParse
    (zMin 2 "Nome deve ter pelo menos 2 caracteres" (ub_nome body)
     ++ zEmail "Email inválido" (ub_email body)
     ++ match ub_senha body with
        | None => []
        | Some s =>
            if Nat.leb 6 (String.length s) || String.eqb s "" then []
            else ["Invalid input"]
        end
     ++ (if String.eqb role "admin" || String.eqb role "user" then []
         else ["Invalid enum value"]))
    (mkUsuarioAdminUpdateDados (ub_nome body) (ub_email body) (ub_senha body)
       role).

(** ** routes/usuario.ts: the two middlewares *)

Definition tokenRequerido : Response := falha 401 "Token de acesso requerido".
Definition tokenInvalido : Response := falha 401 "Token inválido".

Definition authMiddleware (env : Env) (authorization : option string)
  : M (Response + Perfil) :=
  tryCatch
    (match authorization with
     | None => ret (inl tokenRequerido)
     | Some authHeader =>
         if negb (Js.truthy authHeader) then ret (inl tokenRequerido)
         else
           let token := Js.replace "Bearer " "" authHeader in
           decoded <- liftResult
                        (match jwt_verify (agora env) token with
                         | Some claims => Ok claims
                         | None => Throw JsonWebTokenError
                         end) ;;
           usuario <- usuario_findUnique (usuarioPorId (userId decoded)) ;;
           match usuario with
           | None => ret (inl tokenInvalido)
           | Some u =>
               ret (inr (mkPerfil (Usuario.id u) (Usuario.nome u)
                           (Usuario.email u) (Usuario.role u)))
           end
     end)
    (fun _ => ret (inl tokenInvalido)).

Definition acessoNegado : Response :=
  falha 403 "Acesso negado. Apenas administradores podem acessar esta rota.".

Definition adminMiddleware (reqUsuario : Perfil) : M (option Response) :=
  tryCatch
    (usuario <- usuario_findUnique (usuarioPorId (p_id reqUsuario)) ;;
     match usuario with
     | None => ret (Some acessoNegado)
     | Some u =>
         if negb (String.eqb (Usuario.role u) "admin")
         then ret (Some acessoNegado)
         else ret None
     end)
    (fun _ => ret (Some (falha 500 "Erro interno do servidor"))).

(** [router.verb(path, authMiddleware, handler)] and
    [router.verb(path, authMiddleware, adminMiddleware, handler)]. *)
Definition comAuth (env : Env) (authorization : option string)
  (handler : Perfil -> M Response) : M Response :=
  r <- authMiddleware env authorization ;;
  match r with
  | inl resposta => ret resposta
  | inr reqUsuario => handler reqUsuario
  end.

Definition comAdmin (env : Env) (authorization : option string)
  (handler : Perfil -> M Response) : M Response :=
  comAuth env authorization (fun reqUsuario =>
    r <- adminMiddleware reqUsuario ;;
    match r with
    | Some resposta => ret resposta
    | None => handler reqUsuario
    end).

(** ** routes/calculo.ts *)

(** POST /api/calculos, first step: the client of the given CPF is created
    when there is none and overwritten with the request's data otherwise. *)
Definition upsertCliente (env : Env) (dados : ClienteDados) : M Cliente.t :=
  cliente <- cliente_findUnique (clientePorCpf (d_cpf dados)) ;;
  match cliente with
  | None => cliente_create (cuidCliente env) (agora env) dados
  | Some _ => cliente_update (agora env) (d_cpf dados) dados
  end.

Definition post_calculos (env : Env) (authorization : option string)
  (body : CriarCalculoBody) : M Response :=
  comAuth env authorization (fun reqUsuario =>
    tryCatch
      (dados <- liftResult (criarCalculoSchema body) ;;
       cliente <- upsertCliente env (dados_cliente dados) ;;
       let valorInicial :=
         (dados_valorLocacao dados + dados_valorTaxas dados)%float in
       let valorOriginal := (valorInicial * 4)%float in
       let valorComDesconto := (valorOriginal * 0.75)%float in
       let valorCorrigido :=
         (valorComDesconto * (1 + dados_taxaPoupanca dados))%float in
       calculo <- calculo_create (cuidCalculo env) (agora env)
                    (fun id criado atualizado =>
                       Calculo.mk id
                         (dados_valorLocacao dados) (dados_valorTaxas dados)
                         valorInicial valorOriginal valorComDesconto
                         valorCorrigido (dados_taxaPoupanca dados)
                         (Cliente.id cliente) (Some (p_id reqUsuario))
                         criado atualizado) ;;
       ret (mkResponse 201
              (Sucesso (Some (DataCalculo calculo))
                 (Some "Cálculo criado com sucesso!") None)))
      catchZod).

(** GET /api/calculos, the filter: [{ clienteId }] when the query names a
    client and [{}] otherwise, then [usuarioId] for whoever is not admin. *)
Definition calculosWhere (reqUsuario : Perfil) (query : CalculosQuery)
  : CalculoWhere :=
  let clienteId :=
    match q_clienteId query with
    | Some c => if Js.truthy c then Some c else None
    | None => None
    end in
  mkCalculoWhere clienteId
    (if negb (String.eqb (p_role reqUsuario) "admin")
     then Some (p_id reqUsuario) else None).

Definition get_calculos (env : Env) (authorization : option string)
  (query : CalculosQuery) : M Response :=
  comAuth env authorization (fun reqUsuario =>
    tryCatch
      (let page := orDefault 1 (q_page query) in
       let limit := orDefault 50 (q_limit query) in
       let where_ := calculosWhere reqUsuario query in
       calculos <- calculo_findMany where_ ((page - 1) * limit) limit ;;
       total <- calculo_count where_ ;;
       ret (mkResponse 200
              (Sucesso (Some (DataCalculos calculos)) None
                 (Some (mkPagination page limit total
                          (ceilDiv total limit))))))
      catch500).

Definition get_calculos_id (env : Env) (authorization : option string)
  (id : Id) : M Response :=
  comAuth env authorization (fun reqUsuario =>
    tryCatch
      (calculo <- calculo_findUnique_include id ;;
       match calculo with
       | None => ret (falha 404 "Cálculo não encontrado")
       | Some k =>
           ret (mkResponse 200 (Sucesso (Some (DataCalculo k)) None None))
       end)
      catch500).

Definition delete_calculos_id (env : Env) (authorization : option string)
  (id : Id) : M Response :=
  comAuth env authorization (fun reqUsuario =>
    tryCatch
      (calculo <- calculo_findUnique id ;;
       match calculo with
       | None => ret (falha 404 "Cálculo não encontrado")
       | Some _ =>
           await calculo_delete id ;;
           ret (mkResponse 200
                  (Sucesso None (Some "Cálculo deletado com sucesso!") None))
       end)
      catch500).

(** ** routes/cliente.ts (these routes run no middleware) *)

(** GET /api/clientes, the filter: three alternatives when the query has a
    non-empty [search], and [{}] otherwise. *)
Definition clientesWhere (query : ClientesQuery) : ClienteWhere :=
  match cq_search query with
  | Some search =>
      if Js.truthy search
      then WhereOR
             [ (fun c => contains Insensitive search (Cliente.nome c));
               (fun c => contains Insensitive search (Cliente.email c));
               (fun c => contains CaseSensitive search (Cliente.cpf c)) ]
      else WhereTodos
  | None => WhereTodos
  end.

Definition get_clientes (query : ClientesQuery) : M Response :=
  tryCatch
    (let page := orDefault 1 (cq_page query) in
     let limit := orDefault 50 (cq_limit query) in
     let where_ := clientesWhere query in
     clientes <- cliente_findMany where_ ((page - 1) * limit) limit ;;
     total <- cliente_count where_ ;;
     ret (mkResponse 200
            (Sucesso (Some (DataClientes clientes)) None
               (Some (mkPagination page limit total (ceilDiv total limit))))))
    catch500.

Definition delete_clientes_id (id : Id) : M Response :=
  tryCatch
    (cliente <- cliente_findUnique (clientePorId id) ;;
     match cliente with
     | None => ret (falha 404 "Cliente não encontrado")
     | Some c =>
         db <- get ;;
         if 0 <? countCalculos db c
         then ret (falha 400
                     "Não é possível deletar cliente que possui cálculos")
         else
           await cliente_delete id ;;
           ret (mkResponse 200
                  (Sucesso None (Some "Cliente deletado com sucesso!") None))
     end)
    catch500.

(** ** routes/usuario.ts: the admin routes on one user *)

Definition put_usuarios_id (env : Env) (authorization : option string)
  (id : Id) (body : UsuarioAdminUpdateBody) : M Response :=
  comAdmin env authorization (fun reqUsuario =>
    tryCatch
      (dados <- liftResult (usuarioAdminUpdateSchema body) ;;
       usuarioExistente <- usuario_findUnique (usuarioPorId id) ;;
       match usuarioExistente with
       | None => ret (falha 404 "Usuário não encontrado")
       | Some existente =>
           emailEmUso <-
             (if negb (String.eqb (ud_email dados) (Usuario.email existente))
              then usuario_findUnique (usuarioPorEmail (ud_email dados))
              else ret None) ;;
           match emailEmUso with
           | Some _ => ret (falha 400 "Email já está sendo usado")
           | None =>
               let senha :=
                 match ud_senha dados with
                 | Some s =>
                     if Js.truthy s && negb (String.eqb (Js.trim s) "")
                     then Some (bcrypt_hash (salt env) s)
                     else None
                 | None => None
                 end in
               usuario <- usuario_update (agora env) id
                            (mkUsuarioUpdate (ud_nome dados) (ud_email dados)
                               (ud_role dados) senha) ;;
               ret (mkResponse 200
                      (Sucesso
                         (Some (DataUsuario
                                  (mkUsuarioPublico (Usuario.id usuario)
                                     (Usuario.nome usuario)
                                     (Usuario.email usuario)
                                     (Usuario.role usuario)
                                     (Usuario.createdAt usuario))))
                         (Some "Usuário atualizado com sucesso!") None))
           end
       end)
      catchZod).

Definition delete_usuarios_id (env : Env) (authorization : option string)
  (id : Id) : M Response :=
  comAdmin env authorization (fun reqUsuario =>
    tryCatch
      (usuario <- usuario_findUnique (usuarioPorId id) ;;
       match usuario with
       | None => ret (falha 404 "Usuário não encontrado")
       | Some _ =>
           if String.eqb id (p_id reqUsuario)
           then ret (falha 400 "Você não pode excluir sua própria conta")
           else
             await usuario_delete id ;;
             ret (mkResponse 200
                    (Sucesso None (Some "Usuário excluído com sucesso!")
                       None))
       end)
      catch500).

End Rotas.

(** * The other routes of the three routers, and the seed *)

(** ** More of the Prisma client *)

(** [usuario.create({ data })]: the route gives [role] or leaves it to the
    default of the column. *)
Definition usuario_create (novoId : Id) (agora : Timestamp)
  (nome email senha role : string) : M Usuario.t :=
  fun db =>
    if existsb (usuarioPorId novoId) (usuario db)
       || existsb (usuarioPorEmail email) (usuario db)
    then (Throw P2002, db)
    else
      let u := Usuario.mk novoId nome email senha role agora agora in
      (Ok u, mkPrisma (usuario db ++ [u]) (cliente db) (calculo db)).

(** [usuario.findMany({ select, orderBy: { createdAt: 'desc' } })]. *)
Definition usuario_findMany {Mo : Motor} : M (list Usuario.t) :=
  fun db =>
    (Ok (orderDesc
           (fun u => tieBreak (UsuarioFindMany (usuario db)) (Usuario.id u))
           Usuario.createdAt (usuario db)), db).

(** [usuario.upsert({ where: { email }, update, create })], where [update]
    sets [nome], [senha] and [role]. *)
Definition usuario_upsert (novoId : Id) (agora : Timestamp)
  (nome email senha role : string) : M Usuario.t :=
  fun db =>
    match find (usuarioPorEmail email) (usuario db) with
    | Some u =>
        let atualiza := fun v : Usuario.t =>
          Usuario.mk (Usuario.id v) nome (Usuario.email v) senha role
            (Usuario.createdAt v) agora in
        (Ok (atualiza u),
         mkPrisma (map (fun v => if usuarioPorEmail email v
                                 then atualiza v else v) (usuario db))
                  (cliente db) (calculo db))
    | None => usuario_create novoId agora nome email senha role db
    end.

(** [cliente.findUnique({ where: { id }, include: { calculos: { orderBy:
    { createdAt: 'desc' } } } })]. *)
Definition cliente_findUnique_calculos {Mo : Motor} (id : Id)
  : M (option (Cliente.t * list Calculo.t)) :=
  fun db =>
    (Ok (option_map
           (fun c => (c, orderDesc
                           (fun k => tieBreak
                                       (ClienteCalculos (calculo db)
                                          (Cliente.id c))
                                       (Calculo.id k))
                           Calculo.createdAt
                           (filter (calculoDoCliente (Cliente.id c))
                              (calculo db))))
           (find (clientePorId id) (cliente db))), db).

(** [cliente.update({ where: { id }, data })]. *)
Definition cliente_update_id (agora : Timestamp) (id : Id) (d : ClienteDados)
  : M Cliente.t :=
  fun db =>
    match find (clientePorId id) (cliente db) with
    | None => (Throw P2025, db)
    | Some c =>
        if existsb (fun v => clientePorCpf (d_cpf d) v
                             && negb (clientePorId id v))
                   (cliente db)
        then (Throw P2002, db)
        else
          (Ok (aplicaClienteDados agora d c),
           mkPrisma (usuario db)
             (map (fun v => if clientePorId id v
                            then aplicaClienteDados agora d v else v)
                  (cliente db))
             (calculo db))
    end.

(** ** Collaborators of the routes that issue credentials

    [jwt.sign] under [JWT_KEY] (stamps the clock) and [bcrypt.compare].
    [roleDefault] is the default of the column [usuarios.role]: the routes
    read and write the column, the migration that declares it is not in this
    tree. *)
Class Emissores := mkEmissores
  { jwt_sign : Timestamp -> Claims -> string;
    bcrypt_compare : string -> string -> bool;
    roleDefault : string }.

(** ** Bodies and answers of these routes *)

Record RegistroBody := mkRegistroBody
  { rb_nome : string; rb_email : string; rb_senha : string }.

Record LoginBody := mkLoginBody { lb_email : string; lb_senha : string }.

Record UsuarioAdminCreateBody := mkUsuarioAdminCreateBody
  { cb_nome : string; cb_email : string; cb_senha : string;
    cb_role : option string }.

Record UsuarioAdminCreateDados := mkUsuarioAdminCreateDados
  { cd_nome : string; cd_email : string; cd_senha : string;
    cd_role : string }.

Inductive DataExtra :=
| DataRegistro (usuario : UsuarioPublico) (token : string)
| DataLogin (usuario : Perfil) (token : string)
| DataPerfil (usuario : Perfil)
| DataUsuarios (usuarios : list UsuarioPublico)
| DataCliente (cliente : Cliente.t)
| DataClienteCalculos (cliente : Cliente.t) (calculos : list Calculo.t).

(** An answer of these routes: a failure, in the shape the routes above give
    it, or [{ success: true, data, message }] under a status. *)
Inductive Resposta :=
| Recusa (r : Response)
| Entrega (status : Z) (data : DataExtra) (message : option string).

Definition statusDe (r : Resposta) : Z :=
  match r with
  | Recusa r' => status r'
  | Entrega st _ _ => st
  end.

Definition publico (u : Usuario.t) : UsuarioPublico :=
  mkUsuarioPublico (Usuario.id u) (Usuario.nome u) (Usuario.email u)
    (Usuario.role u) (Usuario.createdAt u).

Definition perfilDe (u : Usuario.t) : Perfil :=
  mkPerfil (Usuario.id u) (Usuario.nome u) (Usuario.email u) (Usuario.role u).

(** The users of prisma/seed. *)
Record SeedUser := mkSeedUser
  { su_nome : string; su_email : string; su_senha : string;
    su_role : string }.

Definition users : list SeedUser :=
  [ mkSeedUser "TI Uprealiza" "ti@uprealiza.com.br" "TIup123" "admin";
    mkSeedUser "Gabriel UPimoveis" "gabriel@uprealiza.com" "UPimoveis123"
      "user" ].

Section RotasRestantes.

Context {P : Provedores} {E : Emissores} {Mo : Motor}.

Local Open Scope handler_scope.

Definition recusa (m : M Response) : M Resposta :=
  r <- m ;; ret (Recusa r).

(** The middlewares in front of a route of this part. *)
Definition comAuthR (env : Env) (authorization : option string)
  (handler : Perfil -> M Resposta) : M Resposta :=
  r <- authMiddleware env authorization ;;
  match r with
  | inl resposta => ret (Recusa resposta)
  | inr reqUsuario => handler reqUsuario
  end.

Definition comAdminR (env : Env) (authorization : option string)
  (handler : Perfil -> M Resposta) : M Resposta :=
  comAuthR env authorization (fun reqUsuario =>
    r <- adminMiddleware reqUsuario ;;
    match r with
    | Some resposta => ret (Recusa resposta)
    | None => handler reqUsuario
    end).

(** ** routes/usuario.ts: registration, login, profile *)

Definition usuarioSchema (body : RegistroBody) : Result RegistroBody :=
  zParse
    (zMin 2 "Nome deve ter pelo menos 2 caracteres" (rb_nome body)
     ++ zEmail "Email inválido" (rb_email body)
     ++ zMin 6 "Senha deve ter pelo menos 6 caracteres" (rb_senha body))
    body.

Definition loginSchema (body : LoginBody) : Result LoginBody :=
  zParse
    (zEmail "Email inválido" (lb_email body)
     ++ zMin 1 "Senha é obrigatória" (lb_senha body))
    body.

Definition usuarioAdminCreateSchema (body : UsuarioAdminCreateBody)
  : Result UsuarioAdminCreateDados :=
  let role := match cb_role body with Some r => r | None => "user" end in
  zParse
    (zMin 2 "Nome deve ter pelo menos 2 caracteres" (cb_nome body)
     ++ zEmail "Email inválido" (cb_email body)
     ++ zMin 6 "Senha deve ter pelo menos 6 caracteres" (cb_senha body)
     ++ (if String.eqb role "admin" || String.eqb role "user" then []
         else ["Invalid enum value"]))
    (mkUsuarioAdminCreateDados (cb_nome body) (cb_email body) (cb_senha body)
       role).

(** POST /api/usuarios/registro.  [cuidUsuario] is the key drawn for the new
    row. *)
Definition post_usuarios_registro (env : Env) (cuidUsuario : Id)
  (body : RegistroBody) : M Resposta :=
  tryCatch
    (dados <- liftResult (usuarioSchema body) ;;
     usuarioExistente <- usuario_findUnique (usuarioPorEmail (rb_email dados)) ;;
     match usuarioExistente with
     | Some _ => ret (Recusa (falha 400 "Email já está sendo usado"))
     | None =>
         let senhaHash := bcrypt_hash (salt env) (rb_senha dados) in
         usuario <- usuario_create cuidUsuario (agora env) (rb_nome dados)
                      (rb_email dados) senhaHash roleDefault ;;
         let token :=
           jwt_sign (agora env)
             (mkClaims (Usuario.id usuario) (Usuario.email usuario)) in
         ret (Entrega 201 (DataRegistro (publico usuario) token)
                (Some "Usuário criado com sucesso!"))
     end)
    (fun e => recusa (catchZod e)).

(** POST /api/usuarios/login. *)
Definition post_usuarios_login (env : Env) (body : LoginBody) : M Resposta :=
  tryCatch
    (dados <- liftResult (loginSchema body) ;;
     usuario <- usuario_findUnique (usuarioPorEmail (lb_email dados)) ;;
     match usuario with
     | None => ret (Recusa (falha 401 "Email ou senha inválidos"))
     | Some u =>
         let senhaValida := bcrypt_compare (lb_senha dados) (Usuario.senha u) in
         if negb senhaValida
         then ret (Recusa (falha 401 "Email ou senha inválidos"))
         else
           let token :=
             jwt_sign (agora env)
               (mkClaims (Usuario.id u) (Usuario.email u)) in
           ret (Entrega 200 (DataLogin (perfilDe u) token)
                  (Some "Login realizado com sucesso!"))
     end)
    (fun e => recusa (catchZod e)).

(** GET /api/usuarios/perfil. *)
Definition get_usuarios_perfil (env : Env) (authorization : option string)
  : M Resposta :=
  comAuthR env authorization (fun reqUsuario =>
    tryCatch (ret (Entrega 200 (DataPerfil reqUsuario) None))
      (fun e => recusa (catch500 e))).

(** ** routes/usuario.ts: the admin routes on all users *)

(** GET /api/usuarios. *)
Definition get_usuarios (env : Env) (authorization : option string)
  : M Resposta :=
  comAdminR env authorization (fun reqUsuario =>
    tryCatch
      (usuarios <- usuario_findMany ;;
       ret (Entrega 200 (DataUsuarios (map publico usuarios)) None))
      (fun e => recusa (catch500 e))).

(** POST /api/usuarios. *)
Definition post_usuarios (env : Env) (cuidUsuario : Id)
  (authorization : option string) (body : UsuarioAdminCreateBody)
  : M Response :=
  comAdmin env authorization (fun reqUsuario =>
    tryCatch
      (dados <- liftResult (usuarioAdminCreateSchema body) ;;
       usuarioExistente <-
         usuario_findUnique (usuarioPorEmail (cd_email dados)) ;;
       match usuarioExistente with
       | Some _ => ret (falha 400 "Email já está sendo usado")
       | None =>
           let senhaHash := bcrypt_hash (salt env) (cd_senha dados) in
           usuario <- usuario_create cuidUsuario (agora env) (cd_nome dados)
                        (cd_email dados) senhaHash (cd_role dados) ;;
           ret (mkResponse 201
                  (Sucesso (Some (DataUsuario (publico usuario)))
                     (Some "Usuário criado com sucesso!") None))
       end)
      catchZod).

(** ** routes/cliente.ts: one client *)

Definition clienteSchema (body : ClienteDados) : Result ClienteDados :=
  zParse (clienteIssues body) body.

(** GET /api/clientes/:id. *)
Definition get_clientes_id (id : Id) : M Resposta :=
  tryCatch
    (cliente <- cliente_findUnique_calculos id ;;
     match cliente with
     | None => ret (Recusa (falha 404 "Cliente não encontrado"))
     | Some (c, ks) => ret (Entrega 200 (DataClienteCalculos c ks) None)
     end)
    (fun e => recusa (catch500 e)).

(** POST /api/clientes. *)
Definition post_clientes (env : Env) (body : ClienteDados) : M Resposta :=
  tryCatch
    (dados <- liftResult (clienteSchema body) ;;
     clienteExistente <- cliente_findUnique (clientePorCpf (d_cpf dados)) ;;
     match clienteExistente with
     | Some _ => ret (Recusa (falha 400 "Cliente com este CPF já existe"))
     | None =>
         cliente <- cliente_create (cuidCliente env) (agora env) dados ;;
         ret (Entrega 201 (DataCliente cliente)
                (Some "Cliente criado com sucesso!"))
     end)
    (fun e => recusa (catchZod e)).

(** PUT /api/clientes/:id. *)
Definition put_clientes_id (env : Env) (id : Id) (body : ClienteDados)
  : M Resposta :=
  tryCatch
    (dados <- liftResult (clienteSchema body) ;;
     cliente <- cliente_findUnique (clientePorId id) ;;
     match cliente with
     | None => ret (Recusa (falha 404 "Cliente não encontrado"))
     | Some c =>
         clienteComCpf <-
           (if negb (String.eqb (d_cpf dados) (Cliente.cpf c))
            then cliente_findUnique (clientePorCpf (d_cpf dados))
            else ret None) ;;
         match clienteComCpf with
         | Some _ =>
             ret (Recusa (falha 400
                            "CPF já está sendo usado por outro cliente"))
         | None =>
             clienteAtualizado <- cliente_update_id (agora env) id dados ;;
             ret (Entrega 200 (DataCliente clienteAtualizado)
                    (Some "Cliente atualizado com sucesso!"))
         end
     end)
    (fun e => recusa (catchZod e)).

(** ** prisma/seed: [main]

    Each turn of the loop hashes the password and upserts the user by
    e-mail.  [oraculo i] is what turn [i] draws: the clock, the salt and the
    key of a row it may have to insert. *)
Fixpoint seedLoop (oraculo : nat -> Env * Id) (i : nat) (us : list SeedUser)
  : M unit :=
  match us with
  | [] => ret tt
  | u :: us' =>
      let (env, novoId) := oraculo i in
      let hashed := bcrypt_hash (salt env) (su_senha u) in
      await usuario_upsert novoId (agora env) (su_nome u) (su_email u)
              hashed (su_role u) ;;
      seedLoop oraculo (S i) us'
  end.

Definition main (oraculo : nat -> Env * Id) : M unit :=
  seedLoop oraculo 0 users.

End RotasRestantes.

(** ** Predicates used to state the properties of these routes *)

(** The digest that PUT /api/usuarios/:id hands to [usuario.update]. *)
Definition senhaNova {P : Provedores} (env : Env) (senha : option string) : option string :=
  match senha with
  | Some s => if Js.truthy s && negb (String.eqb (Js.trim s) "")
              then Some (bcrypt_hash (salt env) s) else None
  | None => None
  end.

(** The route answered with this status. *)
Definition respondeu (st : Z) (res : Result Response) : Prop :=
  exists r, res = Ok r /\ status r = st.

Definition respondeuR (st : Z) (res : Result Resposta) : Prop :=
  exists r, res = Ok r /\ statusDe r = st.

(** The primary key of each table. *)
Definition idUnico (db : Prisma) : Prop :=
  NoDup (map Usuario.id (usuario db))
  /\ NoDup (map Cliente.id (cliente db))
  /\ NoDup (map Calculo.id (calculo db)).

(** The foreign key [calculos.usuarioId]. *)
Definition fkUsuario (db : Prisma) : Prop :=
  forall k uid, In k (calculo db) -> Calculo.usuarioId k = Some uid ->
    existsb (usuarioPorId uid) (usuario db) = true.

(** What the routes need of [jwt] and [bcrypt]: a token signed at [t0] still
    verifies at [t] and names the same user; a password matches its own
    hash. *)
Definition tokenVale {P : Provedores} {E : Emissores} (t0 t : Timestamp)
  : Prop :=
  forall c, exists c',
    jwt_verify t (jwt_sign t0 c) = Some c' /\ userId c' = userId c.

Definition hashConfere {P : Provedores} {E : Emissores} : Prop :=
  forall sal senha, bcrypt_compare senha (bcrypt_hash sal senha) = true.

(** ** Two properties in the specification's own words *)



(** Listing order as the specification has it: newer first, and among rows
    of one creation time the smaller id first. *)
Definition antesSpec (k1 k2 : Calculo.t) : bool :=
  (Calculo.createdAt k2 <? Calculo.createdAt k1)
  || ((Calculo.createdAt k1 =? Calculo.createdAt k2)
      && String.leb (Calculo.id k1) (Calculo.id k2)).

(** The seven numbers that POST /api/calculos hands to [calculo.create]:
    the two of the body, the four it computes and the rate. *)
Definition numeros (vl vt tp : float) : list float :=
  [ vl; vt; (vl + vt)%float; ((vl + vt) * 4)%float;
    ((vl + vt) * 4 * 0.75)%float; ((vl + vt) * 4 * 0.75 * (1 + tp))%float;
    tp ].

(** The filters of the calculation listing as the specification has them:
    the calculations of the client that the query names, all of them when it
    names none (or the empty text); and the calculations of a user. *)
Definition doClientePedido (query : CalculosQuery) (k : Calculo.t) : bool :=
  match q_clienteId query with
  | Some c => String.eqb c "" || String.eqb (Calculo.clienteId k) c
  | None => true
  end.

Definition doUsuario (reqUsuario : Perfil) (k : Calculo.t) : bool :=
  match Calculo.usuarioId k with
  | Some uid => String.eqb uid (p_id reqUsuario)
  | None => false
  end.

(** What the listing may show to a caller: everything to an admin, the
    caller's own calculations to anyone else. *)
Definition visivel (reqUsuario : Perfil) (query : CalculosQuery)
  (k : Calculo.t) : bool :=
  doClientePedido query k
  && (String.eqb (p_role reqUsuario) "admin" || doUsuario reqUsuario k).

(** ** Projections used to state the properties *)

(** The [pagination] of a listing. *)
Definition paginacaoDaResposta (r : Result Response * Prisma)
  : option Pagination :=
  match fst r with
  | Ok (mkResponse _ (Sucesso _ _ pagination)) => pagination
  | _ => None
  end.

(** The clients a listing carries, each with its [_count.calculos]. *)
Definition contagensDaResposta (r : Result Response * Prisma)
  : list (Cliente.t * Z) :=
  match fst r with
  | Ok (mkResponse _ (Sucesso (Some (DataClientes cs)) _ _)) => cs
  | _ => []
  end.

(** The calculation a response carries, if it carries one. *)
Definition calculoDaResposta (r : Result Response * Prisma)
  : option Calculo.t :=
  match fst r with
  | Ok (mkResponse _ (Sucesso (Some (DataCalculo (k, _))) _ _)) => Some k
  | _ => None
  end.

(** The calculations a listing carries. *)
Definition calculosDaResposta (r : Result Response * Prisma)
  : list Calculo.t :=
  match fst r with
  | Ok (mkResponse _ (Sucesso (Some (DataCalculos ks)) _ _)) => map fst ks
  | _ => []
  end.


(** The rank the engine gives the rows for the query of GET /api/calculos
    and for that of GET /api/clientes. *)
Definition tieCalculos {Mo : Motor} (db : Prisma) (reqUsuario : Perfil)
  (query : CalculosQuery) (k : Calculo.t) : Z :=
  tieBreak
    (CalculoFindMany (calculo db) (calculosWhere reqUsuario query)
       ((orDefault 1 (q_page query) - 1) * orDefault 50 (q_limit query))
       (orDefault 50 (q_limit query)))
    (Calculo.id k).

Definition tieClientes {Mo : Motor} (db : Prisma) (query : ClientesQuery)
  (c : Cliente.t) : Z :=
  tieBreak
    (ClienteFindMany (cliente db) (clientesWhere query)
       ((orDefault 1 (cq_page query) - 1) * orDefault 50 (cq_limit query))
       (orDefault 50 (cq_limit query)))
    (Cliente.id c).

(** A client without the time of its last update. *)
Definition semUpdatedAt (c : Cliente.t)
  : Id * string * string * string * string * Timestamp :=
  (Cliente.id c, Cliente.nome c, Cliente.telefone c, Cliente.cpf c,
   Cliente.email c, Cliente.createdAt c).

(** Every calculation points to a client of the table (the foreign key). *)
Definition fkCliente (db : Prisma) : Prop :=
  forall k, In k (calculo db) ->
    existsb (clientePorId (Calculo.clienteId k)) (cliente db) = true.

(** Newest first. *)
Definition descendente {A} (key : A -> Z) (l : list A) : Prop :=
  StronglySorted (fun a b => key b <= key a) l.

(** The unique index on [clientes.cpf] and on [usuarios.email]. *)
Definition cpfUnico (db : Prisma) : Prop :=
  NoDup (map Cliente.cpf (cliente db)).
Definition emailUnico (db : Prisma) : Prop :=
  NoDup (map Usuario.email (usuario db)).

(** The request passes [authMiddleware], which sets [req.usuario]. *)
Definition autenticado {P : Provedores} (env : Env)
  (authorization : option string) (db : Prisma) (reqUsuario : Perfil) : Prop :=
  authMiddleware env authorization db = (Ok (inr reqUsuario), db).

(** The request passes [adminMiddleware]. *)
Definition administrador (reqUsuario : Perfil) (db : Prisma) : Prop :=
  adminMiddleware reqUsuario db = (Ok None, db).

(** ** A small database and toy collaborators, to run the routes on *)

Module Exemplo.

Definition provedores : Provedores :=
  mkProvedores
    (fun _ token => if String.prefix "jwt." token
                    then Some (mkClaims (Js.drop 4 token) "")
                    else None)
    (fun sal senha => "$2b$10$" ++ sal ++ senha)
    (Js.includes "@").

Definition admin : Usuario.t :=
  Usuario.mk "u1" "TI Uprealiza" "ti@uprealiza.com.br" "$2b$10$aaTIup123"
    "admin" 1000 1000.
Definition gabriel : Usuario.t :=
  Usuario.mk "u2" "Gabriel UPimoveis" "gabriel@uprealiza.com"
    "$2b$10$bbUPimoveis123" "user" 1001 1001.

Definition ana : Cliente.t :=
  Cliente.mk "c1" "Ana Souza" "11999990000" "12345678901" "ana@exemplo.com"
    2000 2000.
Definition bruno : Cliente.t :=
  Cliente.mk "c2" "Bruno Lima" "21988887777" "98765432100"
    "bruno@exemplo.com" 2001 2001.

(** An engine that yields rows of one creation time in the order of the
    table. *)
Definition motor : Motor := mkMotor (fun _ _ => 0).

Definition calculoDe (id : Id) (dono : Id) (criado : Timestamp) : Calculo.t :=
  Calculo.mk id 1000 200 1200 4800 3600 3618
    taxaPoupancaDefault "c1" (Some dono) criado criado.

(** [kb] and [ka] were created in the same millisecond, [kb] stored first. *)
Definition kb : Calculo.t := calculoDe "kb" "u1" 5000.
Definition ka : Calculo.t := calculoDe "ka" "u2" 5000.
Definition kc : Calculo.t := calculoDe "kc" "u2" 6000.

Definition db : Prisma := mkPrisma [admin; gabriel] [ana; bruno] [kb; ka; kc].

Definition env : Env := mkEnv 7000 "c3" "kd" "cc".

Definition bearerAdmin : option string := Some "Bearer jwt.u1".
Definition bearerGabriel : option string := Some "Bearer jwt.u2".

Definition perfilAdmin : Perfil :=
  mkPerfil "u1" "TI Uprealiza" "ti@uprealiza.com.br" "admin".
Definition perfilGabriel : Perfil :=
  mkPerfil "u2" "Gabriel UPimoveis" "gabriel@uprealiza.com" "user".

(** Ana's CPF with a new name and telephone. *)
Definition dadosAna : ClienteDados :=
  mkClienteDados "Ana Lima" "11888880000" "12345678901" "ana@exemplo.com".
Definition dadosCarla : ClienteDados :=
  mkClienteDados "Carla Dias" "31977776666" "11122233344" "carla@exemplo.com".

(** [{ valorLocacao: 1000, valorTaxas: 200, cliente, taxaPoupanca: 0.005 }] *)
Definition corpo : CriarCalculoBody :=
  mkCriarCalculoBody 1000 200 dadosCarla (Some taxaPoupancaDefault).

(** The doubles that JavaScript reads from [0.1], [0.2], [0.3] and [1e308]. *)
Definition tenth : float := 0x1.999999999999ap-4%float.
Definition fifth : float := 0x1.999999999999ap-3%float.
Definition threeTenths : float := 0x1.3333333333333p-2%float.
Definition e308 : float := 0x1.1ccf385ebc8ap+1023%float.

(** [{ valorLocacao: 0.1, valorTaxas: 0.2, cliente }] and
    [{ valorLocacao: 1e308, valorTaxas: 1e308, cliente }]. *)
Definition corpoDecimos : CriarCalculoBody :=
  mkCriarCalculoBody tenth fifth dadosCarla None.
Definition corpoEnorme : CriarCalculoBody :=
  mkCriarCalculoBody e308 e308 dadosCarla None.

End Exemplo.

(** Collaborators that agree with those of [Exemplo]: a token is "jwt."
    and the user's id, a digest ends with the password. *)
Module ExemploExtra.

Fixpoint terminaCom (senha digest : string) : bool :=
  String.eqb digest senha
  || match digest with
     | EmptyString => false
     | String _ d => terminaCom senha d
     end.

Definition emissores : Emissores :=
  mkEmissores (fun _ claims => "jwt." ++ userId claims) terminaCom "user".

Definition corpoRegistro : RegistroBody :=
  mkRegistroBody "Carla Dias" "carla@exemplo.com" "segredo1".

Definition carla : Usuario.t :=
  Usuario.mk "u3" "Carla Dias" "carla@exemplo.com" "$2b$10$ccsegredo1" "user"
    7000 7000.

Definition oraculo (i : nat) : Env * Id :=
  match i with
  | O => (mkEnv 9000 "" "" "s0", "u8")
  | _ => (mkEnv 9001 "" "" "s1", "u9")
  end.

(** The admin saves the own account and names no role. *)
Definition adminSemRole : Result Response * Prisma :=
  @put_usuarios_id Exemplo.provedores Exemplo.env Exemplo.bearerAdmin "u1"
    (mkUsuarioAdminUpdateBody "TI Uprealiza" "ti@uprealiza.com.br" None None)
    Exemplo.db.

(** The admin gives Gabriel six spaces as a password. *)
Definition gabrielEmBranco : Result Response * Prisma :=
  @put_usuarios_id Exemplo.provedores Exemplo.env Exemplo.bearerAdmin "u2"
    (mkUsuarioAdminUpdateBody "Gabriel UPimoveis" "gabriel@uprealiza.com"
       (Some "      ") (Some "user"))
    Exemplo.db.

(** The admin deletes Gabriel. *)
Definition semGabriel : Result Response * Prisma :=
  @delete_usuarios_id Exemplo.provedores Exemplo.env Exemplo.bearerAdmin "u2"
    Exemplo.db.

(** The admin creates Carla as an admin. *)
Definition corpoCriar : UsuarioAdminCreateBody :=
  mkUsuarioAdminCreateBody "Carla Dias" "carla@exemplo.com" "segredo1"
    (Some "admin").

Definition comCarla : Result Response * Prisma :=
  @post_usuarios Exemplo.provedores Exemplo.env "u3" Exemplo.bearerAdmin
    corpoCriar Exemplo.db.

(** Carla is created as a client; Ana is renamed. *)
Definition comClienteCarla : Result Resposta * Prisma :=
  @post_clientes Exemplo.provedores Exemplo.env Exemplo.dadosCarla Exemplo.db.

Definition anaEditada : Result Resposta * Prisma :=
  @put_clientes_id Exemplo.provedores Exemplo.env "c1" Exemplo.dadosAna
    Exemplo.db.

(** Ana's row is asked to take Bruno's CPF. *)
Definition anaComCpfDeBruno : Result Resposta * Prisma :=
  @put_clientes_id Exemplo.provedores Exemplo.env "c1"
    (mkClienteDados "Ana Souza" "11999990000" "98765432100"
       "ana@exemplo.com")
    Exemplo.db.

(** Gabriel creates the calculation of [Exemplo.corpo]. *)
Definition aposCriar : Result Response * Prisma :=
  @post_calculos Exemplo.provedores Exemplo.env Exemplo.bearerGabriel
    Exemplo.corpo Exemplo.db.

(** The seed is run on the example database. *)
Definition aposSeed : Result unit * Prisma :=
  @main Exemplo.provedores oraculo Exemplo.db.

(** A database in which Ana has one calculation. *)
Definition dbUm : Prisma :=
  mkPrisma [Exemplo.admin; Exemplo.gabriel] [Exemplo.ana; Exemplo.bruno]
    [Exemplo.kb].

Definition semKb : Result Response * Prisma :=
  @delete_calculos_id Exemplo.provedores Exemplo.env Exemplo.bearerGabriel
    "kb" dbUm.

End ExemploExtra.

(** * Properties *)

(** ** Doubles: a number that compares above another is not [NaN] *)

Lemma SFeqb_refl_not_nan (x : SpecFloat.spec_float) :
  x <> SpecFloat.S754_nan -> SpecFloat.SFeqb x x = true.
Proof.
  destruct x as [s| s | |s m e]; intros Hx; try congruence;
    unfold SpecFloat.SFeqb, SpecFloat.SFcompare.
  - destruct s; reflexivity.
  - destruct s; reflexivity.
  - rewrite Z.compare_refl.
    destruct s; rewrite ?Pos.compare_refl; cbn; rewrite ?Pos.compare_refl;
      reflexivity.
Qed.

Lemma ltb_not_nan (a x : float) :
  PrimFloat.ltb a x = true -> PrimFloat.is_nan x = false.
Proof.
  unfold PrimFloat.is_nan.
  rewrite FloatAxioms.ltb_spec, FloatAxioms.eqb_spec.
  intros H. rewrite SFeqb_refl_not_nan; [reflexivity|].
  intros Hn. rewrite Hn in H. unfold SpecFloat.SFltb, SpecFloat.SFcompare in H.
  destruct (Prim2SF a) as [| [] | |]; discriminate.
Qed.

Lemma leb_not_nan (a x : float) :
  PrimFloat.leb a x = true -> PrimFloat.is_nan x = false.
Proof.
  unfold PrimFloat.is_nan.
  rewrite FloatAxioms.leb_spec, FloatAxioms.eqb_spec.
  intros H. rewrite SFeqb_refl_not_nan; [reflexivity|].
  intros Hn. rewrite Hn in H. unfold SpecFloat.SFleb, SpecFloat.SFcompare in H.
  destruct (Prim2SF a) as [| [] | |]; discriminate.
Qed.

(** ** Lists and tables *)

Lemma find_none_existsb {A} (p : A -> bool) (l : list A) :
  find p l = None -> existsb p l = false.
Proof.
  induction l as [|x l IH]; cbn; [reflexivity|].
  destruct (p x); [discriminate|]. exact IH.
Qed.

Lemma find_some_existsb {A} (p : A -> bool) (l : list A) (x : A) :
  find p l = Some x -> existsb p l = true.
Proof.
  intros H. apply find_some in H. apply existsb_exists. exists x. exact H.
Qed.

Lemma existsb_find {A} (p : A -> bool) (l : list A) :
  existsb p l = true -> exists x, find p l = Some x.
Proof.
  induction l as [|x l IH]; cbn; [discriminate|].
  destruct (p x); [intros _; eexists; reflexivity|exact IH].
Qed.

Lemma NoDup_map_inj {A B} (f : A -> B) (l : list A) (a b : A) :
  NoDup (map f l) -> In a l -> In b l -> f a = f b -> a = b.
Proof.
  induction l as [|x l IH]; cbn; [contradiction|].
  intros Hnd Ha Hb Hf. inversion Hnd as [|? ? Hx Hl]; subst.
  destruct Ha as [->|Ha], Hb as [->|Hb]; auto.
  - exfalso. apply Hx. rewrite Hf. apply in_map. exact Hb.
  - exfalso. apply Hx. rewrite <- Hf. apply in_map. exact Ha.
Qed.

Lemma find_app_none {A} (p : A -> bool) (l1 l2 : list A) :
  find p l1 = None -> find p (l1 ++ l2) = find p l2.
Proof.
  induction l1 as [|x l IH]; cbn; [reflexivity|].
  destruct (p x); [discriminate|exact IH].
Qed.

(** Overwriting the rows selected by [p] with [f], when [f] keeps them
    selected. *)
Lemma find_map_where {A} (p : A -> bool) (f : A -> A) (l : list A) :
  (forall x, p x = true -> p (f x) = true) ->
  find p (map (fun v => if p v then f v else v) l) = option_map f (find p l).
Proof.
  intros Hp. induction l as [|x l IH]; cbn; [reflexivity|].
  destruct (p x) eqn:Hx.
  - rewrite (Hp x Hx). reflexivity.
  - rewrite Hx. exact IH.
Qed.

Lemma filter_not_in {A} (f : A -> string) (s : string) (l : list A) :
  ~ In s (map f l) -> filter (fun v => String.eqb (f v) s) l = [].
Proof.
  induction l as [|x l IH]; cbn; [reflexivity|].
  intros Hn. destruct (String.eqb (f x) s) eqn:Hs.
  - exfalso. apply Hn. left. apply String.eqb_eq. exact Hs.
  - apply IH. intros H. apply Hn. right. exact H.
Qed.

Lemma NoDup_find_filter {A} (f : A -> string) (s : string) (l : list A) (c : A) :
  NoDup (map f l) ->
  find (fun v => String.eqb (f v) s) l = Some c ->
  filter (fun v => String.eqb (f v) s) l = [c].
Proof.
  induction l as [|x l IH]; cbn; [discriminate|].
  intros Hnd Hf. inversion Hnd as [|? ? Hx Hl]; subst.
  destruct (String.eqb (f x) s) eqn:Hs.
  - injection Hf as ->. f_equal.
    apply String.eqb_eq in Hs. subst s.
    apply filter_not_in. exact Hx.
  - apply IH; assumption.
Qed.

Lemma find_none_not_in {A} (f : A -> string) (s : string) (l : list A) :
  find (fun v => String.eqb (f v) s) l = None -> ~ In s (map f l).
Proof.
  induction l as [|x l IH]; cbn; [tauto|].
  destruct (String.eqb (f x) s) eqn:Hs; [discriminate|].
  intros Hf [Hx|Hin]; [|exact (IH Hf Hin)].
  apply String.eqb_neq in Hs. contradiction.
Qed.

Lemma filter_none_length {A} (p : A -> bool) (l : list A) :
  length (filter p l) = 0%nat -> filter (fun x => negb (p x)) l = l.
Proof.
  induction l as [|x l IH]; cbn; [reflexivity|].
  destruct (p x); cbn; [discriminate|]. intros H. f_equal. exact (IH H).
Qed.

(** ** The handler monad *)

Lemma bind_ok {A B} (m : M A) (k : A -> M B) (db db' : Prisma) (a : A) :
  m db = (Ok a, db') -> bind m k db = k a db'.
Proof. unfold bind. intros ->. reflexivity. Qed.

Lemma tryCatch_ok {A} (m : M A) (h : Error -> M A) (db db' : Prisma) (a : A) :
  m db = (Ok a, db') -> tryCatch m h db = (Ok a, db').
Proof. unfold tryCatch. intros ->. reflexivity. Qed.

Section Propriedades.

Context {P : Provedores} {Mo : Motor}.

(** ** The middlewares *)

Lemma authMiddleware_db env authorization db :
  snd (authMiddleware env authorization db) = db.
Proof.
  unfold authMiddleware, tryCatch, bind, liftResult, usuario_findUnique, ret.
  destruct authorization as [h|]; [|reflexivity].
  destruct (Js.truthy h); [|reflexivity]. cbn.
  destruct (jwt_verify (agora env) (Js.replace "Bearer " "" h));
    [|reflexivity].
  destruct (find _ (usuario db)); reflexivity.
Qed.

(** [req.usuario] is a row of the table, found under its own [id]. *)
Lemma autenticado_usuario env authorization db reqUsuario :
  autenticado env authorization db reqUsuario ->
  exists u, find (usuarioPorId (p_id reqUsuario)) (usuario db) = Some u
            /\ reqUsuario = mkPerfil (Usuario.id u) (Usuario.nome u)
                              (Usuario.email u) (Usuario.role u).
Proof.
  unfold autenticado, authMiddleware, tryCatch, bind, liftResult,
    usuario_findUnique, ret.
  destruct authorization as [h|]; [|discriminate].
  destruct (Js.truthy h); [|discriminate]. cbn.
  destruct (jwt_verify (agora env) (Js.replace "Bearer " "" h)) as [c|];
    [|discriminate].
  destruct (find (usuarioPorId (userId c)) (usuario db)) as [u|] eqn:Hf;
    [|discriminate].
  intros H. injection H as <-. exists u. split; [|reflexivity]. cbn.
  pose proof (find_some _ _ Hf) as [_ Hid]. unfold usuarioPorId in Hid.
  apply String.eqb_eq in Hid. rewrite Hid. exact Hf.
Qed.

Lemma comAuth_ok env authorization db reqUsuario handler :
  autenticado env authorization db reqUsuario ->
  comAuth env authorization handler db = handler reqUsuario db.
Proof.
  unfold autenticado, comAuth, bind. intros ->. reflexivity.
Qed.

Lemma comAdmin_ok env authorization db reqUsuario handler :
  autenticado env authorization db reqUsuario ->
  administrador reqUsuario db ->
  comAdmin env authorization handler db = handler reqUsuario db.
Proof.
  intros Ha Hadm. unfold comAdmin. rewrite (comAuth_ok _ _ _ _ _ Ha).
  unfold administrador in Hadm. unfold bind. rewrite Hadm. reflexivity.
Qed.

(** C3. [authMiddleware] answers 401 "Token de acesso requerido" when the
    request has no [Authorization] header (or an empty one), and 401
    "Token inválido" both when [jwt.verify] refuses the token and when it
    accepts a token whose user is no longer in the table: the two answers are
    the same response. *)
Theorem C3_authMiddleware_respostas (env : Env) (db : Prisma) :
  (forall authorization,
      authorization = None \/ authorization = Some "" ->
      authMiddleware env authorization db = (Ok (inl tokenRequerido), db))
  /\ (forall h,
         h <> "" ->
         jwt_verify (agora env) (Js.replace "Bearer " "" h) = None ->
         authMiddleware env (Some h) db = (Ok (inl tokenInvalido), db))
  /\ (forall h claims,
         h <> "" ->
         jwt_verify (agora env) (Js.replace "Bearer " "" h) = Some claims ->
         find (usuarioPorId (userId claims)) (usuario db) = None ->
         authMiddleware env (Some h) db = (Ok (inl tokenInvalido), db))
  /\ tokenRequerido = mkResponse 401 (Falha "Token de acesso requerido" None)
  /\ tokenInvalido = mkResponse 401 (Falha "Token inválido" None).
Proof.
  assert (Ht : forall h, h <> "" -> Js.truthy h = true).
  { intros h Hh. unfold Js.truthy. apply negb_true_iff.
    apply String.eqb_neq. exact Hh. }
  repeat split.
  - intros authorization [-> | ->]; reflexivity.
  - intros h Hh Hv.
    unfold authMiddleware, tryCatch, bind, liftResult.
    rewrite (Ht h Hh). cbn. rewrite Hv. reflexivity.
  - intros h claims Hh Hv Hf.
    unfold authMiddleware, tryCatch, bind, liftResult, usuario_findUnique.
    rewrite (Ht h Hh). cbn. rewrite Hv, Hf. reflexivity.
Qed.

(** ** POST /api/calculos: the upsert of the client *)

Lemma upsertCliente_existente env d db c :
  find (clientePorCpf (d_cpf d)) (cliente db) = Some c ->
  upsertCliente env d db
  = (Ok (aplicaClienteDados (agora env) d c),
     mkPrisma (usuario db)
       (map (fun v => if clientePorCpf (d_cpf d) v
                      then aplicaClienteDados (agora env) d v else v)
            (cliente db))
       (calculo db)).
Proof.
  intros Hf. unfold upsertCliente, bind, cliente_findUnique.
  rewrite Hf. unfold cliente_update. rewrite Hf.
  replace (existsb _ (cliente db)) with false; [reflexivity|].
  symmetry. clear Hf. induction (cliente db) as [|v l IH]; cbn; [reflexivity|].
  rewrite IH. destruct (clientePorCpf (d_cpf d) v); reflexivity.
Qed.

Lemma upsertCliente_novo env d db :
  find (clientePorCpf (d_cpf d)) (cliente db) = None ->
  existsb (clientePorId (cuidCliente env)) (cliente db) = false ->
  let c := Cliente.mk (cuidCliente env) (d_nome d) (d_telefone d) (d_cpf d)
             (d_email d) (agora env) (agora env) in
  upsertCliente env d db
  = (Ok c, mkPrisma (usuario db) (cliente db ++ [c]) (calculo db)).
Proof.
  intros Hf Hid c. unfold upsertCliente, bind, cliente_findUnique.
  rewrite Hf. unfold cliente_create.
  rewrite Hid, (find_none_existsb _ _ Hf). reflexivity.
Qed.

Lemma clientePorCpf_aplica env d v :
  clientePorCpf (d_cpf d) (aplicaClienteDados (agora env) d v) = true.
Proof. unfold clientePorCpf. cbn. apply String.eqb_refl. Qed.

(** After the upsert the client it returns is the row found under the CPF,
    every row of that CPF holds the request's contact data, and the other
    tables are as before. *)
Lemma upsertCliente_resultado env d db c1 db1 :
  upsertCliente env d db = (Ok c1, db1) ->
  find (clientePorCpf (d_cpf d)) (cliente db1) = Some c1
  /\ (forall v, In v (cliente db1) -> clientePorCpf (d_cpf d) v = true ->
        Cliente.nome v = d_nome d /\ Cliente.telefone v = d_telefone d
        /\ Cliente.cpf v = d_cpf d /\ Cliente.email v = d_email d)
  /\ usuario db1 = usuario db /\ calculo db1 = calculo db.
Proof.
  destruct (find (clientePorCpf (d_cpf d)) (cliente db)) as [c|] eqn:Hf.
  - rewrite (upsertCliente_existente env _ _ _ Hf). intros H.
    injection H as <- <-. cbn.
    assert (Hrows : forall v,
               In v (map (fun v => if clientePorCpf (d_cpf d) v
                                   then aplicaClienteDados (agora env) d v
                                   else v) (cliente db)) ->
               clientePorCpf (d_cpf d) v = true ->
               exists w, v = aplicaClienteDados (agora env) d w).
    { intros v Hin Hv. apply in_map_iff in Hin. destruct Hin as (w & Hw & _).
      destruct (clientePorCpf (d_cpf d) w) eqn:E; subst v;
        [exists w; reflexivity|congruence]. }
    repeat split;
      try (match goal with
           | Hin : In ?v _, Hv : clientePorCpf _ ?v = true |- _ =>
               destruct (Hrows v Hin Hv) as (w & ->); reflexivity
           end).
    rewrite find_map_where, Hf; [reflexivity|].
    intros x _. apply clientePorCpf_aplica.
  - unfold upsertCliente, bind, cliente_findUnique. rewrite Hf.
    unfold cliente_create.
    destruct (existsb (clientePorId (cuidCliente env)) (cliente db)
              || existsb (clientePorCpf (d_cpf d)) (cliente db));
      [discriminate|].
    intros H. injection H as <- <-. cbn.
    assert (Hnew : forall v,
               In v (cliente db ++
                       [Cliente.mk (cuidCliente env) (d_nome d) (d_telefone d)
                          (d_cpf d) (d_email d) (agora env) (agora env)])%list ->
               clientePorCpf (d_cpf d) v = true ->
               v = Cliente.mk (cuidCliente env) (d_nome d) (d_telefone d)
                     (d_cpf d) (d_email d) (agora env) (agora env)).
    { intros v Hin Hv. apply in_app_or in Hin. destruct Hin as [Hin|[<-|[]]];
        [|reflexivity].
      exfalso. pose proof (find_none _ _ Hf v Hin) as Hn. congruence. }
    repeat split;
      try (match goal with
           | Hin : In ?v _, Hv : clientePorCpf _ ?v = true |- _ =>
               rewrite (Hnew v Hin Hv); reflexivity
           end).
    rewrite (find_app_none _ _ _ Hf). cbn.
    unfold clientePorCpf. cbn. rewrite String.eqb_refl. reflexivity.
Qed.

Lemma upsertCliente_cpfUnico env d db c1 db1 :
  cpfUnico db -> upsertCliente env d db = (Ok c1, db1) -> cpfUnico db1.
Proof.
  unfold cpfUnico. intros Hnd.
  destruct (find (clientePorCpf (d_cpf d)) (cliente db)) as [c|] eqn:Hf.
  - rewrite (upsertCliente_existente env _ _ _ Hf). intros H.
    injection H as <- <-. cbn. rewrite map_map.
    erewrite map_ext; [exact Hnd|].
    intros v. cbn. destruct (clientePorCpf (d_cpf d) v) eqn:E; [|reflexivity].
    cbn. unfold clientePorCpf in E. apply String.eqb_eq in E. congruence.
  - unfold upsertCliente, bind, cliente_findUnique. rewrite Hf.
    unfold cliente_create.
    destruct (existsb (clientePorId (cuidCliente env)) (cliente db)
              || existsb (clientePorCpf (d_cpf d)) (cliente db));
      [discriminate|].
    intros H. injection H as <- <-. cbn. rewrite map_app. cbn.
    apply (Permutation_NoDup (Permutation_cons_append _ _)).
    constructor; [|exact Hnd].
    exact (find_none_not_in Cliente.cpf _ _ Hf).
Qed.

(** C6. The upsert step of POST /api/calculos.  When a client of the CPF
    exists, that row is overwritten where it stands (same place in the table,
    same [id] and [createdAt]); when none exists, one row is added.  A second
    upsert with the same data succeeds, leaves exactly one row of that CPF,
    and changes nothing of the table but that row's [updatedAt]. *)
Theorem C6_upsertCliente_idempotente (env : Env) (d : ClienteDados)
  (db : Prisma) :
  cpfUnico db ->
  (forall c,
      find (clientePorCpf (d_cpf d)) (cliente db) = Some c ->
      exists db',
        upsertCliente env d db = (Ok (aplicaClienteDados (agora env) d c), db')
        /\ cliente db'
           = map (fun v => if clientePorCpf (d_cpf d) v
                           then aplicaClienteDados (agora env) d v else v)
               (cliente db)
        /\ length (cliente db') = length (cliente db)
        /\ Cliente.id (aplicaClienteDados (agora env) d c) = Cliente.id c
        /\ Cliente.createdAt (aplicaClienteDados (agora env) d c)
           = Cliente.createdAt c)
  /\ (find (clientePorCpf (d_cpf d)) (cliente db) = None ->
      existsb (clientePorId (cuidCliente env)) (cliente db) = false ->
      exists novo db',
        upsertCliente env d db = (Ok novo, db')
        /\ cliente db' = (cliente db ++ [novo])%list
        /\ Cliente.id novo = cuidCliente env
        /\ Cliente.cpf novo = d_cpf d)
  /\ (forall env2 c1 db1,
         upsertCliente env d db = (Ok c1, db1) ->
         exists c2 db2,
           upsertCliente env2 d db1 = (Ok c2, db2)
           /\ filter (clientePorCpf (d_cpf d)) (cliente db1) = [c1]
           /\ filter (clientePorCpf (d_cpf d)) (cliente db2) = [c2]
           /\ length (cliente db2) = length (cliente db1)
           /\ map semUpdatedAt (cliente db2) = map semUpdatedAt (cliente db1)
           /\ semUpdatedAt c2 = semUpdatedAt c1
           /\ (Cliente.nome c2, Cliente.telefone c2, Cliente.cpf c2,
               Cliente.email c2)
              = (d_nome d, d_telefone d, d_cpf d, d_email d)).
Proof.
  intros Hnd. split; [|split].
  - intros c Hf. eexists. split; [exact (upsertCliente_existente env _ _ _ Hf)|].
    cbn. rewrite length_map. repeat split.
  - intros Hf Hid. do 2 eexists.
    split; [exact (upsertCliente_novo env _ _ Hf Hid)|]. repeat split.
  - intros env2 c1 db1 H1.
    pose proof (upsertCliente_cpfUnico env _ _ _ _ Hnd H1) as Hnd1.
    destruct (upsertCliente_resultado env _ _ _ _ H1) as (Hf1 & Hrows & _ & _).
    pose proof (upsertCliente_existente env2 _ _ _ Hf1) as H2.
    destruct (upsertCliente_resultado env2 _ _ _ _ H2) as (Hf2 & _ & _ & _).
    pose proof (upsertCliente_cpfUnico env2 _ _ _ _ Hnd1 H2) as Hnd2.
    pose proof (find_some _ _ Hf1) as [Hin1 Hc1].
    destruct (Hrows c1 Hin1 Hc1) as (Hn & Ht & Hc & He).
    do 2 eexists. split; [exact H2|].
    split; [exact (NoDup_find_filter Cliente.cpf _ _ _ Hnd1 Hf1)|].
    split; [exact (NoDup_find_filter Cliente.cpf _ _ _ Hnd2 Hf2)|].
    cbn. rewrite length_map. split; [reflexivity|].
    split.
    + rewrite map_map. apply map_ext_in. intros v Hv.
      destruct (clientePorCpf (d_cpf d) v) eqn:E; [|reflexivity].
      destruct (Hrows v Hv E) as (Hn' & Ht' & Hc' & He').
      unfold semUpdatedAt. cbn. congruence.
    + split; unfold semUpdatedAt; cbn; congruence.
Qed.

Lemma upsertCliente_sucesso env d db :
  (find (clientePorCpf (d_cpf d)) (cliente db) = None ->
   existsb (clientePorId (cuidCliente env)) (cliente db) = false) ->
  exists c1 db1, upsertCliente env d db = (Ok c1, db1).
Proof.
  intros Hid.
  destruct (find (clientePorCpf (d_cpf d)) (cliente db)) as [c|] eqn:Hf.
  - do 2 eexists. exact (upsertCliente_existente env _ _ _ Hf).
  - do 2 eexists. exact (upsertCliente_novo env _ _ Hf (Hid eq_refl)).
Qed.

(** ** POST /api/calculos: the values of the calculation *)

Lemma criarCalculoSchema_ok vl vt cli otp :
  PrimFloat.ltb 0 vl = true ->
  PrimFloat.ltb 0 vt = true ->
  PrimFloat.leb 0 (match otp with
                   | Some t => t
                   | None => taxaPoupancaDefault
                   end) = true ->
  clienteIssues cli = [] ->
  criarCalculoSchema (mkCriarCalculoBody vl vt cli otp)
  = Ok (mkCriarCalculoDados vl vt cli
          (match otp with Some t => t | None => taxaPoupancaDefault end)).
Proof.
  intros Hl Ht Hp Hc. unfold criarCalculoSchema, zPositive, zNumber. cbn.
  rewrite (ltb_not_nan _ _ Hl), (ltb_not_nan _ _ Ht), (leb_not_nan _ _ Hp).
  rewrite Hl, Ht, Hc. reflexivity.
Qed.

Lemma calculo_create_eq novoId agora data db :
  existsb (clientePorId (Calculo.clienteId (data novoId agora agora)))
    (cliente db) = true ->
  match Calculo.usuarioId (data novoId agora agora) with
  | Some uid => existsb (usuarioPorId uid) (usuario db)
  | None => true
  end = true ->
  calculo_create novoId agora data db
  = if negb (forallb PrimFloat.is_finite (floats (data novoId agora agora)))
    then (Throw PrismaValidation, db)
    else if existsb (calculoPorId novoId) (calculo db)
    then (Throw P2002, db)
    else
      let k := stored (data novoId agora agora) in
      let db' := mkPrisma (usuario db) (cliente db) (calculo db ++ [k]) in
      (Ok (incluiCliente db' k), db').
Proof.
  intros Hc Hu. unfold calculo_create.
  destruct (negb (forallb PrimFloat.is_finite _)); [reflexivity|].
  destruct (existsb (calculoPorId novoId) (calculo db)); [reflexivity|].
  change (Calculo.clienteId (stored (data novoId agora agora)))
    with (Calculo.clienteId (data novoId agora agora)).
  change (Calculo.usuarioId (stored (data novoId agora agora)))
    with (Calculo.usuarioId (data novoId agora agora)).
  rewrite Hc. cbn [negb].
  destruct (Calculo.usuarioId (data novoId agora agora)) as [uid|];
    [rewrite Hu|]; reflexivity.
Qed.

(** POST /api/calculos once the body has passed the schema and the client
    has been upserted: the row the route builds, and what becomes of it. *)
Lemma post_calculos_passos env authorization db u body dados c1 db1 :
  autenticado env authorization db u ->
  criarCalculoSchema body = Ok dados ->
  upsertCliente env (dados_cliente dados) db = (Ok c1, db1) ->
  let vi := (dados_valorLocacao dados + dados_valorTaxas dados)%float in
  let k := Calculo.mk (cuidCalculo env)
             (dados_valorLocacao dados) (dados_valorTaxas dados)
             vi (vi * 4)%float (vi * 4 * 0.75)%float
             (vi * 4 * 0.75 * (1 + dados_taxaPoupanca dados))%float
             (dados_taxaPoupanca dados) (Cliente.id c1) (Some (p_id u))
             (agora env) (agora env) in
  floats k = numeros (dados_valorLocacao dados) (dados_valorTaxas dados)
               (dados_taxaPoupanca dados)
  /\ post_calculos env authorization body db
     = if negb (forallb PrimFloat.is_finite (floats k))
       then (Ok (mkResponse 500
                   (Falha "Erro interno do servidor"
                      (Some PrismaValidation))), db1)
       else if existsb (calculoPorId (cuidCalculo env)) (calculo db)
       then (Ok (mkResponse 500
                   (Falha "Erro interno do servidor" (Some P2002))), db1)
       else (Ok (mkResponse 201
                   (Sucesso
                      (Some (DataCalculo
                               (stored k,
                                find (clientePorId (Cliente.id c1))
                                  (cliente db1))))
                      (Some "Cálculo criado com sucesso!") None)),
             mkPrisma (usuario db1) (cliente db1)
               (calculo db1 ++ [stored k])).
Proof.
  intros Hauth Hs Hup vi k. split; [reflexivity|].
  destruct (upsertCliente_resultado env _ _ _ _ Hup) as (Hf1 & _ & Hu1 & Hk1).
  pose proof (find_some _ _ Hf1) as [Hin1 _].
  assert (Hc1 : existsb (clientePorId (Cliente.id c1)) (cliente db1) = true).
  { apply existsb_exists. exists c1. split; [exact Hin1|].
    unfold clientePorId. apply String.eqb_refl. }
  destruct (autenticado_usuario _ _ _ _ Hauth) as (u0 & Hfu & _).
  unfold post_calculos. rewrite (comAuth_ok _ _ _ _ _ Hauth).
  unfold tryCatch.
  erewrite bind_ok; [|unfold liftResult; rewrite Hs; reflexivity].
  erewrite bind_ok; [|exact Hup].
  unfold bind. rewrite calculo_create_eq.
  - fold vi. fold k. rewrite Hk1.
    destruct (negb (forallb PrimFloat.is_finite (floats k))); [reflexivity|].
    destruct (existsb (calculoPorId (cuidCalculo env)) (calculo db));
      reflexivity.
  - exact Hc1.
  - cbn [Calculo.usuarioId]. rewrite Hu1. exact (find_some_existsb _ _ _ Hfu).
Qed.

(** C1 (as the code has it).  For a body whose [valorLocacao] and
    [valorTaxas] are above zero and whose [taxaPoupanca] (0.005 when absent)
    is at least zero, sent by an authenticated user with valid client data,
    POST /api/calculos computes in binary64 arithmetic, in this order,
    [valorInicial = valorLocacao + valorTaxas],
    [valorOriginal = valorInicial * 4],
    [valorComDesconto = valorOriginal * 0.75] and
    [valorCorrigido = valorComDesconto * (1 + taxaPoupanca)].  When these
    numbers are all finite, and still are once rounded to 16 significant
    digits as the database writes a [Float], it answers 201 with the stored
    calculation, which holds each of them so rounded.  When one of them is
    not finite, it answers 500 and no calculation is created. *)
Theorem C1_post_calculos_valores (env : Env) (authorization : option string)
  (db : Prisma) (reqUsuario : Perfil) (vl vt : float) (otp : option float)
  (cli : ClienteDados) :
  let tp := match otp with Some t => t | None => taxaPoupancaDefault end in
  let valorInicial := (vl + vt)%float in
  let valorOriginal := (valorInicial * 4)%float in
  let valorComDesconto := (valorOriginal * 0.75)%float in
  let valorCorrigido := (valorComDesconto * (1 + tp))%float in
  let numeros :=
    [vl; vt; valorInicial; valorOriginal; valorComDesconto; valorCorrigido;
     tp] in
  PrimFloat.ltb 0 vl = true ->
  PrimFloat.ltb 0 vt = true ->
  PrimFloat.leb 0 tp = true ->
  clienteIssues cli = [] ->
  autenticado env authorization db reqUsuario ->
  (find (clientePorCpf (d_cpf cli)) (cliente db) = None ->
   existsb (clientePorId (cuidCliente env)) (cliente db) = false) ->
  existsb (calculoPorId (cuidCalculo env)) (calculo db) = false ->
  (forallb PrimFloat.is_finite numeros = true ->
   forallb PrimFloat.is_finite (map Decimal.round16 numeros) = true ->
   exists k c db',
     post_calculos env authorization (mkCriarCalculoBody vl vt cli otp) db
     = (Ok (mkResponse 201
              (Sucesso (Some (DataCalculo (k, Some c)))
                 (Some "Cálculo criado com sucesso!") None)), db')
     /\ In k (calculo db')
     /\ Calculo.valorLocacao k = Decimal.round16 vl
     /\ Calculo.valorTaxas k = Decimal.round16 vt
     /\ Calculo.taxaPoupanca k = Decimal.round16 tp
     /\ Calculo.valorInicial k = Decimal.round16 valorInicial
     /\ Calculo.valorOriginal k = Decimal.round16 valorOriginal
     /\ Calculo.valorComDesconto k = Decimal.round16 valorComDesconto
     /\ Calculo.valorCorrigido k = Decimal.round16 valorCorrigido
     /\ Calculo.usuarioId k = Some (p_id reqUsuario)
     /\ Calculo.clienteId k = Cliente.id c)
  /\ (forallb PrimFloat.is_finite numeros = false ->
      exists db',
        post_calculos env authorization (mkCriarCalculoBody vl vt cli otp) db
        = (Ok (mkResponse 500
                 (Falha "Erro interno do servidor" (Some PrismaValidation))),
           db')
        /\ calculo db' = calculo db).
Proof.
  intros tp vi vo vd vc nums Hl Ht Hp Hc Hauth Hfresh Hk.
  destruct (upsertCliente_sucesso env cli db Hfresh) as (c1 & db1 & Hup).
  destruct (upsertCliente_resultado env _ _ _ _ Hup) as (Hf1 & _ & Hu1 & Hk1).
  pose proof (find_some _ _ Hf1) as [Hin1 _].
  assert (Hc1 : existsb (clientePorId (Cliente.id c1)) (cliente db1) = true).
  { apply existsb_exists. exists c1. split; [exact Hin1|].
    unfold clientePorId. apply String.eqb_refl. }
  destruct (existsb_find _ _ Hc1) as (c & Hfc).
  destruct (post_calculos_passos env authorization db reqUsuario
              (mkCriarCalculoBody vl vt cli otp)
              (mkCriarCalculoDados vl vt cli tp) c1 db1 Hauth
              (criarCalculoSchema_ok _ _ _ _ Hl Ht Hp Hc) Hup) as [_ Heq].
  cbn [dados_valorLocacao dados_valorTaxas dados_taxaPoupanca] in Heq.
  change (floats _) with nums in Heq.
  split; [intros Hfin _|intros Hfin]; rewrite Hfin, ?Hk in Heq;
    cbn [negb] in Heq.
  - do 3 eexists. split; [rewrite Heq, Hfc; reflexivity|].
    cbn. pose proof (find_some _ _ Hfc) as [_ Hid].
    unfold clientePorId in Hid. apply String.eqb_eq in Hid.
    repeat split; try reflexivity; [|symmetry; exact Hid].
    apply in_or_app. right. left. reflexivity.
  - exists db1. split; [exact Heq|exact Hk1].
Qed.

(** ** [orderBy], [skip] and [take] *)

Lemma insertDesc_perm {A} (key : A -> Z) (x : A) (l : list A) :
  Permutation (insertDesc key x l) (x :: l).
Proof.
  induction l as [|y l IH]; cbn; [reflexivity|].
  destruct (key y <=? key x); [reflexivity|].
  rewrite IH. apply perm_swap.
Qed.

Lemma orderByDesc_perm {A} (key : A -> Z) (l : list A) :
  Permutation (orderByDesc key l) l.
Proof.
  induction l as [|x l IH]; cbn; [constructor|].
  rewrite insertDesc_perm. constructor. exact IH.
Qed.

Lemma insertDesc_sorted {A} (key : A -> Z) (x : A) (l : list A) :
  descendente key l -> descendente key (insertDesc key x l).
Proof.
  unfold descendente. induction l as [|y l IH]; cbn; intros Hs.
  - constructor; constructor.
  - inversion Hs as [|? ? Hl Hy]; subst.
    destruct (key y <=? key x) eqn:E.
    + apply Z.leb_le in E. constructor; [exact Hs|].
      constructor; [exact E|].
      eapply Forall_impl; [|exact Hy]. cbn. intros; lia.
    + apply Z.leb_gt in E. constructor; [exact (IH Hl)|].
      eapply Permutation_Forall;
        [symmetry; apply insertDesc_perm|].
      constructor; [lia|exact Hy].
Qed.

Lemma orderByDesc_sorted {A} (key : A -> Z) (l : list A) :
  descendente key (orderByDesc key l).
Proof.
  induction l as [|x l IH]; cbn; [constructor|].
  apply insertDesc_sorted. exact IH.
Qed.

Lemma orderDesc_perm {A} (tie key : A -> Z) (l : list A) :
  Permutation (orderDesc tie key l) l.
Proof.
  unfold orderDesc. rewrite !orderByDesc_perm. reflexivity.
Qed.

Lemma orderDesc_sorted {A} (tie key : A -> Z) (l : list A) :
  descendente key (orderDesc tie key l).
Proof. apply orderByDesc_sorted. Qed.

Lemma orderAsc_perm {A} (tie key : A -> Z) (l : list A) :
  Permutation (orderAsc tie key l) l.
Proof.
  unfold orderAsc. rewrite !orderByDesc_perm. reflexivity.
Qed.

Lemma descendente_app {A} (key : A -> Z) (l1 l2 : list A) :
  descendente key l1 -> descendente key l2 ->
  (forall a b, In a l1 -> In b l2 -> key b <= key a) ->
  descendente key (l1 ++ l2).
Proof.
  unfold descendente. induction l1 as [|x l1 IH]; cbn; intros H1 H2 H12.
  - exact H2.
  - inversion H1 as [|? ? Hl Hx]; subst. constructor.
    + apply IH; [exact Hl|exact H2|]. intros a b Ha Hb. apply H12; auto.
    + apply Forall_app. split; [exact Hx|].
      apply Forall_forall. intros b Hb. apply H12; auto.
Qed.

(** Oldest first, read backwards, is newest first. *)
Lemma descendente_rev {A} (key : A -> Z) (l : list A) :
  descendente (fun x => - key x) l -> descendente key (rev l).
Proof.
  unfold descendente. induction l as [|x l IH]; cbn; intros Hs.
  - constructor.
  - inversion Hs as [|? ? Hl Hx]; subst.
    apply descendente_app; [exact (IH Hl)|repeat constructor|].
    intros a b Ha [<-|[]]. apply in_rev in Ha.
    rewrite Forall_forall in Hx. specialize (Hx a Ha). lia.
Qed.

Lemma orderAsc_sorted {A} (tie key : A -> Z) (l : list A) :
  descendente key (rev (orderAsc tie key l)).
Proof. apply descendente_rev, orderByDesc_sorted. Qed.

(** Rows of pairwise distinct keys have one arrangement that is newest
    first. *)
Lemma descendente_unico {A} (key : A -> Z) (l1 l2 : list A) :
  NoDup (map key l1) ->
  Permutation l1 l2 ->
  descendente key l1 -> descendente key l2 ->
  l1 = l2.
Proof.
  unfold descendente. revert l2.
  induction l1 as [|x l1 IH]; intros l2 Hnd Hp H1 H2.
  - apply Permutation_nil in Hp. congruence.
  - destruct l2 as [|y l2].
    { apply Permutation_sym, Permutation_nil in Hp. discriminate. }
    inversion H1 as [|? ? Hl1 Hx]; subst.
    inversion H2 as [|? ? Hl2 Hy]; subst.
    assert (Hxy : x = y).
    { assert (Hiny : In y (x :: l1))
        by (apply (Permutation_in _ (Permutation_sym Hp)); left; reflexivity).
      assert (Hinx : In x (y :: l2))
        by (apply (Permutation_in _ Hp); left; reflexivity).
      destruct Hiny as [Hxy|Hiny]; [exact Hxy|].
      destruct Hinx as [Hyx|Hinx]; [congruence|].
      rewrite Forall_forall in Hx, Hy.
      pose proof (Hx y Hiny). pose proof (Hy x Hinx).
      apply (NoDup_map_inj key (x :: l1)); cbn; auto. lia. }
    subst y. f_equal. apply IH.
    + cbn in Hnd. inversion Hnd; assumption.
    + exact (Permutation_cons_inv Hp).
    + exact Hl1.
    + exact Hl2.
Qed.

Lemma orderDesc_unico {A} (tie key : A -> Z) (l : list A) :
  NoDup (map key l) -> orderDesc tie key l = orderByDesc key l.
Proof.
  intros Hnd. apply (descendente_unico key).
  - apply (Permutation_NoDup (l := map key l)); [|exact Hnd].
    apply Permutation_map, Permutation_sym, orderDesc_perm.
  - rewrite orderDesc_perm, orderByDesc_perm. reflexivity.
  - apply orderDesc_sorted.
  - apply orderByDesc_sorted.
Qed.

Lemma orderAsc_unico {A} (tie key : A -> Z) (l : list A) :
  NoDup (map key l) -> orderAsc tie key l = rev (orderByDesc key l).
Proof.
  intros Hnd. rewrite <- (rev_involutive (orderAsc tie key l)). f_equal.
  apply (descendente_unico key).
  - apply (Permutation_NoDup (l := map key l)); [|exact Hnd].
    apply Permutation_map. rewrite <- Permutation_rev.
    apply Permutation_sym, orderAsc_perm.
  - rewrite <- Permutation_rev, orderAsc_perm, orderByDesc_perm. reflexivity.
  - apply orderAsc_sorted.
  - apply orderByDesc_sorted.
Qed.

(** A page is a run of rows in some arrangement of the table that is newest
    first. *)
Lemma window_segmento {A} (tie key : A -> Z) (skip take : Z)
  (l rows : list A) :
  window tie key skip take l = Ok rows ->
  exists antes depois,
    Permutation (antes ++ rows ++ depois) l
    /\ descendente key (antes ++ rows ++ depois).
Proof.
  unfold window. destruct (skip <? 0); [discriminate|].
  destruct (0 <=? take); intros H; injection H as <-.
  - exists (firstn (Z.to_nat skip) (orderDesc tie key l)),
      (skipn (Z.to_nat take) (skipn (Z.to_nat skip) (orderDesc tie key l))).
    rewrite (firstn_skipn (Z.to_nat take)), firstn_skipn.
    split; [apply orderDesc_perm|apply orderDesc_sorted].
  - exists (rev (skipn (Z.to_nat (- take))
                   (skipn (Z.to_nat skip) (orderAsc tie key l)))),
      (rev (firstn (Z.to_nat skip) (orderAsc tie key l))).
    rewrite <- !rev_app_distr, <- app_assoc.
    rewrite (firstn_skipn (Z.to_nat (- take))), firstn_skipn.
    split; [|apply orderAsc_sorted].
    rewrite <- Permutation_rev. apply orderAsc_perm.
Qed.

Lemma window_in {A} (tie key : A -> Z) (skip take : Z) (l rows : list A)
  (x : A) :
  window tie key skip take l = Ok rows -> In x rows -> In x l.
Proof.
  intros Hw Hin. destruct (window_segmento _ _ _ _ _ _ Hw) as (a & d & Hp & _).
  apply (Permutation_in _ Hp). apply in_or_app. right.
  apply in_or_app. left. exact Hin.
Qed.

Lemma window_sorted {A} (tie key : A -> Z) (skip take : Z)
  (l rows : list A) :
  window tie key skip take l = Ok rows -> descendente key rows.
Proof.
  intros Hw. destruct (window_segmento _ _ _ _ _ _ Hw) as (a & d & _ & Hs).
  revert Hs. unfold descendente. clear Hw.
  induction a as [|x a IH]; cbn.
  - induction rows as [|y rows IHr]; cbn; intros Hs; [constructor|].
    inversion Hs as [|? ? Hl Hy]; subst. constructor; [exact (IHr Hl)|].
    apply Forall_app in Hy. tauto.
  - intros Hs. inversion Hs; subst. auto.
Qed.

Lemma window_length {A} (tie key : A -> Z) (skip take : Z)
  (l rows : list A) :
  window tie key skip take l = Ok rows ->
  Z.of_nat (length rows) <= Z.abs take.
Proof.
  unfold window. destruct (skip <? 0); [discriminate|].
  destruct (0 <=? take) eqn:E; intros H; injection H as <-.
  - apply Z.leb_le in E.
    pose proof (firstn_le_length (Z.to_nat take)
                  (skipn (Z.to_nat skip) (orderDesc tie key l))).
    lia.
  - apply Z.leb_gt in E. rewrite length_rev.
    pose proof (firstn_le_length (Z.to_nat (- take))
                  (skipn (Z.to_nat skip) (orderAsc tie key l))).
    lia.
Qed.

Lemma window_tudo {A} (tie key : A -> Z) (take : Z) (l : list A) :
  Z.of_nat (length l) <= take ->
  window tie key 0 take l = Ok (orderDesc tie key l).
Proof.
  intros H. unfold window. cbn.
  destruct (0 <=? take) eqn:E; [|apply Z.leb_gt in E; lia].
  f_equal. apply firstn_all2.
  rewrite (Permutation_length (orderDesc_perm tie key l)). lia.
Qed.

(** With pairwise distinct creation times the page is the same for every
    engine. *)
Lemma window_unico {A} (tie key : A -> Z) (skip take : Z) (l : list A) :
  NoDup (map key l) ->
  window tie key skip take l
  = if skip <? 0 then Throw PrismaValidation
    else if 0 <=? take
         then Ok (firstn (Z.to_nat take)
                    (skipn (Z.to_nat skip) (orderByDesc key l)))
         else Ok (rev (firstn (Z.to_nat (- take))
                         (skipn (Z.to_nat skip)
                            (rev (orderByDesc key l))))).
Proof.
  intros Hnd. unfold window.
  rewrite (orderDesc_unico tie key l Hnd), (orderAsc_unico tie key l Hnd).
  reflexivity.
Qed.

(** ** GET /api/calculos *)

(** The filter the route builds selects what the caller may see of what the
    query asks for. *)
Lemma calculoSatisfaz_visivel reqUsuario query k :
  calculoSatisfaz (calculosWhere reqUsuario query) k
  = visivel reqUsuario query k.
Proof.
  unfold calculoSatisfaz, calculosWhere, visivel, doClientePedido, doUsuario,
    Js.truthy.
  cbn [w_clienteId w_usuarioId]. f_equal.
  - destruct (q_clienteId query) as [c|]; [|reflexivity].
    destruct (String.eqb c ""); reflexivity.
  - destruct (String.eqb (p_role reqUsuario) "admin"); reflexivity.
Qed.

Lemma filter_visivel reqUsuario query l :
  filter (calculoSatisfaz (calculosWhere reqUsuario query)) l
  = filter (visivel reqUsuario query) l.
Proof. apply filter_ext. intros k. apply calculoSatisfaz_visivel. Qed.

Lemma get_calculos_eq env authorization db reqUsuario query :
  autenticado env authorization db reqUsuario ->
  let page := orDefault 1 (q_page query) in
  let limit := orDefault 50 (q_limit query) in
  let candidatos := filter (visivel reqUsuario query) (calculo db) in
  let total := Z.of_nat (length candidatos) in
  get_calculos env authorization query db
  = match window (tieCalculos db reqUsuario query) Calculo.createdAt
            ((page - 1) * limit) limit candidatos with
    | Ok rows =>
        (Ok (mkResponse 200
               (Sucesso (Some (DataCalculos (map (incluiCliente db) rows)))
                  None
                  (Some (mkPagination page limit total
                           (ceilDiv total limit))))), db)
    | Throw e =>
        (Ok (mkResponse 500 (Falha "Erro interno do servidor" (Some e))), db)
    end.
Proof.
  intros Hauth page limit candidatos total.
  unfold get_calculos. rewrite (comAuth_ok _ _ _ _ _ Hauth).
  unfold tryCatch, bind, calculo_findMany, calculo_count, catch500, ret.
  fold page limit. rewrite (filter_visivel reqUsuario query).
  fold candidatos. fold total.
  change (fun k => tieBreak _ (Calculo.id k))
    with (tieCalculos db reqUsuario query).
  destruct (window _ _ _ _ _); cbv beta iota;
    rewrite ?(filter_visivel reqUsuario query); reflexivity.
Qed.

Lemma map_fst_incluiCliente db rows :
  map fst (map (incluiCliente db) rows) = rows.
Proof.
  rewrite map_map. cbn. apply map_id.
Qed.

Lemma calculosDaResposta_eq env authorization db reqUsuario query :
  autenticado env authorization db reqUsuario ->
  calculosDaResposta (get_calculos env authorization query db)
  = match window (tieCalculos db reqUsuario query) Calculo.createdAt
            ((orDefault 1 (q_page query) - 1)
             * orDefault 50 (q_limit query))
            (orDefault 50 (q_limit query))
            (filter (visivel reqUsuario query) (calculo db)) with
    | Ok rows => rows
    | Throw _ => []
    end.
Proof.
  intros Hauth. rewrite (get_calculos_eq _ _ _ _ _ Hauth). cbv zeta.
  destruct (window _ _ _ _ _); unfold calculosDaResposta; cbn;
    [apply map_fst_incluiCliente|reflexivity].
Qed.

(** What a listing returns is what the caller may see of what the query asks
    for. *)
Lemma calculosDaResposta_visivel env authorization db reqUsuario query k :
  autenticado env authorization db reqUsuario ->
  In k (calculosDaResposta (get_calculos env authorization query db)) ->
  In k (calculo db) /\ visivel reqUsuario query k = true.
Proof.
  intros Hauth. rewrite (calculosDaResposta_eq _ _ _ _ _ Hauth).
  destruct (window _ _ _ _ _) as [rows|] eqn:Hw; [|contradiction].
  intros Hin. apply filter_In. exact (window_in _ _ _ _ _ _ _ Hw Hin).
Qed.

(** A first page that is long enough holds all the caller may see. *)
Lemma calculosDaResposta_tudo env authorization db reqUsuario query k :
  autenticado env authorization db reqUsuario ->
  q_page query = None \/ q_page query = Some 1 ->
  Z.of_nat (length (filter (visivel reqUsuario query) (calculo db)))
  <= orDefault 50 (q_limit query) ->
  In k (calculo db) -> visivel reqUsuario query k = true ->
  In k (calculosDaResposta (get_calculos env authorization query db)).
Proof.
  intros Hauth Hpage Hlen Hin Hv.
  rewrite (calculosDaResposta_eq _ _ _ _ _ Hauth).
  assert (Hp : orDefault 1 (q_page query) = 1)
    by (destruct Hpage as [-> | ->]; reflexivity).
  rewrite Hp. replace ((1 - 1) * orDefault 50 (q_limit query)) with 0 by lia.
  rewrite window_tudo; [|exact Hlen].
  apply (Permutation_in _ (Permutation_sym (orderDesc_perm _ _ _))).
  apply filter_In. split; assumption.
Qed.

(** C2. GET /api/calculos for whoever is not admin returns only
    calculations whose [usuarioId] is the caller's id, whatever [clienteId],
    [page] and [limit] the query carries.  For an admin the owner plays no
    part: what is returned are calculations of the client that the query
    names (any calculation when it names none), [total] counts them all
    whoever created them, and a first page that is long enough holds every
    one of them. *)
Theorem C2_get_calculos_dono (env : Env) (authorization : option string)
  (db : Prisma) (reqUsuario : Perfil) (query : CalculosQuery) :
  autenticado env authorization db reqUsuario ->
  let ks := calculosDaResposta (get_calculos env authorization query db) in
  let pedidos := filter (doClientePedido query) (calculo db) in
  let page := orDefault 1 (q_page query) in
  let limit := orDefault 50 (q_limit query) in
  (p_role reqUsuario <> "admin" ->
   (forall k,
       In k ks ->
       Calculo.usuarioId k = Some (p_id reqUsuario) /\ In k pedidos)
   /\ (q_page query = None \/ q_page query = Some 1 ->
       Z.of_nat (length pedidos) <= limit ->
       forall k,
         In k pedidos -> Calculo.usuarioId k = Some (p_id reqUsuario) ->
         In k ks))
  /\ (p_role reqUsuario = "admin" ->
      (forall k, In k ks -> In k pedidos)
      /\ (0 <= (page - 1) * limit ->
          paginacaoDaResposta (get_calculos env authorization query db)
          = Some (mkPagination page limit (Z.of_nat (length pedidos))
                    (ceilDiv (Z.of_nat (length pedidos)) limit)))
      /\ (q_page query = None \/ q_page query = Some 1 ->
          Z.of_nat (length pedidos) <= limit ->
          forall k, In k pedidos <-> In k ks)).
Proof.
  intros Hauth ks pedidos page limit.
  assert (Hle : (length (filter (visivel reqUsuario query) (calculo db))
                 <= length pedidos)%nat).
  { unfold pedidos, visivel. clear.
    induction (calculo db) as [|k l IH]; cbn; [lia|].
    destruct (doClientePedido query k); cbn; [|exact IH].
    destruct (_ || _); cbn; lia. }
  split.
  - intros Hrole. apply String.eqb_neq in Hrole. split.
    + intros k Hin.
      destruct (calculosDaResposta_visivel _ _ _ _ _ _ Hauth Hin) as [Hk Hv].
      unfold visivel in Hv. rewrite Hrole in Hv.
      apply andb_true_iff in Hv. destruct Hv as [Hc Hu]. split.
      * unfold doUsuario in Hu. cbn in Hu.
        destruct (Calculo.usuarioId k) as [x|]; [|discriminate].
        apply String.eqb_eq in Hu. congruence.
      * apply filter_In. split; assumption.
    + intros Hpage Hlen k Hin Hu. apply filter_In in Hin.
      destruct Hin as [Hin Hc].
      apply (calculosDaResposta_tudo _ _ _ _ _ _ Hauth Hpage);
        [fold limit; lia|exact Hin|].
      unfold visivel, doUsuario. rewrite Hc, Hu, String.eqb_refl.
      apply orb_true_r.
  - intros Hrole.
    assert (Hv : forall k, visivel reqUsuario query k
                           = doClientePedido query k).
    { intros k. unfold visivel. rewrite Hrole. cbn. apply andb_true_r. }
    assert (Hf : filter (visivel reqUsuario query) (calculo db) = pedidos)
      by (apply filter_ext; exact Hv).
    split; [|split].
    + intros k Hin.
      destruct (calculosDaResposta_visivel _ _ _ _ _ _ Hauth Hin) as [Hk Hk'].
      apply filter_In. rewrite <- Hv. split; assumption.
    + intros Hskip. rewrite (get_calculos_eq _ _ _ _ _ Hauth). cbv zeta.
      rewrite Hf. fold page limit. unfold window.
      destruct ((page - 1) * limit <? 0) eqn:E; [apply Z.ltb_lt in E; lia|].
      destruct (0 <=? limit); reflexivity.
    + intros Hpage Hlen k. split.
      * intros Hin. apply filter_In in Hin. destruct Hin as [Hin Hc].
        apply (calculosDaResposta_tudo _ _ _ _ _ _ Hauth Hpage);
          [rewrite Hf; exact Hlen|exact Hin|].
        rewrite Hv. exact Hc.
      * intros Hin.
        destruct (calculosDaResposta_visivel _ _ _ _ _ _ Hauth Hin)
          as [Hk Hk'].
        apply filter_In. rewrite <- Hv. split; assumption.
Qed.

(** C9 (as the code has it).  GET /api/calculos returns a page of at most
    [limit] rows, newest first, which is a run of rows in an arrangement,
    newest first, of the calculations that the caller may see.  The route
    asks for no second sort key.  When no two of these calculations were
    created at the same time the page is known from the table: the rows from
    [(page - 1) * limit] on for a [limit] of zero or more, counted from the
    oldest row for a negative [limit]. *)
Theorem C9_get_calculos_ordem (env : Env) (authorization : option string)
  (db : Prisma) (reqUsuario : Perfil) (query : CalculosQuery) :
  autenticado env authorization db reqUsuario ->
  let ks := calculosDaResposta (get_calculos env authorization query db) in
  let candidatos := filter (visivel reqUsuario query) (calculo db) in
  let page := orDefault 1 (q_page query) in
  let limit := orDefault 50 (q_limit query) in
  descendente Calculo.createdAt ks
  /\ Z.of_nat (length ks) <= Z.abs limit
  /\ (exists antes depois,
         Permutation (antes ++ ks ++ depois) candidatos
         /\ descendente Calculo.createdAt (antes ++ ks ++ depois))
  /\ (NoDup (map Calculo.createdAt candidatos) ->
      0 <= (page - 1) * limit ->
      ks = if 0 <=? limit
           then firstn (Z.to_nat limit)
                  (skipn (Z.to_nat ((page - 1) * limit))
                     (orderByDesc Calculo.createdAt candidatos))
           else rev (firstn (Z.to_nat (- limit))
                       (skipn (Z.to_nat ((page - 1) * limit))
                          (rev (orderByDesc Calculo.createdAt
                                  candidatos))))).
Proof.
  intros Hauth ks candidatos page limit.
  assert (Hks : ks = match window (tieCalculos db reqUsuario query)
                             Calculo.createdAt ((page - 1) * limit) limit
                             candidatos with
                     | Ok rows => rows
                     | Throw _ => []
                     end)
    by exact (calculosDaResposta_eq _ _ _ _ _ Hauth).
  split; [|split; [|split]].
  - rewrite Hks. destruct (window _ _ _ _ _) as [rows|] eqn:Hw.
    + exact (window_sorted _ _ _ _ _ _ Hw).
    + constructor.
  - rewrite Hks. destruct (window _ _ _ _ _) as [rows|] eqn:Hw.
    + exact (window_length _ _ _ _ _ _ Hw).
    + cbn. lia.
  - rewrite Hks. destruct (window _ _ _ _ _) as [rows|] eqn:Hw.
    + exact (window_segmento _ _ _ _ _ _ Hw).
    + exists (orderByDesc Calculo.createdAt candidatos), [].
      cbn. rewrite app_nil_r.
      split; [apply orderByDesc_perm|apply orderByDesc_sorted].
  - intros Hnd Hskip. rewrite Hks, (window_unico _ _ _ _ _ Hnd).
    destruct ((page - 1) * limit <? 0) eqn:E; [apply Z.ltb_lt in E; lia|].
    destruct (0 <=? limit); reflexivity.
Qed.

(** ** GET /api/clientes *)












Lemma contagensDaResposta_eq query db :
  contagensDaResposta (get_clientes query db)
  = match window (tieClientes db query) Cliente.createdAt
            ((orDefault 1 (cq_page query) - 1)
             * orDefault 50 (cq_limit query))
            (orDefault 50 (cq_limit query))
            (filter (clienteSatisfaz (clientesWhere query))
               (cliente db)) with
    | Ok rows => map (fun c => (c, countCalculos db c)) rows
    | Throw _ => []
    end.
Proof.
  unfold get_clientes, tryCatch, bind, cliente_findMany, cliente_count,
    catch500, ret.
  change (fun c => tieBreak _ (Cliente.id c)) with (tieClientes db query).
  destruct (window _ _ _ _ _); reflexivity.
Qed.



(** ** One calculation, one client, one user *)

Lemma find_filter_negb {A} (p : A -> bool) (l : list A) :
  find p (filter (fun v => negb (p v)) l) = None.
Proof.
  induction l as [|x l IH]; cbn; [reflexivity|].
  destruct (p x) eqn:E; cbn; [exact IH|]. rewrite E. exact IH.
Qed.

(** C7. GET /api/calculos/:id and DELETE /api/calculos/:id look at the id
    and at nothing else: for any authenticated caller, admin or not, an id of
    the table gets the calculation with its client, and gets it deleted; an
    id that is not in the table gets 404 "Cálculo não encontrado" and leaves
    the database as it was.  Neither route compares [usuarioId] with the
    caller. *)
Theorem C7_calculo_por_id_sem_dono (env : Env) (authorization : option string)
  (db : Prisma) (reqUsuario : Perfil) (id : Id) :
  autenticado env authorization db reqUsuario ->
  match find (calculoPorId id) (calculo db) with
  | Some k =>
      get_calculos_id env authorization id db
      = (Ok (mkResponse 200
               (Sucesso
                  (Some (DataCalculo
                           (k, find (clientePorId (Calculo.clienteId k))
                                 (cliente db))))
                  None None)), db)
      /\ (fkCliente db ->
          exists c, find (clientePorId (Calculo.clienteId k)) (cliente db)
                    = Some c
                    /\ Cliente.id c = Calculo.clienteId k)
      /\ delete_calculos_id env authorization id db
         = (Ok (mkResponse 200
                  (Sucesso None (Some "Cálculo deletado com sucesso!") None)),
            mkPrisma (usuario db) (cliente db)
              (filter (fun k' => negb (calculoPorId id k')) (calculo db)))
      /\ find (calculoPorId id)
           (filter (fun k' => negb (calculoPorId id k')) (calculo db)) = None
  | None =>
      get_calculos_id env authorization id db
      = (Ok (falha 404 "Cálculo não encontrado"), db)
      /\ delete_calculos_id env authorization id db
         = (Ok (falha 404 "Cálculo não encontrado"), db)
  end.
Proof.
  intros Hauth.
  unfold get_calculos_id, delete_calculos_id.
  rewrite !(comAuth_ok _ _ _ _ _ Hauth).
  unfold tryCatch, bind, calculo_findUnique_include, calculo_findUnique,
    calculo_delete, ret.
  destruct (find (calculoPorId id) (calculo db)) as [k|] eqn:Hf; cbn.
  - rewrite Hf. split; [reflexivity|]. split; [|split].
    + intros Hfk. pose proof (find_some _ _ Hf) as [Hin _].
      destruct (existsb_find _ _ (Hfk k Hin)) as (c & Hc). exists c.
      split; [exact Hc|].
      pose proof (find_some _ _ Hc) as [_ Hid].
      apply String.eqb_eq in Hid. exact Hid.
    + reflexivity.
    + apply find_filter_negb.
  - split; reflexivity.
Qed.

(** C5. DELETE /api/clientes/:id on a client of the table answers 400
    "Não é possível deletar cliente que possui cálculos" and writes nothing
    when a calculation points to the client; the test comes before
    [cliente.delete] is called.  When none does, the client is removed and
    nothing else changes. *)
Theorem C5_delete_cliente_com_calculos (db : Prisma) (id : Id)
  (c : Cliente.t) :
  find (clientePorId id) (cliente db) = Some c ->
  (0 < countCalculos db c ->
   delete_clientes_id id db
   = (Ok (falha 400 "Não é possível deletar cliente que possui cálculos"),
      db))
  /\ (countCalculos db c = 0 ->
      delete_clientes_id id db
      = (Ok (mkResponse 200
               (Sucesso None (Some "Cliente deletado com sucesso!") None)),
         mkPrisma (usuario db)
           (filter (fun v => negb (clientePorId id v)) (cliente db))
           (calculo db))
      /\ find (clientePorId id)
           (filter (fun v => negb (clientePorId id v)) (cliente db)) = None).
Proof.
  intros Hf.
  unfold delete_clientes_id, tryCatch, bind, cliente_findUnique, get,
    cliente_delete, ret.
  rewrite Hf. split.
  - intros Hc. apply Z.ltb_lt in Hc. rewrite Hc. reflexivity.
  - intros Hc. rewrite Hc. cbn. rewrite Hf.
    split; [|apply find_filter_negb].
    pose proof (find_some _ _ Hf) as [_ Hid].
    apply String.eqb_eq in Hid. unfold countCalculos in Hc. rewrite Hid in Hc.
    rewrite (filter_none_length (calculoDoCliente id) (calculo db));
      [reflexivity|lia].
Qed.

(** C4. DELETE /api/usuarios/:id by an admin answers 400 "Você não pode
    excluir sua própria conta" and writes nothing when the id is the
    caller's own.  For the id of another user of the table the user is
    removed, the other users stay, and the calculations of the removed user
    lose their [usuarioId]. *)
Theorem C4_delete_usuario_proprio (env : Env) (authorization : option string)
  (db : Prisma) (reqUsuario : Perfil) :
  autenticado env authorization db reqUsuario ->
  administrador reqUsuario db ->
  delete_usuarios_id env authorization (p_id reqUsuario) db
  = (Ok (falha 400 "Você não pode excluir sua própria conta"), db)
  /\ (forall id u,
         id <> p_id reqUsuario ->
         find (usuarioPorId id) (usuario db) = Some u ->
         delete_usuarios_id env authorization id db
         = (Ok (mkResponse 200
                  (Sucesso None (Some "Usuário excluído com sucesso!") None)),
            mkPrisma
              (filter (fun v => negb (usuarioPorId id v)) (usuario db))
              (cliente db)
              (map (setNullUsuario id) (calculo db)))
         /\ find (usuarioPorId id)
              (filter (fun v => negb (usuarioPorId id v)) (usuario db)) = None
         /\ (forall v, In v (usuario db) -> Usuario.id v <> id ->
               In v (filter (fun v => negb (usuarioPorId id v))
                       (usuario db)))).
Proof.
  intros Hauth Hadm. split.
  - destruct (autenticado_usuario _ _ _ _ Hauth) as (u & Hfu & _).
    unfold delete_usuarios_id. rewrite (comAdmin_ok _ _ _ _ _ Hauth Hadm).
    unfold tryCatch, bind, usuario_findUnique, ret. rewrite Hfu.
    rewrite String.eqb_refl. reflexivity.
  - intros id u Hid Hfu.
    unfold delete_usuarios_id. rewrite (comAdmin_ok _ _ _ _ _ Hauth Hadm).
    unfold tryCatch, bind, usuario_findUnique, usuario_delete, ret.
    rewrite Hfu. apply String.eqb_neq in Hid. rewrite Hid. rewrite Hfu.
    split; [reflexivity|]. split; [apply find_filter_negb|].
    intros v Hin Hv. apply filter_In. split; [exact Hin|].
    unfold usuarioPorId. apply negb_true_iff, String.eqb_neq. exact Hv.
Qed.

(** ** PUT /api/usuarios/:id *)

Lemma usuarioAdminUpdateSchema_dados body dados :
  usuarioAdminUpdateSchema body = Ok dados ->
  dados = mkUsuarioAdminUpdateDados (ub_nome body) (ub_email body)
            (ub_senha body)
            (match ub_role body with Some r => r | None => "user" end).
Proof.
  unfold usuarioAdminUpdateSchema, zParse.
  destruct (_ ++ _)%list; [|discriminate].
  intros H. injection H as <-. reflexivity.
Qed.

(** The digest that the route hands to [usuario.update], if any. *)
Lemma senha_atualizada env (senha : option string) h :
  match senha with
  | Some s => if Js.truthy s && negb (String.eqb (Js.trim s) "")
              then Some (bcrypt_hash (salt env) s) else None
  | None => None
  end = Some h ->
  exists s, senha = Some s /\ s <> "" /\ Js.trim s <> ""
            /\ h = bcrypt_hash (salt env) s.
Proof.
  destruct senha as [s|]; [|discriminate].
  destruct (Js.truthy s) eqn:Et; [|discriminate].
  destruct (String.eqb (Js.trim s) "") eqn:Er; [discriminate|].
  cbn. intros H. injection H as <-. exists s.
  unfold Js.truthy in Et. apply negb_true_iff in Et.
  apply String.eqb_neq in Et, Er. auto.
Qed.

Lemma usuarioPorId_aplica agora d id u :
  usuarioPorId id (aplicaUsuarioUpdate agora d u) = usuarioPorId id u.
Proof. reflexivity. Qed.

(** What [usuario.update] leaves under the id it was given. *)
Lemma usuario_update_resultado agora id d db r db' existente :
  find (usuarioPorId id) (usuario db) = Some existente ->
  usuario_update agora id d db = (r, db') ->
  (db' = db /\ exists e, r = Throw e)
  \/ (r = Ok (aplicaUsuarioUpdate agora d existente)
      /\ find (usuarioPorId id) (usuario db')
         = Some (aplicaUsuarioUpdate agora d existente)
      /\ cliente db' = cliente db /\ calculo db' = calculo db).
Proof.
  intros Hf. unfold usuario_update. rewrite Hf.
  destruct (existsb _ (usuario db)); intros H; injection H as <- <-.
  - left. split; [reflexivity|eexists; reflexivity].
  - right. cbn. repeat split.
    rewrite (find_map_where (usuarioPorId id) (aplicaUsuarioUpdate agora d)),
      Hf; [reflexivity|].
    intros x Hx. rewrite usuarioPorId_aplica. exact Hx.
Qed.

Lemma usuario_update_sucesso agora id d db existente :
  emailUnico db ->
  find (usuarioPorId id) (usuario db) = Some existente ->
  upd_email d = Usuario.email existente
  \/ find (usuarioPorEmail (upd_email d)) (usuario db) = None ->
  exists db', usuario_update agora id d db
              = (Ok (aplicaUsuarioUpdate agora d existente), db').
Proof.
  intros Hnd Hf Hemail. unfold usuario_update. rewrite Hf.
  destruct (existsb _ (usuario db)) eqn:E; [|eexists; reflexivity].
  exfalso. apply existsb_exists in E. destruct E as (v & Hin & Hv).
  apply andb_true_iff in Hv. destruct Hv as [Hve Hvi].
  apply negb_true_iff in Hvi.
  destruct Hemail as [Heq|Hnone].
  - pose proof (find_some _ _ Hf) as [Hin' Hid].
    unfold usuarioPorEmail in Hve. apply String.eqb_eq in Hve.
    assert (v = existente)
      by (apply (NoDup_map_inj Usuario.email (usuario db));
          [exact Hnd|assumption|assumption|congruence]).
    subst v. congruence.
  - pose proof (find_none _ _ Hnone v Hin). congruence.
Qed.

(** C10. PUT /api/usuarios/:id on a user of the table.  With [senha] absent
    or empty, and a body the schema accepts whose e-mail no other user holds,
    the route answers 200 and the user has the name, e-mail and role of the
    body ("user" when the body names no role) and the digest it had.  In
    every case, the stored digest differs from the old one only if the body
    carries a non-empty [senha], and it is then the hash of that [senha]. *)
Theorem C10_put_usuario_senha (env : Env) (authorization : option string)
  (db : Prisma) (reqUsuario : Perfil) (id : Id) (body : UsuarioAdminUpdateBody)
  (existente : Usuario.t) :
  autenticado env authorization db reqUsuario ->
  administrador reqUsuario db ->
  find (usuarioPorId id) (usuario db) = Some existente ->
  let role := match ub_role body with Some r => r | None => "user" end in
  (ub_senha body = None \/ ub_senha body = Some "" ->
   (2 <= String.length (ub_nome body))%nat ->
   isEmail (ub_email body) = true ->
   role = "admin" \/ role = "user" ->
   emailUnico db ->
   ub_email body = Usuario.email existente
   \/ find (usuarioPorEmail (ub_email body)) (usuario db) = None ->
   exists u db',
     put_usuarios_id env authorization id body db
     = (Ok (mkResponse 200
              (Sucesso
                 (Some (DataUsuario
                          (mkUsuarioPublico (Usuario.id u) (Usuario.nome u)
                             (Usuario.email u) (Usuario.role u)
                             (Usuario.createdAt u))))
                 (Some "Usuário atualizado com sucesso!") None)), db')
     /\ find (usuarioPorId id) (usuario db') = Some u
     /\ Usuario.nome u = ub_nome body
     /\ Usuario.email u = ub_email body
     /\ Usuario.role u = role
     /\ Usuario.senha u = Usuario.senha existente)
  /\ (forall r db' u,
         put_usuarios_id env authorization id body db = (r, db') ->
         find (usuarioPorId id) (usuario db') = Some u ->
         Usuario.senha u <> Usuario.senha existente ->
         exists s, ub_senha body = Some s /\ s <> ""
                   /\ Usuario.senha u = bcrypt_hash (salt env) s).
Proof.
  intros Hauth Hadm Hf role. split.
  - intros Hsenha Hnome Hmail Hrole Hnd Hlivre.
    set (d := mkUsuarioUpdate (ub_nome body) (ub_email body) role None).
    destruct (usuario_update_sucesso (agora env) id d db existente Hnd Hf
                Hlivre) as (db' & Hup).
    destruct (usuario_update_resultado _ _ _ _ _ _ _ Hf Hup)
      as [(_ & e & He)|(_ & Hf' & _)]; [discriminate|].
    exists (aplicaUsuarioUpdate (agora env) d existente), db'.
    split; [|split; [exact Hf'|repeat split]].
    unfold put_usuarios_id. rewrite (comAdmin_ok _ _ _ _ _ Hauth Hadm).
    apply tryCatch_ok.
    erewrite bind_ok with
      (a := mkUsuarioAdminUpdateDados (ub_nome body) (ub_email body)
              (ub_senha body) role).
    2:{ unfold liftResult, usuarioAdminUpdateSchema, zMin, zEmail. fold role.
        apply Nat.leb_le in Hnome. rewrite Hnome, Hmail. cbn.
        replace (String.eqb role "admin" || String.eqb role "user")
          with true
          by (destruct Hrole as [-> | ->]; reflexivity).
        destruct Hsenha as [-> | ->]; reflexivity. }
    erewrite bind_ok; [|unfold usuario_findUnique; rewrite Hf; reflexivity].
    cbn [ud_email ud_senha ud_nome ud_role].
    erewrite bind_ok with (a := None).
    2:{ destruct Hlivre as [-> | Hnone].
        - rewrite String.eqb_refl. reflexivity.
        - destruct (negb _); [|reflexivity].
          unfold usuario_findUnique. rewrite Hnone. reflexivity. }
    replace (match ub_senha body with
             | Some s => if Js.truthy s && negb (String.eqb (Js.trim s) "")
                         then Some (bcrypt_hash (salt env) s) else None
             | None => None
             end) with (@None string)
      by (destruct Hsenha as [-> | ->]; reflexivity).
    fold d. erewrite bind_ok; [|exact Hup]. reflexivity.
  - intros r db' u.
    unfold put_usuarios_id. rewrite (comAdmin_ok _ _ _ _ _ Hauth Hadm).
    unfold tryCatch at 1, bind at 1, liftResult.
    destruct (usuarioAdminUpdateSchema body) as [dados|e] eqn:Hs.
    2:{ destruct e; cbn; intros H; injection H as <- <-;
        rewrite Hf; intros H; injection H as <-; congruence. }
    rewrite (usuarioAdminUpdateSchema_dados _ _ Hs).
    cbn [ud_email ud_senha ud_nome ud_role].
    unfold bind at 1, usuario_findUnique at 1. rewrite Hf.
    unfold bind at 1.
    destruct ((if negb (String.eqb (ub_email body) (Usuario.email existente))
               then usuario_findUnique (usuarioPorEmail (ub_email body))
               else ret None) db) as [[[emailEmUso|]|e] db0] eqn:Hem.
    + assert (db0 = db) as ->
        by (destruct (negb _); unfold usuario_findUnique, ret in Hem;
            congruence).
      cbn. intros H; injection H as <- <-.
      rewrite Hf; intros H; injection H as <-; congruence.
    + assert (db0 = db) as ->
        by (destruct (negb _); unfold usuario_findUnique, ret in Hem;
            congruence).
      unfold bind.
      destruct (usuario_update _ _ _ db) as [r1 db1] eqn:Hup.
      destruct (usuario_update_resultado _ _ _ _ _ _ _ Hf Hup)
        as [(-> & e & ->)|(-> & Hf' & _)].
      * destruct e; cbn; intros H; injection H as <- <-;
          rewrite Hf; intros H; injection H as <-; congruence.
      * cbn. intros H; injection H as <- <-. rewrite Hf'.
        intros H; injection H as <-. cbn. intros Hdif.
        match type of Hdif with
        | match ?x with _ => _ end <> _ => destruct x as [h|] eqn:Hh
        end; [|congruence].
        destruct (senha_atualizada env _ h Hh) as (s & Hs' & Hne & _ & ->).
        exists s. auto.
    + exfalso. destruct (negb _); unfold usuario_findUnique, ret in Hem;
        discriminate.
Qed.
End Propriedades.

(** * The routes run on the example database *)

Lemma exemplo_autenticado_admin :
  @autenticado Exemplo.provedores Exemplo.env Exemplo.bearerAdmin Exemplo.db
    Exemplo.perfilAdmin.
Proof. reflexivity. Qed.

Lemma exemplo_autenticado_gabriel :
  @autenticado Exemplo.provedores Exemplo.env Exemplo.bearerGabriel Exemplo.db
    Exemplo.perfilGabriel.
Proof. reflexivity. Qed.

(** The body of the specification's example, sent by a user: the values are
    1200, 4800, 3600 and 3618. *)
Lemma C1_exemplo_valores :
  exists k c db',
    @post_calculos Exemplo.provedores Exemplo.env Exemplo.bearerGabriel
      Exemplo.corpo Exemplo.db
    = (Ok (mkResponse 201
             (Sucesso (Some (DataCalculo (k, Some c)))
                (Some "Cálculo criado com sucesso!") None)), db')
    /\ Calculo.valorInicial k = 1200%float
    /\ Calculo.valorOriginal k = 4800%float
    /\ Calculo.valorComDesconto k = 3600%float
    /\ Calculo.valorCorrigido k = 3618%float.
Proof.
  destruct (@C1_post_calculos_valores Exemplo.provedores Exemplo.env
              Exemplo.bearerGabriel Exemplo.db Exemplo.perfilGabriel
              1000%float 200%float (Some taxaPoupancaDefault)
              Exemplo.dadosCarla eq_refl eq_refl eq_refl eq_refl
              exemplo_autenticado_gabriel (fun _ => eq_refl) eq_refl)
    as [Hfinitos _].
  destruct (Hfinitos eq_refl ltac:(vm_compute; reflexivity))
    as (k & c & db' & Heq & _ & _ & _ & _ & Hi & Ho & Hd & Hc & _).
  exists k, c, db'. split; [exact Heq|].
  rewrite Hi, Ho, Hd, Hc. repeat split; vm_compute; reflexivity.
Defined.

(** For 0.1 and 0.2 the row holds 0.3 as [valorInicial], which is not the
    double that the sum of the two doubles gives.  For 1e308 and 1e308, both
    above zero, the sum is [Infinity]: the answer is 500 and no calculation
    is created. *)
Lemma C1_exemplo_nao_exato :
  option_map Calculo.valorInicial
    (calculoDaResposta
       (@post_calculos Exemplo.provedores Exemplo.env Exemplo.bearerGabriel
          Exemplo.corpoDecimos Exemplo.db))
  = Some Exemplo.threeTenths
  /\ PrimFloat.eqb (Exemplo.tenth + Exemplo.fifth) Exemplo.threeTenths = false
  /\ PrimFloat.ltb 0 Exemplo.e308 = true
  /\ fst (@post_calculos Exemplo.provedores Exemplo.env Exemplo.bearerGabriel
            Exemplo.corpoEnorme Exemplo.db)
     = Ok (mkResponse 500
             (Falha "Erro interno do servidor" (Some PrismaValidation)))
  /\ calculo (snd (@post_calculos Exemplo.provedores Exemplo.env
                     Exemplo.bearerGabriel Exemplo.corpoEnorme Exemplo.db))
     = calculo Exemplo.db.
Proof.
  repeat split; vm_compute; reflexivity.
Qed.

(** Gabriel, who is not admin, lists the calculations of client [c1]: all
    are his.  The admin gets all those of [c1], and none for [c2], who has
    none. *)
Lemma C2_exemplo_listas :
  (forall k,
      In k (calculosDaResposta
              (@get_calculos Exemplo.provedores Exemplo.motor Exemplo.env
                 Exemplo.bearerGabriel
                 (mkCalculosQuery (Some 1) (Some 10) (Some "c1"))
                 Exemplo.db)) ->
      Calculo.usuarioId k = Some "u2")
  /\ (forall k,
         In k [Exemplo.kb; Exemplo.ka; Exemplo.kc] <->
         In k (calculosDaResposta
                 (@get_calculos Exemplo.provedores Exemplo.motor Exemplo.env
                    Exemplo.bearerAdmin
                    (mkCalculosQuery (Some 1) (Some 10) (Some "c1"))
                    Exemplo.db)))
  /\ (forall k,
         ~ In k (calculosDaResposta
                   (@get_calculos Exemplo.provedores Exemplo.motor Exemplo.env
                      Exemplo.bearerAdmin
                      (mkCalculosQuery (Some 1) (Some 10) (Some "c2"))
                      Exemplo.db))).
Proof.
  split; [|split].
  - intros k Hk.
    destruct (@C2_get_calculos_dono Exemplo.provedores Exemplo.motor
                Exemplo.env Exemplo.bearerGabriel Exemplo.db
                Exemplo.perfilGabriel
                (mkCalculosQuery (Some 1) (Some 10) (Some "c1"))
                exemplo_autenticado_gabriel) as [Hdono _].
    destruct Hdono as [Hdono _]; [cbn; discriminate|].
    exact (proj1 (Hdono k Hk)).
  - destruct (@C2_get_calculos_dono Exemplo.provedores Exemplo.motor
                Exemplo.env Exemplo.bearerAdmin Exemplo.db Exemplo.perfilAdmin
                (mkCalculosQuery (Some 1) (Some 10) (Some "c1"))
                exemplo_autenticado_admin) as [_ Hadmin].
    destruct (Hadmin eq_refl) as (_ & _ & Htodos).
    apply Htodos; [right; reflexivity|cbn; lia].
  - intros k Hk.
    destruct (@C2_get_calculos_dono Exemplo.provedores Exemplo.motor
                Exemplo.env Exemplo.bearerAdmin Exemplo.db Exemplo.perfilAdmin
                (mkCalculosQuery (Some 1) (Some 10) (Some "c2"))
                exemplo_autenticado_admin) as [_ Hadmin].
    destruct (Hadmin eq_refl) as (Hped & _ & _).
    exact (Hped k Hk).
Defined.

(** No header, a token that [jwt.verify] refuses, and a good token of a user
    who is gone. *)
Lemma C3_exemplo_respostas :
  @authMiddleware Exemplo.provedores Exemplo.env None Exemplo.db
  = (Ok (inl tokenRequerido), Exemplo.db)
  /\ @authMiddleware Exemplo.provedores Exemplo.env (Some "Bearer abc")
       Exemplo.db
     = (Ok (inl tokenInvalido), Exemplo.db)
  /\ @authMiddleware Exemplo.provedores Exemplo.env (Some "Bearer jwt.u9")
       Exemplo.db
     = (Ok (inl tokenInvalido), Exemplo.db).
Proof.
  destruct (@C3_authMiddleware_respostas Exemplo.provedores Exemplo.env
              Exemplo.db) as (H1 & H2 & H3 & _).
  split; [|split].
  - apply H1. left. reflexivity.
  - apply H2; [discriminate|reflexivity].
  - apply (H3 "Bearer jwt.u9" (mkClaims "u9" ""));
      [discriminate|reflexivity|reflexivity].
Defined.

(** The admin may not delete [u1], and deletes [u2]. *)
Lemma C4_exemplo_delete :
  @delete_usuarios_id Exemplo.provedores Exemplo.env Exemplo.bearerAdmin "u1"
    Exemplo.db
  = (Ok (falha 400 "Você não pode excluir sua própria conta"), Exemplo.db)
  /\ fst (@delete_usuarios_id Exemplo.provedores Exemplo.env
            Exemplo.bearerAdmin "u2" Exemplo.db)
     = Ok (mkResponse 200
             (Sucesso None (Some "Usuário excluído com sucesso!") None)).
Proof.
  destruct (@C4_delete_usuario_proprio Exemplo.provedores Exemplo.env
              Exemplo.bearerAdmin Exemplo.db Exemplo.perfilAdmin
              exemplo_autenticado_admin eq_refl) as (H1 & H2).
  split; [exact H1|].
  destruct (H2 "u2" Exemplo.gabriel) as (H & _);
    [discriminate|reflexivity|].
  rewrite H. reflexivity.
Defined.

(** Ana has calculations, Bruno has none. *)
Lemma C5_exemplo_delete :
  delete_clientes_id "c1" Exemplo.db
  = (Ok (falha 400 "Não é possível deletar cliente que possui cálculos"),
     Exemplo.db)
  /\ delete_clientes_id "c2" Exemplo.db
     = (Ok (mkResponse 200
              (Sucesso None (Some "Cliente deletado com sucesso!") None)),
        mkPrisma [Exemplo.admin; Exemplo.gabriel] [Exemplo.ana]
          [Exemplo.kb; Exemplo.ka; Exemplo.kc]).
Proof.
  split.
  - apply (proj1 (C5_delete_cliente_com_calculos Exemplo.db "c1" Exemplo.ana
                    eq_refl)).
    reflexivity.
  - apply (proj2 (C5_delete_cliente_com_calculos Exemplo.db "c2"
                    Exemplo.bruno eq_refl)).
    reflexivity.
Defined.

(** Ana is in the table: the upsert overwrites her row where it stands.
    Carla is new: the first upsert adds her, the second one finds her and
    leaves one row. *)
Lemma C6_exemplo_duas_vezes :
  (exists db',
      upsertCliente Exemplo.env Exemplo.dadosAna Exemplo.db
      = (Ok (Cliente.mk "c1" "Ana Lima" "11888880000" "12345678901"
               "ana@exemplo.com" 2000 7000), db')
      /\ cliente db'
         = [Cliente.mk "c1" "Ana Lima" "11888880000" "12345678901"
              "ana@exemplo.com" 2000 7000; Exemplo.bruno])
  /\ (exists c1 db1 c2 db2,
         upsertCliente Exemplo.env Exemplo.dadosCarla Exemplo.db = (Ok c1, db1)
         /\ upsertCliente (mkEnv 8000 "c4" "ke" "dd") Exemplo.dadosCarla db1
            = (Ok c2, db2)
         /\ filter (clientePorCpf "11122233344") (cliente db2) = [c2]
         /\ length (cliente db2) = 3%nat
         /\ semUpdatedAt c2 = semUpdatedAt c1).
Proof.
  assert (Hnd : cpfUnico Exemplo.db).
  { unfold cpfUnico. cbn. repeat constructor; cbn; intuition discriminate. }
  split.
  - destruct (C6_upsertCliente_idempotente Exemplo.env Exemplo.dadosAna
                Exemplo.db Hnd) as (Hexiste & _).
    destruct (Hexiste Exemplo.ana eq_refl) as (db' & H & Hc & _).
    exists db'. split; [exact H|]. rewrite Hc. reflexivity.
  - destruct (C6_upsertCliente_idempotente Exemplo.env Exemplo.dadosCarla
                Exemplo.db Hnd) as (_ & Hnovo & Hduas).
    destruct Hnovo as (c1 & db1 & H1 & Hc1 & _); [reflexivity|reflexivity|].
    destruct (Hduas (mkEnv 8000 "c4" "ke" "dd") c1 db1 H1)
      as (c2 & db2 & H2 & _ & Hf2 & Hlen & _ & Hsem & _).
    exists c1, db1, c2, db2. repeat split; try assumption.
    rewrite Hlen, Hc1, length_app. reflexivity.
Defined.

(** Gabriel reads and deletes [kb], which the admin created. *)
Lemma C7_exemplo_outro_dono :
  Calculo.usuarioId Exemplo.kb = Some "u1"
  /\ @get_calculos_id Exemplo.provedores Exemplo.env Exemplo.bearerGabriel
       "kb" Exemplo.db
     = (Ok (mkResponse 200
              (Sucesso (Some (DataCalculo (Exemplo.kb, Some Exemplo.ana)))
                 None None)), Exemplo.db)
  /\ @delete_calculos_id Exemplo.provedores Exemplo.env Exemplo.bearerGabriel
       "kb" Exemplo.db
     = (Ok (mkResponse 200
              (Sucesso None (Some "Cálculo deletado com sucesso!") None)),
        mkPrisma [Exemplo.admin; Exemplo.gabriel] [Exemplo.ana; Exemplo.bruno]
          [Exemplo.ka; Exemplo.kc]).
Proof.
  pose proof (@C7_calculo_por_id_sem_dono Exemplo.provedores Exemplo.env
                Exemplo.bearerGabriel Exemplo.db Exemplo.perfilGabriel "kb"
                exemplo_autenticado_gabriel) as H.
  cbn in H. destruct H as (Hget & _ & Hdel & _).
  split; [reflexivity|]. split; [exact Hget|exact Hdel].
Defined.



(** Gabriel's two calculations were created at different times: his listing
    is known from the table.  The admin's listing is newest first. *)
Lemma C9_exemplo_ordem :
  calculosDaResposta
    (@get_calculos Exemplo.provedores Exemplo.motor Exemplo.env
       Exemplo.bearerGabriel (mkCalculosQuery None None None) Exemplo.db)
  = [Exemplo.kc; Exemplo.ka]
  /\ descendente Calculo.createdAt
       (calculosDaResposta
          (@get_calculos Exemplo.provedores Exemplo.motor Exemplo.env
             Exemplo.bearerAdmin (mkCalculosQuery None None None)
             Exemplo.db)).
Proof.
  split.
  - destruct (@C9_get_calculos_ordem Exemplo.provedores Exemplo.motor
                Exemplo.env Exemplo.bearerGabriel Exemplo.db
                Exemplo.perfilGabriel (mkCalculosQuery None None None)
                exemplo_autenticado_gabriel) as (_ & _ & _ & Hpage).
    rewrite Hpage; [reflexivity| |cbn; lia].
    cbn. repeat constructor; cbn; intuition discriminate.
  - exact (proj1 (@C9_get_calculos_ordem Exemplo.provedores Exemplo.motor
                    Exemplo.env Exemplo.bearerAdmin Exemplo.db
                    Exemplo.perfilAdmin (mkCalculosQuery None None None)
                    exemplo_autenticado_admin)).
Defined.

(** [kb] and [ka] were created at the same time.  An engine that holds such
    rows in the order of the table lists [kb] before [ka]: among equal
    creation times the ids do not ascend.  For a [limit] of -2 the same
    engine, on the same table, lists [ka] before [kb]. *)
Lemma C9_exemplo_empate :
  calculosDaResposta
    (@get_calculos Exemplo.provedores Exemplo.motor Exemplo.env
       Exemplo.bearerAdmin (mkCalculosQuery None None None) Exemplo.db)
  = [Exemplo.kc; Exemplo.kb; Exemplo.ka]
  /\ ~ StronglySorted (fun k1 k2 => antesSpec k1 k2 = true)
         [Exemplo.kc; Exemplo.kb; Exemplo.ka]
  /\ calculosDaResposta
       (@get_calculos Exemplo.provedores Exemplo.motor Exemplo.env
          Exemplo.bearerAdmin (mkCalculosQuery None (Some (-2)) None)
          Exemplo.db)
     = [Exemplo.ka; Exemplo.kb].
Proof.
  split; [reflexivity|]. split; [|reflexivity].
  intros H. apply StronglySorted_inv in H. destruct H as [H _].
  apply StronglySorted_inv in H. destruct H as [_ H].
  apply Forall_inv in H. discriminate H.
Qed.

(** The admin renames Gabriel and sends an empty [senha]: the digest stays. *)
Lemma C10_exemplo_senha_vazia :
  exists u db',
    @put_usuarios_id Exemplo.provedores Exemplo.env Exemplo.bearerAdmin "u2"
      (mkUsuarioAdminUpdateBody "Gabriel Silva" "gabriel@uprealiza.com"
         (Some "") None) Exemplo.db
    = (Ok (mkResponse 200
             (Sucesso
                (Some (DataUsuario
                         (mkUsuarioPublico (Usuario.id u) (Usuario.nome u)
                            (Usuario.email u) (Usuario.role u)
                            (Usuario.createdAt u))))
                (Some "Usuário atualizado com sucesso!") None)), db')
    /\ find (usuarioPorId "u2") (usuario db') = Some u
    /\ Usuario.nome u = "Gabriel Silva"
    /\ Usuario.role u = "user"
    /\ Usuario.senha u = "$2b$10$bbUPimoveis123".
Proof.
  destruct (@C10_put_usuario_senha Exemplo.provedores Exemplo.env
              Exemplo.bearerAdmin Exemplo.db Exemplo.perfilAdmin "u2"
              (mkUsuarioAdminUpdateBody "Gabriel Silva"
                 "gabriel@uprealiza.com" (Some "") None)
              Exemplo.gabriel exemplo_autenticado_admin eq_refl eq_refl)
    as (Hvazia & _).
  destruct Hvazia as (u & db' & Heq & Hf & Hn & _ & Hr & Hs).
  - right. reflexivity.
  - cbn. lia.
  - reflexivity.
  - right. reflexivity.
  - unfold emailUnico. cbn. repeat constructor; cbn; intuition discriminate.
  - left. reflexivity.
  - exists u, db'. repeat split; assumption.
Defined.

(** * More properties of the routes *)

(** ** What the middlewares leave alone *)

Lemma replace_sem_ocorrencia (pat rep s : string) :
  Js.includes pat s = false -> Js.replace pat rep s = s.
Proof.
  induction s as [|c s IH]; cbn; intros H;
    apply orb_false_iff in H; destruct H as [Hp Hs].
  - rewrite Hp. reflexivity.
  - cbn in Hp. rewrite Hp. f_equal. exact (IH Hs).
Qed.

Lemma replace_bearer (token : string) :
  Js.replace "Bearer " "" ("Bearer " ++ token) = token.
Proof. destruct token; reflexivity. Qed.

Section Middlewares.

Context {P : Provedores} {Mo : Motor}.

Lemma authMiddleware_total env authorization db :
  exists x, authMiddleware env authorization db = (Ok x, db).
Proof.
  unfold authMiddleware, tryCatch, bind, liftResult, usuario_findUnique, ret.
  destruct authorization as [h|]; [|eexists; reflexivity].
  destruct (Js.truthy h); [|eexists; reflexivity]. cbn.
  destruct (jwt_verify (agora env) (Js.replace "Bearer " "" h));
    [|eexists; reflexivity].
  destruct (find _ (usuario db)); eexists; reflexivity.
Qed.

Lemma authMiddleware_recusa env authorization db r :
  authMiddleware env authorization db = (Ok (inl r), db) ->
  r = tokenRequerido \/ r = tokenInvalido.
Proof.
  unfold authMiddleware, tryCatch, bind, liftResult, usuario_findUnique, ret.
  destruct authorization as [h|]; [|intros H; injection H; auto].
  destruct (Js.truthy h); [|intros H; injection H; auto]. cbn.
  destruct (jwt_verify (agora env) (Js.replace "Bearer " "" h));
    [|intros H; injection H; auto].
  destruct (find _ (usuario db)); [discriminate|intros H; injection H; auto].
Qed.

Lemma adminMiddleware_total reqUsuario db :
  exists x, adminMiddleware reqUsuario db = (Ok x, db).
Proof.
  unfold adminMiddleware, tryCatch, bind, usuario_findUnique, ret.
  destruct (find _ (usuario db)) as [u|]; [|eexists; reflexivity].
  destruct (negb _); eexists; reflexivity.
Qed.

(** Whatever [adminMiddleware] refuses with is not a 200. *)
Lemma adminMiddleware_recusa reqUsuario db r :
  adminMiddleware reqUsuario db = (Ok (Some r), db) -> r = acessoNegado.
Proof.
  unfold adminMiddleware, tryCatch, bind, usuario_findUnique, ret.
  destruct (find _ (usuario db)) as [u|]; [|intros H; injection H; auto].
  destruct (negb _); [intros H; injection H; auto|discriminate].
Qed.

Lemma truthy_bearer (token : string) : Js.truthy ("Bearer " ++ token) = true.
Proof. reflexivity. Qed.

(** [authMiddleware] on "Bearer <token>". *)
Lemma authMiddleware_bearer env token db :
  authMiddleware env (Some ("Bearer " ++ token)) db
  = match jwt_verify (agora env) token with
    | Some c =>
        match find (usuarioPorId (userId c)) (usuario db) with
        | Some u => (Ok (inr (mkPerfil (Usuario.id u) (Usuario.nome u)
                                (Usuario.email u) (Usuario.role u))), db)
        | None => (Ok (inl tokenInvalido), db)
        end
    | None => (Ok (inl tokenInvalido), db)
    end.
Proof.
  unfold authMiddleware. rewrite truthy_bearer, replace_bearer.
  unfold tryCatch, bind, liftResult, usuario_findUnique, ret. cbn [negb].
  destruct (jwt_verify (agora env) token); [|reflexivity].
  destruct (find _ (usuario db)); reflexivity.
Qed.

End Middlewares.

Section Credenciais.

Context {P : Provedores} {Mo : Motor}.

(** X1. [authMiddleware] removes the first "Bearer " of the header and
    verifies what is left, so a header that is the bare token, with no
    scheme, is treated as the same token after "Bearer ". *)
Theorem authMiddleware_esquema_opcional (env : Env) (db : Prisma)
  (token : string) :
  token <> "" ->
  Js.includes "Bearer " token = false ->
  authMiddleware env (Some token) db
  = authMiddleware env (Some ("Bearer " ++ token)) db.
Proof.
  intros Hne Hinc. unfold authMiddleware.
  assert (Ht : Js.truthy token = true).
  { unfold Js.truthy. apply negb_true_iff, String.eqb_neq. exact Hne. }
  rewrite Ht. cbn [negb]. rewrite replace_bearer.
  rewrite (replace_sem_ocorrencia "Bearer " "" token Hinc). reflexivity.
Qed.

Lemma adminMiddleware_nega env authorization db u :
  autenticado env authorization db u ->
  p_role u <> "admin" ->
  adminMiddleware u db = (Ok (Some acessoNegado), db).
Proof.
  intros Hauth Hrole.
  destruct (autenticado_usuario _ _ _ _ Hauth) as (u0 & Hf & Hu).
  unfold adminMiddleware, tryCatch, bind, usuario_findUnique, ret.
  rewrite Hf. subst u. cbn in Hrole. apply String.eqb_neq in Hrole.
  rewrite Hrole. reflexivity.
Qed.

(** X2. A request that [authMiddleware] does not let through gets the
    middleware's 401 from every route mounted behind it, and the database is
    left as it was: the handler is not run. *)
Theorem rotas_sem_credencial (env : Env) (authorization : option string)
  (db : Prisma) :
  (forall u, ~ autenticado env authorization db u) ->
  exists r,
    (r = tokenRequerido \/ r = tokenInvalido)
    /\ (forall body, post_calculos env authorization body db = (Ok r, db))
    /\ (forall query, get_calculos env authorization query db = (Ok r, db))
    /\ (forall id, get_calculos_id env authorization id db = (Ok r, db))
    /\ (forall id, delete_calculos_id env authorization id db = (Ok r, db))
    /\ (forall id body,
           put_usuarios_id env authorization id body db = (Ok r, db))
    /\ (forall id, delete_usuarios_id env authorization id db = (Ok r, db))
    /\ (forall cuid body,
           post_usuarios env cuid authorization body db = (Ok r, db))
    /\ get_usuarios env authorization db = (Ok (Recusa r), db)
    /\ get_usuarios_perfil env authorization db = (Ok (Recusa r), db).
Proof.
  intros Hno.
  destruct (authMiddleware_total env authorization db) as ([r|u] & H);
    [|exfalso; exact (Hno u H)].
  exists r. split; [exact (authMiddleware_recusa _ _ _ _ H)|].
  unfold post_calculos, get_calculos, get_calculos_id, delete_calculos_id,
    put_usuarios_id, delete_usuarios_id, post_usuarios, get_usuarios,
    get_usuarios_perfil, comAdmin, comAdminR, comAuth, comAuthR, bind.
  rewrite H. repeat split.
Qed.

(** X3. An authenticated caller whose role is not "admin" gets 403 from
    each of the four admin routes, and the database is left as it was. *)
Theorem rotas_admin_negadas (env : Env) (authorization : option string)
  (db : Prisma) (u : Perfil) :
  autenticado env authorization db u ->
  p_role u <> "admin" ->
  status acessoNegado = 403
  /\ (forall id body,
         put_usuarios_id env authorization id body db
         = (Ok acessoNegado, db))
  /\ (forall id,
         delete_usuarios_id env authorization id db = (Ok acessoNegado, db))
  /\ (forall cuid body,
         post_usuarios env cuid authorization body db
         = (Ok acessoNegado, db))
  /\ get_usuarios env authorization db = (Ok (Recusa acessoNegado), db).
Proof.
  intros Hauth Hrole.
  pose proof (adminMiddleware_nega _ _ _ _ Hauth Hrole) as Hadm.
  unfold autenticado in Hauth.
  unfold put_usuarios_id, delete_usuarios_id, post_usuarios, get_usuarios,
    comAdmin, comAdminR, comAuth, comAuthR, bind.
  rewrite Hauth, Hadm. repeat split.
Qed.

End Credenciais.

Lemma authMiddleware_esquema_opcional_exemplo :
  @authMiddleware Exemplo.provedores Exemplo.env (Some "jwt.u2") Exemplo.db
  = (Ok (inr Exemplo.perfilGabriel), Exemplo.db).
Proof.
  rewrite (@authMiddleware_esquema_opcional Exemplo.provedores Exemplo.env
             Exemplo.db "jwt.u2");
    [reflexivity|discriminate|reflexivity].
Defined.

Lemma rotas_sem_credencial_exemplo :
  @delete_calculos_id Exemplo.provedores Exemplo.env (Some "Bearer nada") "kb"
    Exemplo.db
  = (Ok tokenInvalido, Exemplo.db).
Proof.
  destruct (@rotas_sem_credencial Exemplo.provedores Exemplo.motor Exemplo.env
              (Some "Bearer nada") Exemplo.db)
    as (r & _ & _ & _ & _ & Hdel & _).
  { intros u H. discriminate H. }
  rewrite (Hdel "kb"). specialize (Hdel "kb"). cbv in Hdel.
  injection Hdel as <-. reflexivity.
Defined.

Lemma rotas_admin_negadas_exemplo :
  @delete_usuarios_id Exemplo.provedores Exemplo.env Exemplo.bearerGabriel
    "u1" Exemplo.db
  = (Ok acessoNegado, Exemplo.db).
Proof.
  apply (@rotas_admin_negadas Exemplo.provedores Exemplo.motor Exemplo.env
           Exemplo.bearerGabriel Exemplo.db Exemplo.perfilGabriel
           exemplo_autenticado_gabriel).
  discriminate.
Defined.

(** ** Registration and login *)

Lemma zParse_ok {A} (issues : list string) (d d' : A) :
  zParse issues d = Ok d' -> issues = [] /\ d' = d.
Proof.
  unfold zParse. destruct issues; [|discriminate].
  intros H. injection H as <-. auto.
Qed.

Lemma zMin_ok n msg s : zMin n msg s = [] -> (n <= String.length s)%nat.
Proof.
  unfold zMin. destruct (Nat.leb n (String.length s)) eqn:E; [|discriminate].
  intros _. apply Nat.leb_le. exact E.
Qed.

Lemma zMin_le n m msg s :
  (m <= n)%nat -> zMin n msg s = [] -> forall msg', zMin m msg' s = [].
Proof.
  intros Hmn H msg'. apply zMin_ok in H. unfold zMin.
  replace (Nat.leb m (String.length s)) with true; [reflexivity|].
  symmetry. apply Nat.leb_le. lia.
Qed.

Lemma usuario_create_inv novoId agora nome email senha role db u db' :
  usuario_create novoId agora nome email senha role db = (Ok u, db') ->
  u = Usuario.mk novoId nome email senha role agora agora
  /\ db' = mkPrisma (usuario db ++ [u]) (cliente db) (calculo db)
  /\ find (usuarioPorId novoId) (usuario db) = None
  /\ find (usuarioPorEmail email) (usuario db) = None.
Proof.
  unfold usuario_create.
  destruct (existsb (usuarioPorId novoId) (usuario db)) eqn:Ei;
    [discriminate|].
  destruct (existsb (usuarioPorEmail email) (usuario db)) eqn:Ee;
    [discriminate|].
  cbn. intros H. injection H as <- <-. repeat split.
  - destruct (find (usuarioPorId novoId) (usuario db)) eqn:Hf;
      [|reflexivity].
    rewrite (find_some_existsb _ _ _ Hf) in Ei. discriminate.
  - destruct (find (usuarioPorEmail email) (usuario db)) eqn:Hf;
      [|reflexivity].
    rewrite (find_some_existsb _ _ _ Hf) in Ee. discriminate.
Qed.

Lemma usuario_create_throw novoId agora nome email senha role db e db' :
  usuario_create novoId agora nome email senha role db = (Throw e, db') ->
  db' = db.
Proof.
  unfold usuario_create. destruct (_ || _); intros H; congruence.
Qed.

Lemma catchZod_db e db : exists r, catchZod e db = (Ok r, db) /\ status r <> 200
                                   /\ status r <> 201.
Proof.
  destruct e; eexists; (split; [reflexivity|]); cbn; split; discriminate.
Qed.

Section Registro.

Context {P : Provedores} {E : Emissores} {Mo : Motor}.

(** What a 201 of the registration route says of the request and of the
    database. *)
Lemma registro_inv env cuid body db pub token msg st db' :
  post_usuarios_registro env cuid body db
  = (Ok (Entrega st (DataRegistro pub token) msg), db') ->
  let u := Usuario.mk cuid (rb_nome body) (rb_email body)
             (bcrypt_hash (salt env) (rb_senha body)) roleDefault
             (agora env) (agora env) in
  usuarioSchema body = Ok body
  /\ pub = publico u
  /\ token = jwt_sign (agora env) (mkClaims cuid (rb_email body))
  /\ db' = mkPrisma (usuario db ++ [u]) (cliente db) (calculo db)
  /\ find (usuarioPorId cuid) (usuario db) = None
  /\ find (usuarioPorEmail (rb_email body)) (usuario db) = None.
Proof.
  unfold post_usuarios_registro, tryCatch, bind at 1, liftResult.
  destruct (usuarioSchema body) as [dados|e] eqn:Hs.
  2:{ unfold recusa, bind. destruct (catchZod_db e db) as (r & -> & _).
      discriminate. }
  destruct (zParse_ok _ _ _ Hs) as [_ ->].
  unfold bind at 1, usuario_findUnique at 1.
  destruct (find (usuarioPorEmail (rb_email body)) (usuario db)) eqn:Hf;
    [discriminate|].
  unfold bind.
  destruct (usuario_create _ _ _ _ _ _ db) as [[u|e] db1] eqn:Hc.
  - destruct (usuario_create_inv _ _ _ _ _ _ _ _ _ Hc) as (-> & -> & Hi & _).
    cbn. intros H. injection H as <- <- <- <- <-. repeat split; assumption.
  - unfold recusa, bind. destruct (catchZod_db e db1) as (r & -> & _).
    discriminate.
Qed.

Lemma find_novo {A} (p : A -> bool) (l : list A) (x : A) :
  find p l = None -> p x = true -> find p (l ++ [x]) = Some x.
Proof.
  intros Hn Hx. rewrite (find_app_none _ _ _ Hn). cbn. rewrite Hx.
  reflexivity.
Qed.

(** X4. The token that a successful registration returns, sent back as
    "Bearer <token>" while [jwt.verify] still accepts it, passes
    [authMiddleware] as the user just created: the name and e-mail of the
    body and the default role of the column. *)
Theorem registro_token_autentica (env env2 : Env) (cuid : Id)
  (body : RegistroBody) (db db' : Prisma) (pub : UsuarioPublico)
  (token : string) (st : Z) (msg : option string) :
  post_usuarios_registro env cuid body db
  = (Ok (Entrega st (DataRegistro pub token) msg), db') ->
  tokenVale (agora env) (agora env2) ->
  authMiddleware env2 (Some ("Bearer " ++ token)) db'
  = (Ok (inr (mkPerfil cuid (rb_nome body) (rb_email body) roleDefault)),
     db')
  /\ pub = mkUsuarioPublico cuid (rb_nome body) (rb_email body) roleDefault
             (agora env).
Proof.
  intros H Hvale.
  destruct (registro_inv _ _ _ _ _ _ _ _ _ H)
    as (_ & -> & -> & -> & Hi & _).
  split; [|reflexivity].
  destruct (Hvale (mkClaims cuid (rb_email body))) as (c' & Hv & Hid).
  rewrite authMiddleware_bearer, Hv, Hid. cbn [userId usuario].
  rewrite (find_novo _ _ _ Hi); [reflexivity|].
  unfold usuarioPorId. cbn. apply String.eqb_refl.
Qed.

(** X5. After a successful registration, a login with the e-mail and the
    password of the registration succeeds and returns the same user,
    whenever [bcrypt.compare] accepts a password against its own hash. *)
Theorem registro_depois_login (env env2 : Env) (cuid : Id)
  (body : RegistroBody) (db db' : Prisma) (pub : UsuarioPublico)
  (token : string) (st : Z) (msg : option string) :
  post_usuarios_registro env cuid body db
  = (Ok (Entrega st (DataRegistro pub token) msg), db') ->
  hashConfere ->
  post_usuarios_login env2 (mkLoginBody (rb_email body) (rb_senha body)) db'
  = (Ok (Entrega 200
           (DataLogin
              (mkPerfil cuid (rb_nome body) (rb_email body) roleDefault)
              (jwt_sign (agora env2) (mkClaims cuid (rb_email body))))
           (Some "Login realizado com sucesso!")), db').
Proof.
  intros H Hhash.
  destruct (registro_inv _ _ _ _ _ _ _ _ _ H)
    as (Hs & _ & _ & -> & _ & He).
  destruct (zParse_ok _ _ _ Hs) as [Hiss _].
  apply app_eq_nil in Hiss. destruct Hiss as [_ Hiss].
  apply app_eq_nil in Hiss. destruct Hiss as [Hmail Hsenha].
  unfold post_usuarios_login. apply tryCatch_ok.
  erewrite bind_ok with
    (a := mkLoginBody (rb_email body) (rb_senha body)).
  2:{ unfold liftResult, loginSchema. cbn [lb_email lb_senha].
      rewrite Hmail, (zMin_le 6 1 _ _ ltac:(lia) Hsenha). reflexivity. }
  cbn [lb_email lb_senha].
  erewrite bind_ok.
  2:{ unfold usuario_findUnique. cbn [usuario].
      rewrite (find_novo _ _ _ He); [reflexivity|].
      unfold usuarioPorEmail. cbn. apply String.eqb_refl. }
  cbn [Usuario.senha Usuario.id Usuario.email perfilDe Usuario.nome
         Usuario.role].
  rewrite Hhash. reflexivity.
Qed.

End Registro.

Lemma exemplo_tokenVale (t0 t : Timestamp) :
  @tokenVale Exemplo.provedores ExemploExtra.emissores t0 t.
Proof.
  intros c. exists (mkClaims (userId c) ""). split; [|reflexivity].
  cbn. destruct (userId c); reflexivity.
Qed.

Lemma exemplo_hashConfere :
  @hashConfere Exemplo.provedores ExemploExtra.emissores.
Proof.
  intros sal senha. cbn.
  assert (H : forall pre, ExemploExtra.terminaCom senha (pre ++ senha) = true).
  { induction pre as [|c pre IH]; cbn.
    - destruct senha; cbn; rewrite ?String.eqb_refl, ?Ascii.eqb_refl;
        reflexivity.
    - rewrite IH. apply orb_true_r. }
  exact (H ("$2b$10$" ++ sal)).
Qed.

Lemma registro_token_autentica_exemplo :
  @authMiddleware Exemplo.provedores (mkEnv 7500 "" "" "")
    (Some "Bearer jwt.u3")
    (mkPrisma [Exemplo.admin; Exemplo.gabriel; ExemploExtra.carla]
       [Exemplo.ana; Exemplo.bruno] [Exemplo.kb; Exemplo.ka; Exemplo.kc])
  = (Ok (inr (mkPerfil "u3" "Carla Dias" "carla@exemplo.com" "user")),
     mkPrisma [Exemplo.admin; Exemplo.gabriel; ExemploExtra.carla]
       [Exemplo.ana; Exemplo.bruno] [Exemplo.kb; Exemplo.ka; Exemplo.kc]).
Proof.
  apply (@registro_token_autentica Exemplo.provedores ExemploExtra.emissores
           Exemplo.env (mkEnv 7500 "" "" "") "u3" ExemploExtra.corpoRegistro
           Exemplo.db _ (publico ExemploExtra.carla) "jwt.u3" 201
           (Some "Usuário criado com sucesso!") eq_refl
           (exemplo_tokenVale _ _)).
Defined.

Lemma registro_depois_login_exemplo :
  fst (@post_usuarios_login Exemplo.provedores ExemploExtra.emissores
         (mkEnv 7500 "" "" "")
         (mkLoginBody "carla@exemplo.com" "segredo1")
         (mkPrisma [Exemplo.admin; Exemplo.gabriel; ExemploExtra.carla]
            [Exemplo.ana; Exemplo.bruno]
            [Exemplo.kb; Exemplo.ka; Exemplo.kc]))
  = Ok (Entrega 200
          (DataLogin (mkPerfil "u3" "Carla Dias" "carla@exemplo.com" "user")
             "jwt.u3")
          (Some "Login realizado com sucesso!")).
Proof.
  exact (f_equal fst
           (@registro_depois_login Exemplo.provedores ExemploExtra.emissores
              Exemplo.env (mkEnv 7500 "" "" "") "u3"
              ExemploExtra.corpoRegistro Exemplo.db _
              (publico ExemploExtra.carla) "jwt.u3" 201
              (Some "Usuário criado com sucesso!") eq_refl
              exemplo_hashConfere)).
Defined.

(** ** Routes behind the middlewares, read backwards *)

Section Inversao.

Context {P : Provedores} {Mo : Motor}.

Lemma comAuth_inv env authorization handler db res db' :
  comAuth env authorization handler db = (res, db') ->
  (db' = db /\ (res = Ok tokenRequerido \/ res = Ok tokenInvalido))
  \/ (exists u, autenticado env authorization db u
                /\ handler u db = (res, db')).
Proof.
  unfold comAuth, bind.
  destruct (authMiddleware_total env authorization db) as ([r|u] & H);
    rewrite H.
  - intros Heq. injection Heq as <- <-. left. split; [reflexivity|].
    destruct (authMiddleware_recusa _ _ _ _ H) as [-> | ->]; auto.
  - intros Heq. right. exists u. split; assumption.
Qed.

Lemma comAdmin_inv env authorization handler db res db' :
  comAdmin env authorization handler db = (res, db') ->
  (db' = db /\ (res = Ok tokenRequerido \/ res = Ok tokenInvalido
                \/ res = Ok acessoNegado))
  \/ (exists u, autenticado env authorization db u /\ administrador u db
                /\ handler u db = (res, db')).
Proof.
  unfold comAdmin. intros H. apply comAuth_inv in H.
  destruct H as [(-> & [-> | ->])|(u & Hauth & H)]; [left; auto..|].
  unfold bind in H.
  destruct (adminMiddleware_total u db) as ([r|] & Hadm); rewrite Hadm in H.
  - injection H as <- <-. left. split; [reflexivity|].
    rewrite (adminMiddleware_recusa _ _ _ Hadm). auto.
  - right. exists u. auto.
Qed.

Lemma comAdminR_inv env authorization handler db res db' :
  comAdminR env authorization handler db = (res, db') ->
  (db' = db /\ (res = Ok (Recusa tokenRequerido)
                \/ res = Ok (Recusa tokenInvalido)
                \/ res = Ok (Recusa acessoNegado)))
  \/ (exists u, autenticado env authorization db u /\ administrador u db
                /\ handler u db = (res, db')).
Proof.
  unfold comAdminR, comAuthR, bind.
  destruct (authMiddleware_total env authorization db) as ([r|u] & H);
    rewrite H.
  - intros Heq. injection Heq as <- <-. left. split; [reflexivity|].
    destruct (authMiddleware_recusa _ _ _ _ H) as [-> | ->]; auto.
  - destruct (adminMiddleware_total u db) as ([r|] & Hadm); rewrite Hadm.
    + intros Heq. injection Heq as <- <-. left. split; [reflexivity|].
      rewrite (adminMiddleware_recusa _ _ _ Hadm). auto.
    + intros Heq. right. exists u. auto.
Qed.

End Inversao.

(** ** Login *)

Section Login.

Context {P : Provedores} {E : Emissores} {Mo : Motor}.

Lemma login_casos env body db res db' :
  post_usuarios_login env body db = (res, db') ->
  db' = db
  /\ ((exists r, res = Ok (Recusa r) /\ status r <> 200)
      \/ (exists u,
             loginSchema body = Ok body
             /\ find (usuarioPorEmail (lb_email body)) (usuario db) = Some u
             /\ bcrypt_compare (lb_senha body) (Usuario.senha u) = true
             /\ res = Ok (Entrega 200
                            (DataLogin (perfilDe u)
                               (jwt_sign (agora env)
                                  (mkClaims (Usuario.id u)
                                     (Usuario.email u))))
                            (Some "Login realizado com sucesso!")))).
Proof.
  unfold post_usuarios_login, tryCatch, bind at 1, liftResult.
  destruct (loginSchema body) as [dados|e] eqn:Hs.
  2:{ unfold recusa, bind. destruct (catchZod_db e db) as (r & -> & Hr & _).
      intros H; injection H as <- <-. split; [reflexivity|].
      left. exists r. auto. }
  destruct (zParse_ok _ _ _ Hs) as [_ ->].
  unfold bind, usuario_findUnique, ret.
  destruct (find (usuarioPorEmail (lb_email body)) (usuario db)) as [u|]
    eqn:Hf.
  - destruct (bcrypt_compare (lb_senha body) (Usuario.senha u)) eqn:Hc; cbn;
      intros H; injection H as <- <-; (split; [reflexivity|]).
    + right. exists u. auto.
    + left. eexists. split; [reflexivity|cbn; discriminate].
  - intros H; injection H as <- <-. split; [reflexivity|].
    left. eexists. split; [reflexivity|cbn; discriminate].
Qed.

(** X6. A login with an e-mail that no user has and a login with a wrong
    password get the same answer, 401 "Email ou senha inválidos". *)
Theorem login_recusa_igual (env : Env) (body : LoginBody) (db : Prisma) :
  loginSchema body = Ok body ->
  find (usuarioPorEmail (lb_email body)) (usuario db) = None
  \/ (exists u,
         find (usuarioPorEmail (lb_email body)) (usuario db) = Some u
         /\ bcrypt_compare (lb_senha body) (Usuario.senha u) = false) ->
  post_usuarios_login env body db
  = (Ok (Recusa (falha 401 "Email ou senha inválidos")), db).
Proof.
  intros Hs Hcaso. unfold post_usuarios_login. apply tryCatch_ok.
  erewrite bind_ok; [|unfold liftResult; rewrite Hs; reflexivity].
  unfold bind, usuario_findUnique, ret.
  destruct Hcaso as [-> | (u & -> & Hc)]; [reflexivity|].
  rewrite Hc. reflexivity.
Qed.

(** X7. The token of a successful login, sent back as "Bearer <token>"
    while [jwt.verify] still accepts it, passes [authMiddleware] as the user
    the login answered with, who holds the e-mail of the body.  The login
    itself writes nothing. *)
Theorem login_token_autentica (env env2 : Env) (body : LoginBody)
  (db db' : Prisma) (perfil : Perfil) (token : string) (st : Z)
  (msg : option string) :
  post_usuarios_login env body db
  = (Ok (Entrega st (DataLogin perfil token) msg), db') ->
  NoDup (map Usuario.id (usuario db)) ->
  tokenVale (agora env) (agora env2) ->
  db' = db
  /\ p_email perfil = lb_email body
  /\ authMiddleware env2 (Some ("Bearer " ++ token)) db
     = (Ok (inr perfil), db).
Proof.
  intros H Hnd Hvale.
  destruct (login_casos _ _ _ _ _ H)
    as (-> & [(r & Hr & _)|(u & _ & Hf & _ & Hr)]); [discriminate|].
  injection Hr as -> -> -> ->.
  pose proof (find_some _ _ Hf) as [Hin Hmail].
  apply String.eqb_eq in Hmail.
  split; [reflexivity|]. split; [exact Hmail|].
  destruct (Hvale (mkClaims (Usuario.id u) (Usuario.email u)))
    as (c' & Hv & Hid).
  rewrite authMiddleware_bearer, Hv, Hid. cbn [userId].
  destruct (find (usuarioPorId (Usuario.id u)) (usuario db)) as [v|] eqn:Hfv.
  - pose proof (find_some _ _ Hfv) as [Hinv Hidv].
    apply String.eqb_eq in Hidv.
    rewrite (NoDup_map_inj Usuario.id (usuario db) v u Hnd Hinv Hin Hidv).
    reflexivity.
  - exfalso. pose proof (find_none _ _ Hfv u Hin) as Hn.
    unfold usuarioPorId in Hn. rewrite String.eqb_refl in Hn. discriminate.
Qed.

End Login.

Lemma login_recusa_igual_exemplo :
  @post_usuarios_login Exemplo.provedores ExemploExtra.emissores Exemplo.env
    (mkLoginBody "ninguem@exemplo.com" "segredo1") Exemplo.db
  = (Ok (Recusa (falha 401 "Email ou senha inválidos")), Exemplo.db)
  /\ @post_usuarios_login Exemplo.provedores ExemploExtra.emissores
       Exemplo.env (mkLoginBody "gabriel@uprealiza.com" "errada")
       Exemplo.db
     = (Ok (Recusa (falha 401 "Email ou senha inválidos")), Exemplo.db).
Proof.
  split.
  - apply (@login_recusa_igual Exemplo.provedores ExemploExtra.emissores);
      [reflexivity|left; reflexivity].
  - apply (@login_recusa_igual Exemplo.provedores ExemploExtra.emissores);
      [reflexivity|right; exists Exemplo.gabriel; split; reflexivity].
Defined.

Lemma login_token_autentica_exemplo :
  @authMiddleware Exemplo.provedores (mkEnv 7500 "" "" "")
    (Some "Bearer jwt.u2") Exemplo.db
  = (Ok (inr Exemplo.perfilGabriel), Exemplo.db).
Proof.
  apply (@login_token_autentica Exemplo.provedores ExemploExtra.emissores
           Exemplo.env (mkEnv 7500 "" "" "")
           (mkLoginBody "gabriel@uprealiza.com" "UPimoveis123")
           Exemplo.db Exemplo.db Exemplo.perfilGabriel "jwt.u2" 200
           (Some "Login realizado com sucesso!") eq_refl).
  - cbn. repeat constructor; cbn; intuition discriminate.
  - apply exemplo_tokenVale.
Defined.

(** ** The admin routes on users, case by case *)

Lemma usuario_update_casos agora id d db res db' existente :
  find (usuarioPorId id) (usuario db) = Some existente ->
  usuario_update agora id d db = (res, db') ->
  (db' = db /\ exists e, res = Throw e)
  \/ (res = Ok (aplicaUsuarioUpdate agora d existente)
      /\ db' = mkPrisma
                 (map (fun v => if usuarioPorId id v
                                then aplicaUsuarioUpdate agora d v else v)
                    (usuario db))
                 (cliente db) (calculo db)
      /\ find (usuarioPorId id) (usuario db')
         = Some (aplicaUsuarioUpdate agora d existente)).
Proof.
  intros Hf. unfold usuario_update. rewrite Hf.
  destruct (existsb _ (usuario db)); intros H; injection H as <- <-.
  - left. split; [reflexivity|eexists; reflexivity].
  - right. split; [reflexivity|]. split; [reflexivity|]. cbn.
    rewrite (find_map_where (usuarioPorId id) (aplicaUsuarioUpdate agora d)),
      Hf; [reflexivity|].
    intros x Hx. exact Hx.
Qed.

Section AdminUsuarios.

Context {P : Provedores} {Mo : Motor}.

Lemma put_usuarios_id_casos env authorization id body db res db' :
  put_usuarios_id env authorization id body db = (res, db') ->
  (db' = db /\ ~ respondeu 200 res)
  \/ (exists u existente dados,
         autenticado env authorization db u
         /\ administrador u db
         /\ find (usuarioPorId id) (usuario db) = Some existente
         /\ usuarioAdminUpdateSchema body = Ok dados
         /\ let d := mkUsuarioUpdate (ud_nome dados) (ud_email dados)
                       (ud_role dados) (senhaNova env (ud_senha dados)) in
            res = Ok (mkResponse 200
                        (Sucesso
                           (Some (DataUsuario
                                    (publico
                                       (aplicaUsuarioUpdate (agora env) d
                                          existente))))
                           (Some "Usuário atualizado com sucesso!") None))
            /\ db' = mkPrisma
                       (map (fun v => if usuarioPorId id v
                                      then aplicaUsuarioUpdate (agora env) d v
                                      else v) (usuario db))
                       (cliente db) (calculo db)
            /\ find (usuarioPorId id) (usuario db')
               = Some (aplicaUsuarioUpdate (agora env) d existente)).
Proof.
  assert (Hnao : forall r, status r <> 200 -> ~ respondeu 200 (Ok r)).
  { intros r Hr (r' & Heq & Hs). injection Heq as <-. contradiction. }
  unfold put_usuarios_id. intros H. apply comAdmin_inv in H.
  destruct H as [(-> & Hr)|(u & Hauth & Hadm & H)].
  { left. split; [reflexivity|].
    destruct Hr as [-> | [-> | ->]]; apply Hnao; discriminate. }
  unfold tryCatch, bind at 1, liftResult in H.
  destruct (usuarioAdminUpdateSchema body) as [dados|e] eqn:Hs.
  2:{ destruct (catchZod_db e db) as (r & Hc & Hr & _). rewrite Hc in H.
      injection H as <- <-. left. split; [reflexivity|]. apply Hnao, Hr. }
  unfold bind at 1, usuario_findUnique at 1 in H.
  destruct (find (usuarioPorId id) (usuario db)) as [existente|] eqn:Hf.
  2:{ cbn in H. injection H as <- <-. left. split; [reflexivity|].
      apply Hnao. discriminate. }
  unfold bind at 1 in H.
  destruct ((if negb (String.eqb (ud_email dados) (Usuario.email existente))
             then usuario_findUnique (usuarioPorEmail (ud_email dados))
             else ret None) db) as [[[emailEmUso|]|e] db0] eqn:Hem.
  - assert (db0 = db) as ->
      by (destruct (negb _); unfold usuario_findUnique, ret in Hem;
          congruence).
    cbn in H. injection H as <- <-. left. split; [reflexivity|].
    apply Hnao. discriminate.
  - assert (db0 = db) as ->
      by (destruct (negb _); unfold usuario_findUnique, ret in Hem;
          congruence).
    fold (senhaNova env (ud_senha dados)) in H. unfold bind in H.
    destruct (usuario_update _ _ _ db) as [r1 db1] eqn:Hup.
    destruct (usuario_update_casos _ _ _ _ _ _ _ Hf Hup)
      as [(-> & e & ->)|(-> & -> & Hf')].
    + destruct (catchZod_db e db) as (r & Hc & Hr & _). rewrite Hc in H.
      injection H as <- <-. left. split; [reflexivity|]. apply Hnao, Hr.
    + cbn in H. injection H as <- <-. right.
      exists u, existente, dados. repeat split; assumption.
  - exfalso. destruct (negb _); unfold usuario_findUnique, ret in Hem;
      discriminate.
Qed.

End AdminUsuarios.

Section AdminUsuariosProps.

Context {P : Provedores} {Mo : Motor}.

Lemma respondeu_ok st r : respondeu st (Ok r) -> status r = st.
Proof. intros (r' & H & Hs). injection H as <-. exact Hs. Qed.

(** X8. PUT /api/usuarios/:id with a body that names no [role] writes the
    role "user": after a 200 the updated account no longer passes
    [adminMiddleware], whatever its role was, the caller's own account
    included. *)
Theorem put_usuario_sem_role_rebaixa (env : Env)
  (authorization : option string) (id : Id) (body : UsuarioAdminUpdateBody)
  (db db' : Prisma) (res : Result Response) :
  put_usuarios_id env authorization id body db = (res, db') ->
  respondeu 200 res ->
  ub_role body = None ->
  (exists u, find (usuarioPorId id) (usuario db') = Some u
             /\ Usuario.role u = "user")
  /\ (forall reqUsuario,
         p_id reqUsuario = id ->
         adminMiddleware reqUsuario db' = (Ok (Some acessoNegado), db')).
Proof.
  intros H H200 Hrole.
  destruct (put_usuarios_id_casos _ _ _ _ _ _ _ H)
    as [(_ & Hn)|(u & existente & dados & _ & _ & _ & Hs & _ & _ & Hf')];
    [contradiction|].
  rewrite (usuarioAdminUpdateSchema_dados _ _ Hs), Hrole in Hf'.
  cbn [ud_nome ud_email ud_role ud_senha] in Hf'.
  split.
  - eexists. split; [exact Hf'|reflexivity].
  - intros reqUsuario <-.
    unfold adminMiddleware, tryCatch, bind, usuario_findUnique, ret.
    rewrite Hf'. reflexivity.
Qed.

(** X9. A [senha] made of white space only passes the schema when it has
    six characters or more, and the route then leaves the stored digest as
    it was, as it does for an absent or empty [senha]. *)
Theorem put_usuario_senha_em_branco (env : Env)
  (authorization : option string) (id : Id) (body : UsuarioAdminUpdateBody)
  (db db' : Prisma) (res : Result Response) (existente u : Usuario.t)
  (s : string) :
  put_usuarios_id env authorization id body db = (res, db') ->
  find (usuarioPorId id) (usuario db) = Some existente ->
  ub_senha body = Some s ->
  Js.trim s = "" ->
  find (usuarioPorId id) (usuario db') = Some u ->
  Usuario.senha u = Usuario.senha existente.
Proof.
  intros H Hf Hsenha Htrim Hf'.
  destruct (put_usuarios_id_casos _ _ _ _ _ _ _ H)
    as [(-> & _)|(_ & existente' & dados & _ & _ & Hfe & Hs & _ & _ & Hfu)].
  - congruence.
  - rewrite (usuarioAdminUpdateSchema_dados _ _ Hs), Hsenha in Hfu.
    cbn [ud_nome ud_email ud_role ud_senha senhaNova] in Hfu.
    rewrite Htrim in Hfu. cbn [String.eqb negb] in Hfu.
    rewrite andb_false_r in Hfu.
    assert (existente' = existente) by congruence. subst existente'.
    rewrite Hf' in Hfu. injection Hfu as ->. reflexivity.
Qed.

Lemma delete_usuarios_id_casos env authorization id db res db' :
  delete_usuarios_id env authorization id db = (res, db') ->
  (db' = db /\ ~ respondeu 200 res)
  \/ (exists u alvo,
         autenticado env authorization db u
         /\ administrador u db
         /\ find (usuarioPorId id) (usuario db) = Some alvo
         /\ id <> p_id u
         /\ res = Ok (mkResponse 200
                        (Sucesso None (Some "Usuário excluído com sucesso!")
                           None))
         /\ db' = mkPrisma
                    (filter (fun v => negb (usuarioPorId id v)) (usuario db))
                    (cliente db)
                    (map (setNullUsuario id) (calculo db))).
Proof.
  assert (Hnao : forall r, status r <> 200 -> ~ respondeu 200 (Ok r)).
  { intros r Hr Hx. apply respondeu_ok in Hx. contradiction. }
  unfold delete_usuarios_id. intros H. apply comAdmin_inv in H.
  destruct H as [(-> & Hr)|(u & Hauth & Hadm & H)].
  { left. split; [reflexivity|].
    destruct Hr as [-> | [-> | ->]]; apply Hnao; discriminate. }
  unfold tryCatch, bind, usuario_findUnique, usuario_delete, ret in H.
  destruct (find (usuarioPorId id) (usuario db)) as [alvo|] eqn:Hf.
  2:{ injection H as <- <-. left. split; [reflexivity|].
      apply Hnao. discriminate. }
  destruct (String.eqb id (p_id u)) eqn:Hid.
  - injection H as <- <-. left. split; [reflexivity|].
    apply Hnao. discriminate.
  - rewrite Hf in H. injection H as <- <-. right. exists u, alvo.
    apply String.eqb_neq in Hid. repeat split; assumption.
Qed.

(** X10. Once DELETE /api/usuarios/:id has answered 200, a token of the
    deleted user no longer passes [authMiddleware]: it gets 401 "Token
    inválido" although [jwt.verify] still accepts it. *)
Theorem delete_usuario_invalida_token (env env2 : Env)
  (authorization : option string) (id : Id) (db db' : Prisma)
  (res : Result Response) (token : string) (claims : Claims) :
  delete_usuarios_id env authorization id db = (res, db') ->
  respondeu 200 res ->
  jwt_verify (agora env2) token = Some claims ->
  userId claims = id ->
  authMiddleware env2 (Some ("Bearer " ++ token)) db'
  = (Ok (inl tokenInvalido), db').
Proof.
  intros H H200 Hv Hid.
  destruct (delete_usuarios_id_casos _ _ _ _ _ _ H)
    as [(_ & Hn)|(_ & _ & _ & _ & _ & _ & _ & ->)]; [contradiction|].
  rewrite authMiddleware_bearer, Hv, Hid. cbn [usuario].
  rewrite find_filter_negb. reflexivity.
Qed.

(** X11. After a 200 of DELETE /api/usuarios/:id every calculation is
    still there, under the same id and in the same place; none names the
    deleted user, and each of the others names who it named before.  The
    foreign key to [usuarios] holds after the deletion if it held before. *)
Theorem delete_usuario_preserva_calculos (env : Env)
  (authorization : option string) (id : Id) (db db' : Prisma)
  (res : Result Response) :
  delete_usuarios_id env authorization id db = (res, db') ->
  respondeu 200 res ->
  map Calculo.id (calculo db') = map Calculo.id (calculo db)
  /\ (forall k, In k (calculo db') -> Calculo.usuarioId k <> Some id)
  /\ (forall k uid, In k (calculo db) -> Calculo.usuarioId k = Some uid ->
        uid <> id -> In k (calculo db'))
  /\ cliente db' = cliente db
  /\ (fkUsuario db -> fkUsuario db').
Proof.
  intros H H200.
  destruct (delete_usuarios_id_casos _ _ _ _ _ _ H)
    as [(_ & Hn)|(_ & _ & _ & _ & _ & _ & _ & ->)]; [contradiction|].
  cbn [calculo cliente usuario].
  assert (Hset : forall k,
             Calculo.usuarioId (setNullUsuario id k) <> Some id
             /\ Calculo.id (setNullUsuario id k) = Calculo.id k
             /\ (forall uid, Calculo.usuarioId (setNullUsuario id k)
                             = Some uid ->
                   Calculo.usuarioId k = Some uid /\ uid <> id)
             /\ (forall uid, Calculo.usuarioId k = Some uid -> uid <> id ->
                   setNullUsuario id k = k)).
  { intros k. unfold setNullUsuario.
    destruct (Calculo.usuarioId k) as [x|] eqn:Hx.
    - destruct (String.eqb x id) eqn:Exi; cbn.
      + apply String.eqb_eq in Exi. subst x.
        repeat split; try discriminate. all: intros; congruence.
      + apply String.eqb_neq in Exi. rewrite Hx.
        repeat split; try congruence.
        all: intros uid Hu; injection Hu as <-; auto.
    - rewrite Hx. repeat split; try discriminate. }
  split; [|split; [|split; [|split]]].
  - rewrite map_map. apply map_ext. intros k. apply Hset.
  - intros k Hin. apply in_map_iff in Hin. destruct Hin as (k0 & <- & _).
    apply Hset.
  - intros k uid Hin Hu Hne. apply in_map_iff. exists k.
    split; [|exact Hin]. exact (proj2 (proj2 (proj2 (Hset k))) uid Hu Hne).
  - reflexivity.
  - intros Hfk k uid Hin Hu. cbn [calculo usuario] in *.
    apply in_map_iff in Hin. destruct Hin as (k0 & <- & Hin0).
    destruct (proj1 (proj2 (proj2 (Hset k0))) uid Hu) as [Hu0 Hne].
    pose proof (Hfk k0 uid Hin0 Hu0) as Hex.
    apply existsb_exists in Hex. destruct Hex as (v & Hv & Hvid).
    apply existsb_exists. exists v. split; [|exact Hvid].
    apply filter_In. split; [exact Hv|].
    unfold usuarioPorId in *. apply String.eqb_eq in Hvid.
    apply negb_true_iff, String.eqb_neq. congruence.
Qed.

End AdminUsuariosProps.

(** The admin saves the own account without naming a role, and is an admin
    no more. *)
Lemma put_usuario_sem_role_rebaixa_exemplo :
  adminMiddleware Exemplo.perfilAdmin (snd ExemploExtra.adminSemRole)
  = (Ok (Some acessoNegado), snd ExemploExtra.adminSemRole).
Proof.
  apply (@put_usuario_sem_role_rebaixa Exemplo.provedores Exemplo.env
           Exemplo.bearerAdmin "u1"
           (mkUsuarioAdminUpdateBody "TI Uprealiza" "ti@uprealiza.com.br"
              None None) Exemplo.db (snd ExemploExtra.adminSemRole)
           (fst ExemploExtra.adminSemRole)).
  - apply surjective_pairing.
  - eexists. split; reflexivity.
  - reflexivity.
  - reflexivity.
Defined.

(** Six spaces as the new password of Gabriel: 200, and the old digest. *)
Lemma put_usuario_senha_em_branco_exemplo :
  respondeu 200 (fst ExemploExtra.gabrielEmBranco)
  /\ option_map Usuario.senha
       (find (usuarioPorId "u2") (usuario (snd ExemploExtra.gabrielEmBranco)))
     = Some "$2b$10$bbUPimoveis123".
Proof.
  split; [eexists; split; reflexivity|].
  destruct (find (usuarioPorId "u2")
              (usuario (snd ExemploExtra.gabrielEmBranco))) as [u|] eqn:Hf;
    [|discriminate Hf].
  cbn [option_map]. f_equal.
  apply (@put_usuario_senha_em_branco Exemplo.provedores Exemplo.env
           Exemplo.bearerAdmin "u2"
           (mkUsuarioAdminUpdateBody "Gabriel UPimoveis"
              "gabriel@uprealiza.com" (Some "      ") (Some "user"))
           Exemplo.db (snd ExemploExtra.gabrielEmBranco)
           (fst ExemploExtra.gabrielEmBranco) Exemplo.gabriel u "      ").
  - apply surjective_pairing.
  - reflexivity.
  - reflexivity.
  - reflexivity.
  - exact Hf.
Defined.

(** Gabriel is deleted; his token is refused afterwards and the two
    calculations he made remain, with no creator. *)
Lemma delete_usuario_invalida_token_exemplo :
  @authMiddleware Exemplo.provedores Exemplo.env Exemplo.bearerGabriel
    (snd ExemploExtra.semGabriel)
  = (Ok (inl tokenInvalido), snd ExemploExtra.semGabriel).
Proof.
  apply (@delete_usuario_invalida_token Exemplo.provedores Exemplo.env
           Exemplo.env Exemplo.bearerAdmin "u2" Exemplo.db
           (snd ExemploExtra.semGabriel) (fst ExemploExtra.semGabriel)
           "jwt.u2" (mkClaims "u2" "")).
  - apply surjective_pairing.
  - eexists. split; reflexivity.
  - reflexivity.
  - reflexivity.
Defined.

Lemma delete_usuario_preserva_calculos_exemplo :
  map Calculo.id (calculo (snd ExemploExtra.semGabriel)) = ["kb"; "ka"; "kc"]
  /\ (forall k, In k (calculo (snd ExemploExtra.semGabriel)) ->
        Calculo.usuarioId k <> Some "u2").
Proof.
  destruct (@delete_usuario_preserva_calculos Exemplo.provedores Exemplo.env
              Exemplo.bearerAdmin "u2" Exemplo.db
              (snd ExemploExtra.semGabriel) (fst ExemploExtra.semGabriel))
    as (Hids & Hnone & _).
  - apply surjective_pairing.
  - eexists. split; reflexivity.
  - split; [rewrite Hids; reflexivity|exact Hnone].
Defined.

(** ** Users created by an admin, and the listing of users *)

Lemma descendente_map {A B} (f : A -> B) (key : B -> Z) (l : list A) :
  descendente (fun x => key (f x)) l -> descendente key (map f l).
Proof.
  unfold descendente. induction 1 as [|x l Hs IH Hx]; cbn; constructor.
  - exact IH.
  - apply Forall_map. exact Hx.
Qed.

Section CriarUsuarios.

Context {P : Provedores} {E : Emissores} {Mo : Motor}.

Lemma post_usuarios_casos env cuid authorization body db res db' :
  post_usuarios env cuid authorization body db = (res, db') ->
  (db' = db /\ ~ respondeu 201 res)
  \/ (exists u dados,
         autenticado env authorization db u
         /\ administrador u db
         /\ usuarioAdminCreateSchema body = Ok dados
         /\ find (usuarioPorEmail (cd_email dados)) (usuario db) = None
         /\ find (usuarioPorId cuid) (usuario db) = None
         /\ let novo := Usuario.mk cuid (cd_nome dados) (cd_email dados)
                          (bcrypt_hash (salt env) (cd_senha dados))
                          (cd_role dados) (agora env) (agora env) in
            res = Ok (mkResponse 201
                        (Sucesso (Some (DataUsuario (publico novo)))
                           (Some "Usuário criado com sucesso!") None))
            /\ db' = mkPrisma (usuario db ++ [novo]) (cliente db)
                       (calculo db)).
Proof.
  assert (Hnao : forall r, status r <> 201 -> ~ respondeu 201 (Ok r)).
  { intros r Hr Hx. apply respondeu_ok in Hx. contradiction. }
  unfold post_usuarios. intros H. apply comAdmin_inv in H.
  destruct H as [(-> & Hr)|(u & Hauth & Hadm & H)].
  { left. split; [reflexivity|].
    destruct Hr as [-> | [-> | ->]]; apply Hnao; discriminate. }
  unfold tryCatch, bind at 1, liftResult in H.
  destruct (usuarioAdminCreateSchema body) as [dados|e] eqn:Hs.
  2:{ destruct (catchZod_db e db) as (r & Hc & _ & Hr). rewrite Hc in H.
      injection H as <- <-. left. split; [reflexivity|]. apply Hnao, Hr. }
  unfold bind at 1, usuario_findUnique at 1 in H.
  destruct (find (usuarioPorEmail (cd_email dados)) (usuario db)) eqn:Hf.
  { cbn in H. injection H as <- <-. left. split; [reflexivity|].
    apply Hnao. discriminate. }
  unfold bind in H.
  destruct (usuario_create _ _ _ _ _ _ db) as [[novo|e] db1] eqn:Hc.
  - destruct (usuario_create_inv _ _ _ _ _ _ _ _ _ Hc) as (-> & -> & Hi & _).
    cbn in H. injection H as <- <-. right. exists u, dados.
    repeat split; assumption.
  - rewrite (usuario_create_throw _ _ _ _ _ _ _ _ _ Hc) in *.
    destruct (catchZod_db e db) as (r & Hcz & _ & Hr). rewrite Hcz in H.
    injection H as <- <-. left. split; [reflexivity|]. apply Hnao, Hr.
Qed.

(** X12. A user that POST /api/usuarios has created (201) can log in with
    the e-mail and password of the request, and the login answers with the
    role the request named, "user" when it named none. *)
Theorem post_usuarios_depois_login (env env2 : Env) (cuid : Id)
  (authorization : option string) (body : UsuarioAdminCreateBody)
  (db db' : Prisma) (res : Result Response) :
  post_usuarios env cuid authorization body db = (res, db') ->
  respondeu 201 res ->
  hashConfere ->
  post_usuarios_login env2 (mkLoginBody (cb_email body) (cb_senha body)) db'
  = (Ok (Entrega 200
           (DataLogin
              (mkPerfil cuid (cb_nome body) (cb_email body)
                 (match cb_role body with Some r => r | None => "user" end))
              (jwt_sign (agora env2) (mkClaims cuid (cb_email body))))
           (Some "Login realizado com sucesso!")), db').
Proof.
  intros H H201 Hhash.
  destruct (post_usuarios_casos _ _ _ _ _ _ _ H)
    as [(_ & Hn)|(_ & dados & _ & _ & Hs & He & _ & _ & ->)];
    [contradiction|].
  destruct (zParse_ok _ _ _ Hs) as [Hiss ->].
  cbn [cd_nome cd_email cd_senha cd_role] in *.
  apply app_eq_nil in Hiss. destruct Hiss as [_ Hiss].
  apply app_eq_nil in Hiss. destruct Hiss as [Hmail Hiss].
  apply app_eq_nil in Hiss. destruct Hiss as [Hsenha _].
  unfold post_usuarios_login. apply tryCatch_ok.
  erewrite bind_ok with
    (a := mkLoginBody (cb_email body) (cb_senha body)).
  2:{ unfold liftResult, loginSchema. cbn [lb_email lb_senha].
      rewrite Hmail, (zMin_le 6 1 _ _ ltac:(lia) Hsenha). reflexivity. }
  cbn [lb_email lb_senha].
  erewrite bind_ok.
  2:{ unfold usuario_findUnique. cbn [usuario].
      rewrite (find_novo _ _ _ He); [reflexivity|].
      unfold usuarioPorEmail. cbn. apply String.eqb_refl. }
  cbn [Usuario.senha Usuario.id Usuario.email perfilDe Usuario.nome
         Usuario.role].
  rewrite Hhash. reflexivity.
Qed.

(** X13. For an admin GET /api/usuarios answers 200 with all the users of
    the table, each one once, newest first, and writes nothing. *)
Theorem get_usuarios_todos (env : Env) (authorization : option string)
  (db : Prisma) (u : Perfil) :
  autenticado env authorization db u ->
  administrador u db ->
  exists us,
    get_usuarios env authorization db
    = (Ok (Entrega 200 (DataUsuarios us) None), db)
    /\ Permutation us (map publico (usuario db))
    /\ descendente pub_createdAt us.
Proof.
  intros Hauth Hadm. eexists. split; [|split].
  - unfold get_usuarios, comAdminR, comAuthR, bind.
    unfold autenticado in Hauth. unfold administrador in Hadm.
    rewrite Hauth, Hadm. reflexivity.
  - apply Permutation_map, orderDesc_perm.
  - apply descendente_map. cbn. apply orderDesc_sorted.
Qed.

End CriarUsuarios.

Lemma post_usuarios_depois_login_exemplo :
  fst (@post_usuarios_login Exemplo.provedores ExemploExtra.emissores
         (mkEnv 7500 "" "" "")
         (mkLoginBody "carla@exemplo.com" "segredo1")
         (snd ExemploExtra.comCarla))
  = Ok (Entrega 200
          (DataLogin (mkPerfil "u3" "Carla Dias" "carla@exemplo.com" "admin")
             "jwt.u3")
          (Some "Login realizado com sucesso!")).
Proof.
  exact (f_equal fst
           (@post_usuarios_depois_login Exemplo.provedores
              ExemploExtra.emissores Exemplo.env (mkEnv 7500 "" "" "") "u3"
              Exemplo.bearerAdmin ExemploExtra.corpoCriar Exemplo.db
              (snd ExemploExtra.comCarla) (fst ExemploExtra.comCarla)
              (surjective_pairing _)
              (ex_intro _ _ (conj eq_refl eq_refl))
              exemplo_hashConfere)).
Defined.

Lemma get_usuarios_todos_exemplo :
  exists us,
    @get_usuarios Exemplo.provedores Exemplo.motor Exemplo.env
      Exemplo.bearerAdmin Exemplo.db
    = (Ok (Entrega 200 (DataUsuarios us) None), Exemplo.db)
    /\ Permutation us [publico Exemplo.admin; publico Exemplo.gabriel].
Proof.
  destruct (@get_usuarios_todos Exemplo.provedores Exemplo.motor Exemplo.env
              Exemplo.bearerAdmin Exemplo.db Exemplo.perfilAdmin
              exemplo_autenticado_admin eq_refl) as (us & H & Hp & _).
  exists us. split; [exact H|exact Hp].
Defined.

(** ** The routes of routes/usuario.ts write on success only *)

Section UsuarioEscritas.

Context {P : Provedores} {E : Emissores} {Mo : Motor}.

Lemma registro_casos env cuid body db res db' :
  post_usuarios_registro env cuid body db = (res, db') ->
  db' = db \/ respondeuR 201 res.
Proof.
  unfold post_usuarios_registro, tryCatch, bind at 1, liftResult.
  destruct (usuarioSchema body) as [dados|e] eqn:Hs.
  2:{ unfold recusa, bind. destruct (catchZod_db e db) as (r & -> & _).
      intros H. injection H as <- <-. left. reflexivity. }
  unfold bind at 1, usuario_findUnique at 1.
  destruct (find (usuarioPorEmail (rb_email dados)) (usuario db)) eqn:Hf.
  { cbn. intros H. injection H as <- <-. left. reflexivity. }
  unfold bind.
  destruct (usuario_create _ _ _ _ _ _ db) as [[u|e] db1] eqn:Hc.
  - cbn. intros H. injection H as <- <-. right.
    eexists. split; reflexivity.
  - rewrite (usuario_create_throw _ _ _ _ _ _ _ _ _ Hc).
    unfold recusa, bind. destruct (catchZod_db e db) as (r & -> & _).
    intros H. injection H as <- <-. left. reflexivity.
Qed.

(** X14. No route of routes/usuario.ts writes to the database unless it
    answers with its success status: 201 for the two routes that create a
    user, 200 for the update and the deletion.  Login, profile and the
    listing never write. *)
Theorem usuario_rotas_escrevem_no_sucesso (env : Env)
  (authorization : option string) (db : Prisma) :
  (forall cuid body res db',
      post_usuarios_registro env cuid body db = (res, db') ->
      ~ respondeuR 201 res -> db' = db)
  /\ (forall body res db',
         post_usuarios_login env body db = (res, db') -> db' = db)
  /\ (forall res db',
         get_usuarios_perfil env authorization db = (res, db') -> db' = db)
  /\ (forall res db',
         get_usuarios env authorization db = (res, db') -> db' = db)
  /\ (forall cuid body res db',
         post_usuarios env cuid authorization body db = (res, db') ->
         ~ respondeu 201 res -> db' = db)
  /\ (forall id body res db',
         put_usuarios_id env authorization id body db = (res, db') ->
         ~ respondeu 200 res -> db' = db)
  /\ (forall id res db',
         delete_usuarios_id env authorization id db = (res, db') ->
         ~ respondeu 200 res -> db' = db).
Proof.
  repeat split.
  - intros cuid body res db' H Hn.
    destruct (registro_casos _ _ _ _ _ _ H); [assumption|contradiction].
  - intros body res db' H. exact (proj1 (login_casos _ _ _ _ _ H)).
  - intros res db'. unfold get_usuarios_perfil, comAuthR, bind.
    destruct (authMiddleware_total env authorization db) as ([r|u] & ->);
      unfold tryCatch, ret; intros H; injection H as _ <-; reflexivity.
  - intros res db' H. unfold get_usuarios in H. apply comAdminR_inv in H.
    destruct H as [(-> & _)|(u & _ & _ & H)]; [reflexivity|].
    unfold tryCatch, bind, usuario_findMany, ret in H.
    injection H as _ <-. reflexivity.
  - intros cuid body res db' H Hn.
    destruct (post_usuarios_casos _ _ _ _ _ _ _ H)
      as [(-> & ?)|(u & dados & ? & ? & ? & ? & ? & Hres & ?)];
      [reflexivity|].
    exfalso. apply Hn. rewrite Hres. eexists. split; reflexivity.
  - intros id body res db' H Hn.
    destruct (put_usuarios_id_casos _ _ _ _ _ _ _ H)
      as [(-> & ?)|(u & ex & dados & ? & ? & ? & ? & Hres & ?)];
      [reflexivity|].
    exfalso. apply Hn. rewrite Hres. eexists. split; reflexivity.
  - intros id res db' H Hn.
    destruct (delete_usuarios_id_casos _ _ _ _ _ _ H)
      as [(-> & ?)|(u & alvo & ? & ? & ? & ? & Hres & ?)];
      [reflexivity|].
    exfalso. apply Hn. rewrite Hres. eexists. split; reflexivity.
Qed.

End UsuarioEscritas.

(** A registration under Gabriel's e-mail is refused and writes nothing. *)
Lemma usuario_rotas_escrevem_no_sucesso_exemplo :
  snd (@post_usuarios_registro Exemplo.provedores ExemploExtra.emissores
         Exemplo.env "u3"
         (mkRegistroBody "Outro" "gabriel@uprealiza.com" "segredo1")
         Exemplo.db)
  = Exemplo.db.
Proof.
  destruct (@usuario_rotas_escrevem_no_sucesso Exemplo.provedores
              ExemploExtra.emissores Exemplo.motor Exemplo.env None
              Exemplo.db)
    as (Hreg & _).
  eapply Hreg; [apply surjective_pairing|].
  intros (r & Heq & Hst). cbv in Heq. injection Heq as <-. discriminate Hst.
Defined.

(** ** routes/cliente.ts *)

Lemma respondeuR_ok st r : respondeuR st (Ok r) -> statusDe r = st.
Proof. intros (r' & H & Hs). injection H as <-. exact Hs. Qed.

Lemma cliente_create_inv novoId agora d db c db' :
  cliente_create novoId agora d db = (Ok c, db') ->
  c = Cliente.mk novoId (d_nome d) (d_telefone d) (d_cpf d) (d_email d)
        agora agora
  /\ db' = mkPrisma (usuario db) (cliente db ++ [c]) (calculo db)
  /\ find (clientePorId novoId) (cliente db) = None
  /\ find (clientePorCpf (d_cpf d)) (cliente db) = None.
Proof.
  unfold cliente_create.
  destruct (existsb (clientePorId novoId) (cliente db)) eqn:Ei;
    [discriminate|].
  destruct (existsb (clientePorCpf (d_cpf d)) (cliente db)) eqn:Ee;
    [discriminate|].
  cbn. intros H. injection H as <- <-. repeat split.
  - destruct (find (clientePorId novoId) (cliente db)) eqn:Hf;
      [|reflexivity].
    rewrite (find_some_existsb _ _ _ Hf) in Ei. discriminate.
  - destruct (find (clientePorCpf (d_cpf d)) (cliente db)) eqn:Hf;
      [|reflexivity].
    rewrite (find_some_existsb _ _ _ Hf) in Ee. discriminate.
Qed.

Lemma cliente_create_throw novoId agora d db e db' :
  cliente_create novoId agora d db = (Throw e, db') -> db' = db.
Proof.
  unfold cliente_create. destruct (_ || _); intros H; congruence.
Qed.

Lemma recusa_catchZod e db :
  exists r, recusa (catchZod e) db = (Ok (Recusa r), db)
            /\ status r <> 200 /\ status r <> 201.
Proof.
  unfold recusa, bind. destruct (catchZod_db e db) as (r & -> & Hr).
  exists r. split; [reflexivity|exact Hr].
Qed.

Section ClienteRotas.

Context {P : Provedores} {Mo : Motor}.

Lemma post_clientes_casos env body db res db' :
  post_clientes env body db = (res, db') ->
  (db' = db /\ ~ respondeuR 201 res)
  \/ (clienteIssues body = []
      /\ find (clientePorCpf (d_cpf body)) (cliente db) = None
      /\ find (clientePorId (cuidCliente env)) (cliente db) = None
      /\ let c := Cliente.mk (cuidCliente env) (d_nome body)
                    (d_telefone body) (d_cpf body) (d_email body)
                    (agora env) (agora env) in
         res = Ok (Entrega 201 (DataCliente c)
                     (Some "Cliente criado com sucesso!"))
         /\ db' = mkPrisma (usuario db) (cliente db ++ [c]) (calculo db)).
Proof.
  assert (Hnao : forall r, status r <> 201 -> ~ respondeuR 201 (Ok (Recusa r))).
  { intros r Hr Hx. apply respondeuR_ok in Hx. contradiction. }
  unfold post_clientes, tryCatch, bind at 1, liftResult.
  destruct (clienteSchema body) as [dados|e] eqn:Hs.
  2:{ destruct (recusa_catchZod e db) as (r & -> & _ & Hr).
      intros H. injection H as <- <-. left. split; [reflexivity|].
      apply Hnao, Hr. }
  destruct (zParse_ok _ _ _ Hs) as [Hiss ->].
  unfold bind at 1, cliente_findUnique at 1.
  destruct (find (clientePorCpf (d_cpf body)) (cliente db)) eqn:Hf.
  { cbn. intros H. injection H as <- <-. left. split; [reflexivity|].
    apply Hnao. discriminate. }
  unfold bind.
  destruct (cliente_create _ _ _ db) as [[c|e] db1] eqn:Hc.
  - destruct (cliente_create_inv _ _ _ _ _ _ Hc) as (-> & -> & Hi & _).
    cbn. intros H. injection H as <- <-. right. repeat split; assumption.
  - rewrite (cliente_create_throw _ _ _ _ _ _ Hc).
    destruct (recusa_catchZod e db) as (r & -> & _ & Hr).
    intros H. injection H as <- <-. left. split; [reflexivity|].
    apply Hnao, Hr.
Qed.

Lemma filter_todos {A} (p : A -> bool) (l : list A) :
  (forall x, In x l -> p x = true) -> filter p l = l.
Proof.
  induction l as [|x l IH]; cbn; intros H; [reflexivity|].
  rewrite (H x (or_introl eq_refl)). f_equal. apply IH.
  intros y Hy. apply H. right. exact Hy.
Qed.

Lemma filter_nenhum {A} (p : A -> bool) (l : list A) :
  (forall x, In x l -> p x = false) -> filter p l = [].
Proof.
  induction l as [|x l IH]; cbn; intros H; [reflexivity|].
  rewrite (H x (or_introl eq_refl)). apply IH.
  intros y Hy. apply H. right. exact Hy.
Qed.

(** No calculation points to an id that no client has. *)
Lemma fkCliente_sem_calculos db id :
  fkCliente db ->
  find (clientePorId id) (cliente db) = None ->
  forall k, In k (calculo db) -> calculoDoCliente id k = false.
Proof.
  intros Hfk Hf k Hin. unfold calculoDoCliente.
  destruct (String.eqb (Calculo.clienteId k) id) eqn:E; [|reflexivity].
  apply String.eqb_eq in E. pose proof (Hfk k Hin) as Hex. rewrite E in Hex.
  rewrite (find_none_existsb _ _ Hf) in Hex. discriminate.
Qed.

Lemma delete_clientes_id_eq id db :
  delete_clientes_id id db
  = match find (clientePorId id) (cliente db) with
    | None => (Ok (falha 404 "Cliente não encontrado"), db)
    | Some c =>
        if 0 <? countCalculos db c
        then (Ok (falha 400
                    "Não é possível deletar cliente que possui cálculos"),
              db)
        else (Ok (mkResponse 200
                    (Sucesso None (Some "Cliente deletado com sucesso!")
                       None)),
              mkPrisma (usuario db)
                (filter (fun v => negb (clientePorId id v)) (cliente db))
                (filter (fun k => negb (calculoDoCliente id k))
                   (calculo db)))
    end.
Proof.
  unfold delete_clientes_id, tryCatch, bind, cliente_findUnique, get,
    cliente_delete, ret.
  destruct (find (clientePorId id) (cliente db)) as [c|] eqn:Hf;
    [|reflexivity].
  destruct (0 <? countCalculos db c); [reflexivity|].
  rewrite Hf. reflexivity.
Qed.

(** X15. A client that POST /api/clientes has created (201) is read back
    by GET /api/clientes/:id under its new id, with the data of the body and
    no calculation; and DELETE /api/clientes/:id on that id then answers 200
    and puts the database back exactly as it was before the creation. *)
Theorem post_clientes_ida_e_volta (env : Env) (body : ClienteDados)
  (db db' : Prisma) (res : Result Resposta) :
  post_clientes env body db = (res, db') ->
  respondeuR 201 res ->
  fkCliente db ->
  let c := Cliente.mk (cuidCliente env) (d_nome body) (d_telefone body)
             (d_cpf body) (d_email body) (agora env) (agora env) in
  res = Ok (Entrega 201 (DataCliente c) (Some "Cliente criado com sucesso!"))
  /\ get_clientes_id (cuidCliente env) db'
     = (Ok (Entrega 200 (DataClienteCalculos c []) None), db')
  /\ delete_clientes_id (cuidCliente env) db'
     = (Ok (mkResponse 200
              (Sucesso None (Some "Cliente deletado com sucesso!") None)),
        mkPrisma (usuario db) (cliente db) (calculo db)).
Proof.
  intros H H201 Hfk c.
  destruct (post_clientes_casos _ _ _ _ _ H)
    as [(_ & Hn)|(_ & _ & Hi & -> & ->)]; [contradiction|].
  fold c. split; [reflexivity|].
  assert (Hc : clientePorId (cuidCliente env) c = true)
    by (unfold clientePorId; cbn; apply String.eqb_refl).
  pose proof (fkCliente_sem_calculos _ _ Hfk Hi) as Hk.
  split.
  - unfold get_clientes_id, tryCatch, bind, cliente_findUnique_calculos, ret.
    cbn [cliente calculo]. rewrite (find_novo _ _ _ Hi Hc).
    cbn [option_map Cliente.id c]. rewrite (filter_nenhum _ _ Hk).
    reflexivity.
  - rewrite delete_clientes_id_eq.
    cbn [cliente calculo usuario]. rewrite (find_novo _ _ _ Hi Hc).
    unfold countCalculos. cbn [calculo Cliente.id c].
    rewrite (filter_nenhum _ _ Hk). cbn [length Z.of_nat Z.ltb Z.compare].
    f_equal. f_equal.
    + rewrite filter_app. cbn [filter]. rewrite Hc. cbn [negb].
      rewrite app_nil_r. apply filter_todos.
      intros x Hx. rewrite (find_none _ _ Hi x Hx). reflexivity.
    + apply filter_todos. intros k Hin. rewrite (Hk k Hin). reflexivity.
Qed.

Lemma zParse_throw {A} (issues : list string) (d : A) (e : Error) :
  zParse issues d = Throw e -> e = ZodError issues.
Proof.
  unfold zParse. destruct issues; [discriminate|].
  intros H. injection H as <-. reflexivity.
Qed.

(** Under the unique index on CPF, a row that holds the CPF of the row of
    [id] is the row of [id]. *)
Lemma cpfUnico_sem_conflito db id c d :
  cpfUnico db ->
  find (clientePorId id) (cliente db) = Some c ->
  d_cpf d = Cliente.cpf c
  \/ find (clientePorCpf (d_cpf d)) (cliente db) = None ->
  existsb (fun v => clientePorCpf (d_cpf d) v && negb (clientePorId id v))
    (cliente db) = false.
Proof.
  intros Hnd Hf Hcpf.
  destruct (existsb _ (cliente db)) eqn:E; [|reflexivity].
  exfalso. apply existsb_exists in E. destruct E as (v & Hin & Hv).
  apply andb_true_iff in Hv. destruct Hv as [Hvc Hvi].
  apply negb_true_iff in Hvi.
  destruct Hcpf as [Heq|Hnone].
  - pose proof (find_some _ _ Hf) as [Hin' Hid].
    unfold clientePorCpf in Hvc. apply String.eqb_eq in Hvc.
    assert (v = c)
      by (apply (NoDup_map_inj Cliente.cpf (cliente db));
          [exact Hnd|assumption|assumption|congruence]).
    subst v. congruence.
  - pose proof (find_none _ _ Hnone v Hin). congruence.
Qed.

Lemma NoDup_cpf_update (l : list Cliente.t) (id : Id) (agora : Timestamp)
  (d : ClienteDados) :
  NoDup (map Cliente.cpf l) ->
  NoDup (map Cliente.id l) ->
  (forall v, In v l -> Cliente.cpf v = d_cpf d -> Cliente.id v = id) ->
  NoDup (map Cliente.cpf
           (map (fun v => if clientePorId id v
                          then aplicaClienteDados agora d v else v) l)).
Proof.
  set (upd := fun v => if clientePorId id v
                       then aplicaClienteDados agora d v else v).
  induction l as [|x l IH]; cbn; intros Hc Hi Hnew; [constructor|].
  inversion Hc as [|? ? Hxc Hlc]; subst.
  inversion Hi as [|? ? Hxi Hli]; subst.
  constructor.
  - intros Hin. apply in_map_iff in Hin. destruct Hin as (w & Hw & Hinw).
    apply in_map_iff in Hinw. destruct Hinw as (v & <- & Hv).
    unfold upd, clientePorId in Hw.
    destruct (String.eqb (Cliente.id x) id) eqn:Ex,
             (String.eqb (Cliente.id v) id) eqn:Ev; cbn in Hw.
    + apply String.eqb_eq in Ex, Ev. apply Hxi. rewrite Ex, <- Ev.
      apply in_map. exact Hv.
    + apply String.eqb_neq in Ev. apply Ev.
      apply Hnew; [right; exact Hv|exact Hw].
    + apply String.eqb_neq in Ex. apply Ex.
      apply Hnew; [left; reflexivity|symmetry; exact Hw].
    + apply Hxc. rewrite <- Hw. apply in_map. exact Hv.
  - apply IH; try assumption. intros v Hv. apply Hnew. right. exact Hv.
Qed.

(** X16. With CPFs and ids unique in the table, PUT /api/clientes/:id never
    answers 500: its own look-ups refuse (404, 400) every request that the
    unique index would refuse.  A CPF held by another client gets 400 "CPF
    já está sendo usado por outro cliente"; and whatever the answer, no two
    clients share a CPF afterwards. *)
Theorem put_clientes_id_cpf_unico (env : Env) (id : Id) (body : ClienteDados)
  (db db' : Prisma) (res : Result Resposta) :
  put_clientes_id env id body db = (res, db') ->
  cpfUnico db ->
  NoDup (map Cliente.id (cliente db)) ->
  (exists r, res = Ok r
             /\ (statusDe r = 200 \/ statusDe r = 400 \/ statusDe r = 404))
  /\ (forall c outro,
         clienteIssues body = [] ->
         find (clientePorId id) (cliente db) = Some c ->
         d_cpf body <> Cliente.cpf c ->
         find (clientePorCpf (d_cpf body)) (cliente db) = Some outro ->
         res = Ok (Recusa (falha 400
                             "CPF já está sendo usado por outro cliente"))
         /\ db' = db)
  /\ cpfUnico db'.
Proof.
  intros H Hnd Hid.
  unfold put_clientes_id, tryCatch, bind at 1, liftResult in H.
  destruct (clienteSchema body) as [dados|e] eqn:Hs.
  { destruct (zParse_ok _ _ _ Hs) as [Hiss ->].
    unfold bind at 1, cliente_findUnique at 1 in H.
    destruct (find (clientePorId id) (cliente db)) as [c|] eqn:Hf.
    - unfold bind at 1 in H.
      destruct (String.eqb (d_cpf body) (Cliente.cpf c)) eqn:Ecpf;
        cbn [negb] in H.
      + apply String.eqb_eq in Ecpf. unfold ret at 1 in H.
        unfold bind in H. unfold cliente_update_id in H. rewrite Hf in H.
        rewrite (cpfUnico_sem_conflito _ _ _ _ Hnd Hf (or_introl Ecpf)) in H.
        cbn in H. injection H as <- <-.
        split; [eexists; split; [reflexivity|cbn; auto]|]. split.
        * intros c' outro _ Hc' Hne. congruence.
        * unfold cpfUnico. cbn [cliente].
          apply NoDup_cpf_update; [exact Hnd|exact Hid|].
          intros v Hv Hvc. pose proof (find_some _ _ Hf) as [Hin Hcid].
          apply String.eqb_eq in Hcid.
          rewrite (NoDup_map_inj Cliente.cpf (cliente db) v c Hnd Hv Hin);
            [exact Hcid|congruence].
      + apply String.eqb_neq in Ecpf.
        unfold cliente_findUnique at 1 in H.
        destruct (find (clientePorCpf (d_cpf body)) (cliente db))
          as [outro|] eqn:Hfc.
        * cbn in H. injection H as <- <-.
          split; [eexists; split; [reflexivity|cbn; auto]|]. split.
          -- intros c' outro' _ _ _ _. auto.
          -- exact Hnd.
        * unfold bind in H. unfold cliente_update_id in H. rewrite Hf in H.
          rewrite (cpfUnico_sem_conflito _ _ _ _ Hnd Hf (or_intror Hfc)) in H.
          cbn in H. injection H as <- <-.
          split; [eexists; split; [reflexivity|cbn; auto]|]. split.
          -- intros c' outro _ _ _ Hx. congruence.
          -- unfold cpfUnico. cbn [cliente].
             apply NoDup_cpf_update; [exact Hnd|exact Hid|].
             intros v Hv Hvc. exfalso.
             pose proof (find_none _ _ Hfc v Hv) as Hn.
             unfold clientePorCpf in Hn. apply String.eqb_neq in Hn.
             contradiction.
    - cbn in H. injection H as <- <-.
      split; [eexists; split; [reflexivity|cbn; auto]|]. split.
      + intros c outro _ Hc. discriminate.
      + exact Hnd. }
  pose proof (zParse_throw _ _ _ Hs) as ->.
  cbn in H. injection H as <- <-.
  split; [eexists; split; [reflexivity|cbn; auto]|]. split.
  - intros c outro Hiss. unfold clienteSchema in Hs. rewrite Hiss in Hs.
    discriminate.
  - exact Hnd.
Qed.

Lemma put_clientes_id_sucesso env id body db res db' :
  put_clientes_id env id body db = (res, db') ->
  respondeuR 200 res ->
  exists c,
    find (clientePorId id) (cliente db) = Some c
    /\ res = Ok (Entrega 200
                   (DataCliente (aplicaClienteDados (agora env) body c))
                   (Some "Cliente atualizado com sucesso!"))
    /\ db' = mkPrisma (usuario db)
               (map (fun v => if clientePorId id v
                              then aplicaClienteDados (agora env) body v
                              else v) (cliente db))
               (calculo db).
Proof.
  intros H H200.
  assert (Hnao : forall r, status r <> 200 -> ~ respondeuR 200 (Ok (Recusa r))).
  { intros r Hr Hx. apply respondeuR_ok in Hx. contradiction. }
  unfold put_clientes_id, tryCatch, bind at 1, liftResult in H.
  destruct (clienteSchema body) as [dados|e] eqn:Hs.
  2:{ destruct (recusa_catchZod e db) as (r & Hc & Hr & _). rewrite Hc in H.
      injection H as Hres Hdb; subst res db'. exfalso. exact (Hnao r Hr H200). }
  destruct (zParse_ok _ _ _ Hs) as [_ ->].
  unfold bind at 1, cliente_findUnique at 1 in H.
  destruct (find (clientePorId id) (cliente db)) as [c|] eqn:Hf.
  2:{ cbn in H. injection H as Hres Hdb; subst res db'. exfalso.
      apply respondeuR_ok in H200. discriminate H200. }
  unfold bind at 1 in H.
  destruct ((if negb (String.eqb (d_cpf body) (Cliente.cpf c))
             then cliente_findUnique (clientePorCpf (d_cpf body))
             else ret None) db) as [[[outro|]|e] db0] eqn:Hem.
  - cbn in H. injection H as Hres Hdb; subst res db'. exfalso.
    apply respondeuR_ok in H200. discriminate H200.
  - assert (db0 = db) as ->
      by (destruct (negb _); unfold cliente_findUnique, ret in Hem;
          congruence).
    unfold bind in H. unfold cliente_update_id in H. rewrite Hf in H.
    revert H. destruct (existsb _ (cliente db)); intros H.
    + destruct (recusa_catchZod P2002 db) as (r & Hc & Hr & _).
      rewrite Hc in H. injection H as Hres Hdb; subst res db'. exfalso. exact (Hnao r Hr H200).
    + cbn in H. injection H as Hres Hdb; subst res db'. exists c. auto.
  - exfalso. destruct (negb _); unfold cliente_findUnique, ret in Hem;
      discriminate.
Qed.

(** X17. After a 200 of PUT /api/clientes/:id, GET /api/clientes/:id gives
    the client with the data of the body, the id and creation time it had,
    and the calculations it had; the other clients and every calculation
    are as before. *)
Theorem put_clientes_id_depois_get (env : Env) (id : Id)
  (body : ClienteDados) (db db' : Prisma) (res : Result Resposta) :
  put_clientes_id env id body db = (res, db') ->
  respondeuR 200 res ->
  exists c ks,
    get_clientes_id id db
    = (Ok (Entrega 200 (DataClienteCalculos c ks) None), db)
    /\ get_clientes_id id db'
       = (Ok (Entrega 200
                (DataClienteCalculos
                   (Cliente.mk (Cliente.id c) (d_nome body)
                      (d_telefone body) (d_cpf body) (d_email body)
                      (Cliente.createdAt c) (agora env)) ks) None), db')
    /\ calculo db' = calculo db
    /\ (forall v, In v (cliente db) -> Cliente.id v <> id ->
          In v (cliente db')).
Proof.
  intros H H200.
  destruct (put_clientes_id_sucesso _ _ _ _ _ _ H H200) as (c & Hf & _ & ->).
  exists c. eexists.
  unfold get_clientes_id, tryCatch, bind, cliente_findUnique_calculos, ret.
  cbn [cliente calculo]. rewrite Hf.
  rewrite (find_map_where (clientePorId id)
             (aplicaClienteDados (agora env) body)), Hf;
    [|intros x Hx; exact Hx].
  repeat split.
  intros v Hv Hne. apply in_map_iff. exists v. split; [|exact Hv].
  unfold clientePorId. apply String.eqb_neq in Hne. rewrite Hne. reflexivity.
Qed.

(** X18. GET /api/clientes/:id answers 404 for an id that no client has.
    For a client of the table it answers with the client and with all the
    calculations that point to it and no other, newest first: as many as the
    [_count] that GET /api/clientes shows for the client, on whatever page of
    whatever search the client comes. *)
Theorem get_clientes_id_calculos (id : Id) (db : Prisma) :
  match find (clientePorId id) (cliente db) with
  | None =>
      get_clientes_id id db
      = (Ok (Recusa (falha 404 "Cliente não encontrado")), db)
  | Some c =>
      exists ks,
        get_clientes_id id db
        = (Ok (Entrega 200 (DataClienteCalculos c ks) None), db)
        /\ (forall k, In k ks <->
                      In k (calculo db) /\ Calculo.clienteId k = id)
        /\ descendente Calculo.createdAt ks
        /\ Z.of_nat (length ks) = countCalculos db c
        /\ (forall query c' n,
               In (c', n) (contagensDaResposta (get_clientes query db)) ->
               Cliente.id c' = id ->
               n = Z.of_nat (length ks))
  end.
Proof.
  unfold get_clientes_id, tryCatch, bind, cliente_findUnique_calculos, ret.
  destruct (find (clientePorId id) (cliente db)) as [c|] eqn:Hf;
    [|reflexivity].
  pose proof (find_some _ _ Hf) as [_ Hid]. apply String.eqb_eq in Hid.
  eexists. split; [reflexivity|]. split; [|split; [|split]].
  - intros k. rewrite Hid. split.
    + intros Hin.
      apply (Permutation_in _ (orderDesc_perm _ Calculo.createdAt _)) in Hin.
      apply filter_In in Hin. destruct Hin as [Hin Hk].
      split; [exact Hin|]. apply String.eqb_eq. exact Hk.
    + intros [Hin Hk].
      apply (Permutation_in _
               (Permutation_sym (orderDesc_perm _ Calculo.createdAt _))).
      apply filter_In. split; [exact Hin|].
      unfold calculoDoCliente. apply String.eqb_eq. exact Hk.
  - apply orderDesc_sorted.
  - unfold countCalculos.
    rewrite (Permutation_length (orderDesc_perm _ _ _)). reflexivity.
  - intros query c' n Hin Hc'. rewrite contagensDaResposta_eq in Hin.
    destruct (window _ _ _ _ _) as [rows|]; [|contradiction].
    apply in_map_iff in Hin. destruct Hin as (x & Hx & _).
    injection Hx as -> <-. unfold countCalculos.
    rewrite (Permutation_length (orderDesc_perm _ _ _)), Hc', Hid.
    reflexivity.
Qed.

End ClienteRotas.

Lemma exemplo_fkCliente : fkCliente Exemplo.db.
Proof.
  intros k [<- | [<- | [<- | []]]]; reflexivity.
Qed.

Lemma exemplo_cpfUnico : cpfUnico Exemplo.db.
Proof.
  unfold cpfUnico. cbn. repeat constructor; cbn; intuition discriminate.
Qed.

Lemma post_clientes_ida_e_volta_exemplo :
  delete_clientes_id "c3" (snd ExemploExtra.comClienteCarla)
  = (Ok (mkResponse 200
           (Sucesso None (Some "Cliente deletado com sucesso!") None)),
     Exemplo.db).
Proof.
  destruct (@post_clientes_ida_e_volta Exemplo.provedores Exemplo.motor
              Exemplo.env Exemplo.dadosCarla Exemplo.db
              (snd ExemploExtra.comClienteCarla)
              (fst ExemploExtra.comClienteCarla)
              (surjective_pairing _)
              (ex_intro _ _ (conj eq_refl eq_refl))
              exemplo_fkCliente) as (_ & _ & Hdel).
  exact Hdel.
Defined.

Lemma put_clientes_id_cpf_unico_exemplo :
  fst ExemploExtra.anaComCpfDeBruno
  = Ok (Recusa (falha 400 "CPF já está sendo usado por outro cliente"))
  /\ snd ExemploExtra.anaComCpfDeBruno = Exemplo.db
  /\ cpfUnico (snd ExemploExtra.anaEditada).
Proof.
  destruct (@put_clientes_id_cpf_unico Exemplo.provedores Exemplo.env "c1"
              (mkClienteDados "Ana Souza" "11999990000" "98765432100"
                 "ana@exemplo.com")
              Exemplo.db (snd ExemploExtra.anaComCpfDeBruno)
              (fst ExemploExtra.anaComCpfDeBruno)
              (surjective_pairing _) exemplo_cpfUnico) as (_ & Hconf & _).
  { cbn. repeat constructor; cbn; intuition discriminate. }
  destruct (Hconf Exemplo.ana Exemplo.bruno) as [Hres Hdb];
    [reflexivity|reflexivity|discriminate|reflexivity|].
  split; [exact Hres|]. split; [exact Hdb|].
  apply (@put_clientes_id_cpf_unico Exemplo.provedores Exemplo.env "c1"
           Exemplo.dadosAna Exemplo.db (snd ExemploExtra.anaEditada)
           (fst ExemploExtra.anaEditada) (surjective_pairing _)
           exemplo_cpfUnico).
  cbn. repeat constructor; cbn; intuition discriminate.
Defined.

Lemma put_clientes_id_depois_get_exemplo :
  exists ks,
    @get_clientes_id Exemplo.motor "c1" (snd ExemploExtra.anaEditada)
    = (Ok (Entrega 200
             (DataClienteCalculos
                (Cliente.mk "c1" "Ana Lima" "11888880000" "12345678901"
                   "ana@exemplo.com" 2000 7000) ks) None),
       snd ExemploExtra.anaEditada)
    /\ Permutation ks [Exemplo.kb; Exemplo.ka; Exemplo.kc].
Proof.
  destruct (@put_clientes_id_depois_get Exemplo.provedores Exemplo.motor
              Exemplo.env "c1" Exemplo.dadosAna Exemplo.db (snd ExemploExtra.anaEditada)
              (fst ExemploExtra.anaEditada) (surjective_pairing _)
              (ex_intro _ _ (conj eq_refl eq_refl)))
    as (c & ks & Hantes & Hdepois & _).
  assert (Hc : c = Exemplo.ana /\ ks = [Exemplo.kc; Exemplo.kb; Exemplo.ka]).
  { change (@get_clientes_id Exemplo.motor "c1" Exemplo.db)
      with (Ok (Entrega 200
                  (DataClienteCalculos Exemplo.ana
                     [Exemplo.kc; Exemplo.kb; Exemplo.ka]) None),
            Exemplo.db) in Hantes.
    injection Hantes as <- <-. split; reflexivity. }
  destruct Hc as [-> ->].
  eexists. split; [exact Hdepois|].
  exact (Permutation_cons_append [Exemplo.kb; Exemplo.ka] Exemplo.kc).
Defined.

(** ** POST /api/calculos: what the schema lets through *)

Lemma upsertCliente_throw env d db e db1 :
  upsertCliente env d db = (Throw e, db1) ->
  db1 = db /\ exists code, e = PrismaError code.
Proof.
  unfold upsertCliente, bind, cliente_findUnique.
  destruct (find (clientePorCpf (d_cpf d)) (cliente db)) as [c|] eqn:Hf.
  - unfold cliente_update. rewrite Hf.
    destruct (existsb _ (cliente db)); [|discriminate].
    intros H. injection H as <- <-. split; [reflexivity|].
    eexists; reflexivity.
  - unfold cliente_create. destruct (_ || _); [|discriminate].
    intros H. injection H as <- <-. split; [reflexivity|].
    eexists; reflexivity.
Qed.

Lemma calculo_create_throw novoId agora data db e db2 :
  calculo_create novoId agora data db = (Throw e, db2) ->
  db2 = db /\ exists code, e = PrismaError code.
Proof.
  unfold calculo_create.
  destruct (negb (forallb PrimFloat.is_finite _)).
  { intros H. injection H as <- <-. split; [reflexivity|].
    eexists; reflexivity. }
  destruct (existsb (calculoPorId novoId) (calculo db)).
  { intros H. injection H as <- <-. split; [reflexivity|].
    eexists; reflexivity. }
  destruct (negb (existsb _ (cliente db))).
  { intros H. injection H as <- <-. split; [reflexivity|].
    eexists; reflexivity. }
  destruct (match Calculo.usuarioId _ with Some _ => _ | None => _ end);
    [|discriminate].
  intros H. injection H as <- <-. split; [reflexivity|].
  eexists; reflexivity.
Qed.

Section CorpoCalculo.

Context {P : Provedores} {Mo : Motor}.

Lemma zPositive_nil msg x :
  zPositive msg x = [] <-> PrimFloat.ltb 0 x = true.
Proof.
  unfold zPositive. split.
  - destruct (PrimFloat.is_nan x); [discriminate|].
    destruct (PrimFloat.ltb 0 x); [reflexivity|discriminate].
  - intros H. rewrite (ltb_not_nan _ _ H), H. reflexivity.
Qed.

Lemma zNumber_nil x : zNumber x = [] <-> PrimFloat.is_nan x = false.
Proof.
  unfold zNumber. destruct (PrimFloat.is_nan x); split; congruence.
Qed.

Lemma criarCalculoSchema_casos vl vt cli otp :
  let tp := match otp with Some t => t | None => taxaPoupancaDefault end in
  (PrimFloat.ltb 0 vl = true /\ PrimFloat.ltb 0 vt = true
   /\ clienteIssues cli = [] /\ PrimFloat.is_nan tp = false
   /\ criarCalculoSchema (mkCriarCalculoBody vl vt cli otp)
      = Ok (mkCriarCalculoDados vl vt cli tp))
  \/ ((PrimFloat.ltb 0 vl = false \/ PrimFloat.ltb 0 vt = false
       \/ clienteIssues cli <> [] \/ PrimFloat.is_nan tp = true)
      /\ exists issues,
           issues <> []
           /\ criarCalculoSchema (mkCriarCalculoBody vl vt cli otp)
              = Throw (ZodError issues)).
Proof.
  intros tp. unfold criarCalculoSchema. cbn [b_valorLocacao b_valorTaxas
    b_cliente b_taxaPoupanca]. fold tp.
  destruct (zPositive "Valor da locação deve ser positivo" vl
            ++ zPositive "Valor das taxas deve ser positivo" vt
            ++ clienteIssues cli ++ zNumber tp)%list as [|i resto] eqn:Hiss.
  - left. apply app_eq_nil in Hiss. destruct Hiss as [H1 Hiss].
    apply app_eq_nil in Hiss. destruct Hiss as [H2 Hiss].
    apply app_eq_nil in Hiss. destruct Hiss as [H3 H4].
    apply zPositive_nil in H1, H2. apply zNumber_nil in H4.
    repeat split; assumption.
  - right. split.
    + destruct (PrimFloat.ltb 0 vl) eqn:E1; [|auto].
      destruct (PrimFloat.ltb 0 vt) eqn:E2; [|auto].
      destruct (PrimFloat.is_nan tp) eqn:E4; [auto|].
      right. right. left. intros E3.
      rewrite (proj2 (zPositive_nil _ _) E1), (proj2 (zPositive_nil _ _) E2),
        E3, (proj2 (zNumber_nil _) E4) in Hiss.
      discriminate.
    + exists (i :: resto). split; [discriminate|reflexivity].
Qed.

(** X19. For an authenticated caller POST /api/calculos answers 400 "Dados
    inválidos" exactly when [valorLocacao] or [valorTaxas] is not above zero
    (zero, negative or NaN), the client data fail their checks, or
    [taxaPoupanca] is NaN; it then writes nothing, the client of the body
    included. *)
Theorem post_calculos_corpo_invalido (env : Env)
  (authorization : option string) (db : Prisma) (u : Perfil)
  (vl vt : float) (otp : option float) (cli : ClienteDados) :
  autenticado env authorization db u ->
  (PrimFloat.ltb 0 vl = false \/ PrimFloat.ltb 0 vt = false
   \/ clienteIssues cli <> []
   \/ PrimFloat.is_nan (match otp with
                        | Some t => t
                        | None => taxaPoupancaDefault
                        end) = true)
  <-> (exists issues db',
          post_calculos env authorization (mkCriarCalculoBody vl vt cli otp)
            db
          = (Ok (mkResponse 400
                   (Falha "Dados inválidos" (Some (ZodError issues)))), db')
          /\ db' = db).
Proof.
  intros Hauth. unfold post_calculos.
  rewrite (comAuth_ok _ _ _ _ _ Hauth).
  unfold tryCatch, bind at 1, liftResult.
  destruct (criarCalculoSchema_casos vl vt cli otp)
    as [(H1 & H2 & H3 & H4 & ->)|(Hcond & issues & _ & ->)].
  - split.
    + intros [E|[E|[E|E]]]; congruence.
    + intros (issues & db' & H & _). exfalso. revert H. unfold bind.
      cbn [dados_cliente].
      destruct (upsertCliente env cli db) as [[c1|e] db1] eqn:Hup.
      * destruct (calculo_create _ _ _ db1) as [[k|e] db2] eqn:Hc;
          [discriminate|].
        destruct (calculo_create_throw _ _ _ _ _ _ Hc) as (_ & code & ->).
        discriminate.
      * destruct (upsertCliente_throw _ _ _ _ _ Hup) as (_ & code & ->).
        discriminate.
  - split; [|intros _; exact Hcond].
    intros _. exists issues, db. split; reflexivity.
Qed.

End CorpoCalculo.

(** A rent of zero is refused. *)
Lemma post_calculos_corpo_invalido_exemplo :
  exists issues db',
    @post_calculos Exemplo.provedores Exemplo.env Exemplo.bearerGabriel
      (mkCriarCalculoBody 0 200 Exemplo.dadosCarla None) Exemplo.db
    = (Ok (mkResponse 400
             (Falha "Dados inválidos" (Some (ZodError issues)))), db')
    /\ db' = Exemplo.db.
Proof.
  apply (@post_calculos_corpo_invalido Exemplo.provedores Exemplo.env
           Exemplo.bearerGabriel Exemplo.db Exemplo.perfilGabriel
           0%float 200%float None Exemplo.dadosCarla
           exemplo_autenticado_gabriel).
  left. reflexivity.
Defined.

(** ** POST /api/calculos: step by step *)

Section CriarCalculo.

Context {P : Provedores} {Mo : Motor}.

(** X20. [taxaPoupanca] is checked to be a number and no more: any rate,
    a negative one included, for which the numbers of the calculation are
    finite, and still are once rounded to 16 significant digits, is
    accepted; the row holds the rate and
    [valorCorrigido = valorComDesconto * (1 + taxaPoupanca)], computed on
    doubles, as the database writes them. *)
Theorem post_calculos_taxa_sem_faixa (env : Env)
  (authorization : option string) (db : Prisma) (u : Perfil)
  (vl vt tp : float) (cli : ClienteDados) :
  autenticado env authorization db u ->
  PrimFloat.ltb 0 vl = true ->
  PrimFloat.ltb 0 vt = true ->
  forallb PrimFloat.is_finite (numeros vl vt tp) = true ->
  forallb PrimFloat.is_finite (map Decimal.round16 (numeros vl vt tp))
  = true ->
  clienteIssues cli = [] ->
  (find (clientePorCpf (d_cpf cli)) (cliente db) = None ->
   existsb (clientePorId (cuidCliente env)) (cliente db) = false) ->
  existsb (calculoPorId (cuidCalculo env)) (calculo db) = false ->
  exists k,
    calculoDaResposta
      (post_calculos env authorization
         (mkCriarCalculoBody vl vt cli (Some tp)) db) = Some k
    /\ Calculo.taxaPoupanca k = Decimal.round16 tp
    /\ Calculo.valorCorrigido k
       = Decimal.round16 ((vl + vt) * 4 * 0.75 * (1 + tp))%float.
Proof.
  intros Hauth Hl Ht Hfin _ Hc Hfresh Hk.
  destruct (upsertCliente_sucesso env cli db Hfresh) as (c1 & db1 & Hup).
  assert (Hn : PrimFloat.is_nan tp = false).
  { pose proof Hfin as H. cbn [numeros forallb] in H.
    do 6 (apply andb_true_iff in H; destruct H as [_ H]).
    apply andb_true_iff in H. destruct H as [H _].
    unfold PrimFloat.is_finite in H.
    apply negb_true_iff, orb_false_iff in H. tauto. }
  destruct (criarCalculoSchema_casos vl vt cli (Some tp))
    as [(_ & _ & _ & _ & Hs)|([E|[E|[E|E]]] & _)]; try congruence.
  destruct (post_calculos_passos env authorization db u _ _ c1 db1 Hauth Hs
              Hup) as [Hnum Heq].
  cbn [dados_valorLocacao dados_valorTaxas dados_taxaPoupanca] in Hnum, Heq.
  rewrite Hnum, Hfin, Hk in Heq. cbn [negb] in Heq. rewrite Heq.
  eexists. split; [reflexivity|]. split; reflexivity.
Qed.

(** X21. The route opens no transaction: when [calculo.create] fails after
    the client was upserted, on a calculation id that is taken or on a
    number that is not finite, the answer is 500 and the client of the
    request stays written, created or overwritten with the request's data,
    while no calculation is added. *)
Theorem post_calculos_sem_transacao (env : Env)
  (authorization : option string) (db : Prisma) (u : Perfil)
  (body : CriarCalculoBody) (dados : CriarCalculoDados) :
  let finitos :=
    forallb PrimFloat.is_finite
      (numeros (dados_valorLocacao dados) (dados_valorTaxas dados)
         (dados_taxaPoupanca dados)) in
  autenticado env authorization db u ->
  criarCalculoSchema body = Ok dados ->
  (find (clientePorCpf (d_cpf (dados_cliente dados))) (cliente db) = None ->
   existsb (clientePorId (cuidCliente env)) (cliente db) = false) ->
  existsb (calculoPorId (cuidCalculo env)) (calculo db) = true
  \/ finitos = false ->
  exists c db',
    post_calculos env authorization body db
    = (Ok (mkResponse 500
             (Falha "Erro interno do servidor"
                (Some (if finitos then P2002 else PrismaValidation)))),
       db')
    /\ calculo db' = calculo db
    /\ find (clientePorCpf (d_cpf (dados_cliente dados))) (cliente db')
       = Some c
    /\ Cliente.nome c = d_nome (dados_cliente dados)
    /\ Cliente.telefone c = d_telefone (dados_cliente dados)
    /\ Cliente.email c = d_email (dados_cliente dados)
    /\ Cliente.updatedAt c = agora env.
Proof.
  intros finitos Hauth Hs Hfresh Hk.
  destruct (upsertCliente_sucesso env (dados_cliente dados) db Hfresh)
    as (c1 & db1 & Hup).
  destruct (upsertCliente_resultado env _ _ _ _ Hup) as (Hf1 & Hrows & _ & Hk1).
  pose proof (find_some _ _ Hf1) as [Hin1 Hcpf1].
  destruct (Hrows c1 Hin1 Hcpf1) as (Hn & Ht & _ & He).
  exists c1, db1.
  destruct (post_calculos_passos env authorization db u _ _ c1 db1 Hauth Hs
              Hup) as [Hnum Heq].
  rewrite Hnum in Heq. fold finitos in Heq. rewrite Heq.
  split.
  { destruct finitos; cbn [negb]; [|reflexivity].
    destruct Hk as [Hk|Hk]; [rewrite Hk; reflexivity|discriminate]. }
  repeat split; try assumption.
  destruct (find (clientePorCpf (d_cpf (dados_cliente dados))) (cliente db))
    as [c|] eqn:Hf.
  - rewrite (upsertCliente_existente env _ _ _ Hf) in Hup.
    injection Hup as <- _. reflexivity.
  - rewrite (upsertCliente_novo env _ _ Hf (Hfresh eq_refl)) in Hup.
    injection Hup as <- _. reflexivity.
Qed.

End CriarCalculo.

(** A rate of -2 turns 3600 into -3600. *)
Lemma post_calculos_taxa_sem_faixa_exemplo :
  option_map Calculo.valorCorrigido
    (calculoDaResposta
       (@post_calculos Exemplo.provedores Exemplo.env Exemplo.bearerGabriel
          (mkCriarCalculoBody 1000 200 Exemplo.dadosCarla (Some (-2)%float))
          Exemplo.db))
  = Some (-3600)%float.
Proof.
  destruct (@post_calculos_taxa_sem_faixa Exemplo.provedores Exemplo.env
              Exemplo.bearerGabriel Exemplo.db Exemplo.perfilGabriel
              1000%float 200%float (-2)%float Exemplo.dadosCarla
              exemplo_autenticado_gabriel eq_refl eq_refl eq_refl
              ltac:(vm_compute; reflexivity) eq_refl
              (fun _ => eq_refl) eq_refl)
    as (k & Hk & _ & Hv).
  rewrite Hk. cbn [option_map]. rewrite Hv. vm_compute. reflexivity.
Defined.

(** The calculation id "kb" is taken: the request fails, and Ana's row has
    the new name all the same. *)
Lemma post_calculos_sem_transacao_exemplo :
  exists c db',
    @post_calculos Exemplo.provedores (mkEnv 7000 "c3" "kb" "cc")
      Exemplo.bearerGabriel
      (mkCriarCalculoBody 1000 200 Exemplo.dadosAna None) Exemplo.db
    = (Ok (mkResponse 500 (Falha "Erro interno do servidor" (Some P2002))),
       db')
    /\ find (clientePorCpf "12345678901") (cliente db') = Some c
    /\ Cliente.nome c = "Ana Lima".
Proof.
  destruct (@post_calculos_sem_transacao Exemplo.provedores
              (mkEnv 7000 "c3" "kb" "cc") Exemplo.bearerGabriel Exemplo.db
              Exemplo.perfilGabriel
              (mkCriarCalculoBody 1000 200 Exemplo.dadosAna None)
              (mkCriarCalculoDados 1000 200 Exemplo.dadosAna
                 taxaPoupancaDefault)
              eq_refl eq_refl)
    as (c & db' & H & _ & Hf & Hn & _).
  - discriminate.
  - left. reflexivity.
  - exists c, db'. split; [exact H|]. split; assumption.
Defined.

(** ** GET /api/calculos: pages *)

Lemma firstn_skipn_soma {A} (a b : nat) (l : list A) :
  (firstn a l ++ firstn b (skipn a l))%list = firstn (a + b) l.
Proof.
  revert l. induction a as [|a IH]; intros l; [reflexivity|].
  destruct l as [|x l]; cbn.
  - rewrite firstn_nil. reflexivity.
  - f_equal. apply IH.
Qed.

Lemma paginas_concat {A} (L n : nat) (l : list A) :
  concat (map (fun p => firstn L (skipn ((p - 1) * L) l)) (seq 1 n))
  = firstn (n * L) l.
Proof.
  induction n as [|n IH]; [reflexivity|].
  rewrite seq_S, map_app, concat_app, IH. cbn [map concat Nat.add].
  rewrite app_nil_r. replace (S n - 1)%nat with n by lia.
  rewrite firstn_skipn_soma. f_equal. lia.
Qed.

Lemma ceilDiv_cobre (total limit : Z) :
  0 < limit ->
  exists pages, ceilDiv total limit = Some pages
                /\ (pages - 1) * limit < total <= pages * limit.
Proof.
  intros Hl. unfold ceilDiv.
  destruct (limit =? 0) eqn:E; [apply Z.eqb_eq in E; lia|].
  eexists. split; [reflexivity|].
  pose proof (Z.mul_div_le (- total) limit Hl).
  pose proof (Z.mul_succ_div_gt (- total) limit Hl).
  nia.
Qed.

Section Paginas.

Context {P : Provedores} {Mo : Motor}.

(** X22. When no two of the calculations that the caller may see under a
    [clienteId] were created at the same time, then with [limit] above zero
    the pages 1, 2, ..., n of GET /api/calculos, read one after the other on
    the same database, make up the listing of these calculations, newest
    first and each one once, as soon as n times [limit] reaches their
    number. *)
Theorem get_calculos_paginas_cobrem (env : Env)
  (authorization : option string) (db : Prisma) (u : Perfil)
  (clienteId : option string) (L n : nat) :
  autenticado env authorization db u ->
  (0 < L)%nat ->
  let candidatos :=
    filter (visivel u (mkCalculosQuery None None clienteId)) (calculo db) in
  NoDup (map Calculo.createdAt candidatos) ->
  (length candidatos <= n * L)%nat ->
  concat (map (fun p =>
                 calculosDaResposta
                   (get_calculos env authorization
                      (mkCalculosQuery (Some (Z.of_nat p))
                         (Some (Z.of_nat L)) clienteId) db))
            (seq 1 n))
  = orderByDesc Calculo.createdAt candidatos.
Proof.
  intros Hauth HL candidatos Hnd Hn.
  rewrite <- (firstn_all2 (n := (n * L)%nat)
                (orderByDesc Calculo.createdAt candidatos)).
  2:{ rewrite (Permutation_length (orderByDesc_perm _ _)). exact Hn. }
  rewrite <- paginas_concat. f_equal. apply map_ext_in.
  intros p Hp. apply in_seq in Hp.
  rewrite (calculosDaResposta_eq _ _ _ _ _ Hauth).
  cbn [orDefault q_page q_limit].
  change (filter (visivel u _) (calculo db)) with candidatos.
  rewrite (window_unico _ _ _ _ _ Hnd).
  replace ((Z.of_nat p - 1) * Z.of_nat L <? 0) with false
    by (symmetry; apply Z.ltb_ge; nia).
  replace (0 <=? Z.of_nat L) with true by (symmetry; apply Z.leb_le; lia).
  rewrite Nat2Z.id.
  replace (Z.to_nat ((Z.of_nat p - 1) * Z.of_nat L)) with ((p - 1) * L)%nat
    by nia.
  reflexivity.
Qed.

(** X23. The [pagination] of GET /api/calculos, for a page from 1 on and a
    [limit] above zero: [total] counts the calculations that match, on
    whatever page; [pages] is the least number of pages of [limit] rows that
    holds them; the data have at most [limit] rows, and none on a page after
    the last. *)
Theorem get_calculos_paginacao (env : Env) (authorization : option string)
  (db : Prisma) (u : Perfil) (query : CalculosQuery) :
  autenticado env authorization db u ->
  let page := orDefault 1 (q_page query) in
  let limit := orDefault 50 (q_limit query) in
  let total :=
    Z.of_nat (length (filter (calculoSatisfaz (calculosWhere u query))
                        (calculo db))) in
  1 <= page ->
  0 < limit ->
  exists ks pages,
    get_calculos env authorization query db
    = (Ok (mkResponse 200
             (Sucesso (Some (DataCalculos ks)) None
                (Some (mkPagination page limit total (Some pages))))), db)
    /\ (pages - 1) * limit < total <= pages * limit
    /\ Z.of_nat (length ks) <= limit
    /\ (pages < page -> ks = []).
Proof.
  intros Hauth page limit total Hp Hl.
  destruct (ceilDiv_cobre total limit Hl) as (pages & Hc & Hb).
  rewrite (get_calculos_eq _ _ _ _ _ Hauth). cbv zeta.
  unfold total in *. rewrite (filter_visivel u query) in *.
  fold page limit. rewrite Hc.
  destruct (window _ _ ((page - 1) * limit) limit _) as [rows|e] eqn:Hw.
  - exists (map (incluiCliente db) rows), pages.
    split; [reflexivity|]. split; [exact Hb|].
    rewrite length_map. split.
    + pose proof (window_length _ _ _ _ _ _ Hw). lia.
    + intros Hlast. unfold window in Hw.
      destruct ((page - 1) * limit <? 0) eqn:E1;
        [apply Z.ltb_lt in E1; nia|].
      destruct (0 <=? limit) eqn:E2; [|apply Z.leb_gt in E2; lia].
      injection Hw as <-. rewrite skipn_all2; [rewrite firstn_nil;
                                                reflexivity|].
      rewrite (Permutation_length (orderDesc_perm _ _ _)).
      nia.
  - exfalso. unfold window in Hw.
    destruct ((page - 1) * limit <? 0) eqn:E1;
      [apply Z.ltb_lt in E1; nia|].
    destruct (0 <=? limit); discriminate.
Qed.

(** X24. Two edges of the paging of GET /api/calculos.  A page below 1
    with a [limit] above zero makes [skip] negative, which the query refuses:
    the route answers 500.  A [limit] of zero is answered with 200, no rows,
    and [pages] as the quotient by zero, which JSON writes as null. *)
Theorem get_calculos_pagina_fora (env : Env) (authorization : option string)
  (db : Prisma) (u : Perfil) (query : CalculosQuery) :
  autenticado env authorization db u ->
  let page := orDefault 1 (q_page query) in
  let limit := orDefault 50 (q_limit query) in
  (page < 1 -> 0 < limit ->
   get_calculos env authorization query db
   = (Ok (mkResponse 500
            (Falha "Erro interno do servidor" (Some PrismaValidation))), db))
  /\ (limit = 0 ->
      exists total,
        get_calculos env authorization query db
        = (Ok (mkResponse 200
                 (Sucesso (Some (DataCalculos [])) None
                    (Some (mkPagination page 0 total None)))), db)).
Proof.
  intros Hauth page limit.
  rewrite (get_calculos_eq _ _ _ _ _ Hauth). cbv zeta. fold page limit.
  split.
  - intros Hp Hl. unfold window.
    replace ((page - 1) * limit <? 0) with true
      by (symmetry; apply Z.ltb_lt; nia).
    reflexivity.
  - intros ->. eexists. unfold window.
    replace ((page - 1) * 0 <? 0) with false
      by (symmetry; apply Z.ltb_ge; lia).
    cbn. reflexivity.
Qed.

End Paginas.

(** Two pages of one row hold the two calculations of Gabriel, which were
    created at different times. *)
Lemma get_calculos_paginas_cobrem_exemplo :
  (calculosDaResposta
     (@get_calculos Exemplo.provedores Exemplo.motor Exemplo.env
        Exemplo.bearerGabriel (mkCalculosQuery (Some 1) (Some 1) None)
        Exemplo.db)
   ++ calculosDaResposta
        (@get_calculos Exemplo.provedores Exemplo.motor Exemplo.env
           Exemplo.bearerGabriel (mkCalculosQuery (Some 2) (Some 1) None)
           Exemplo.db))%list
  = [Exemplo.kc; Exemplo.ka].
Proof.
  pose proof (@get_calculos_paginas_cobrem Exemplo.provedores Exemplo.motor
                Exemplo.env Exemplo.bearerGabriel Exemplo.db
                Exemplo.perfilGabriel None 1%nat 2%nat
                exemplo_autenticado_gabriel) as H.
  cbn [seq map concat] in H. rewrite app_nil_r in H.
  assert (H2 := H ltac:(lia)
                  ltac:(cbn; repeat constructor; cbn; intuition discriminate)
                  ltac:(cbn; lia)).
  exact H2.
Defined.

Lemma get_calculos_paginacao_exemplo :
  exists ks,
    @get_calculos Exemplo.provedores Exemplo.motor Exemplo.env
      Exemplo.bearerAdmin (mkCalculosQuery (Some 3) (Some 2) None) Exemplo.db
    = (Ok (mkResponse 200
             (Sucesso (Some (DataCalculos ks)) None
                (Some (mkPagination 3 2 3 (Some 2))))), Exemplo.db)
    /\ ks = [].
Proof.
  destruct (@get_calculos_paginacao Exemplo.provedores Exemplo.motor
              Exemplo.env Exemplo.bearerAdmin Exemplo.db Exemplo.perfilAdmin
              (mkCalculosQuery (Some 3) (Some 2) None)
              exemplo_autenticado_admin)
    as (ks & pages & H & Hb & _ & Hvazia).
  - cbn. lia.
  - cbn. lia.
  - cbn in Hb. assert (pages = 2) by lia. subst pages.
    exists ks. split; [exact H|]. apply Hvazia. cbn. lia.
Defined.

Lemma get_calculos_pagina_fora_exemplo :
  @get_calculos Exemplo.provedores Exemplo.motor Exemplo.env
    Exemplo.bearerAdmin (mkCalculosQuery (Some 0) None None) Exemplo.db
  = (Ok (mkResponse 500
           (Falha "Erro interno do servidor" (Some PrismaValidation))),
     Exemplo.db).
Proof.
  apply (@get_calculos_pagina_fora Exemplo.provedores Exemplo.motor
           Exemplo.env Exemplo.bearerAdmin Exemplo.db Exemplo.perfilAdmin
           (mkCalculosQuery (Some 0) None None) exemplo_autenticado_admin).
  - cbn. lia.
  - cbn. lia.
Defined.

(** ** POST /api/calculos, then the listing *)

Section CriarEListar.

Context {P : Provedores} {Mo : Motor}.

Lemma post_calculos_inv env authorization db u body k :
  autenticado env authorization db u ->
  calculoDaResposta (post_calculos env authorization body db) = Some k ->
  In k (calculo (snd (post_calculos env authorization body db)))
  /\ Calculo.usuarioId k = Some (p_id u)
  /\ Calculo.id k = cuidCalculo env.
Proof.
  intros Hauth.
  destruct (criarCalculoSchema body) as [dados|e] eqn:Hs.
  - destruct (upsertCliente env (dados_cliente dados) db) as [[c1|e] db1]
      eqn:Hup.
    + rewrite (proj2 (post_calculos_passos env authorization db u _ _ c1 db1
                        Hauth Hs Hup)).
      destruct (negb (forallb PrimFloat.is_finite _)); [discriminate|].
      destruct (existsb (calculoPorId (cuidCalculo env)) (calculo db));
        [discriminate|].
      unfold calculoDaResposta. cbn [fst snd calculo]. intros H.
      injection H as <-.
      split; [|split; reflexivity].
      apply in_or_app. right. left. reflexivity.
    + unfold post_calculos. rewrite (comAuth_ok _ _ _ _ _ Hauth).
      unfold tryCatch.
      erewrite bind_ok; [|unfold liftResult; rewrite Hs; reflexivity].
      unfold bind. rewrite Hup.
      destruct (upsertCliente_throw _ _ _ _ _ Hup) as (_ & code & ->).
      discriminate.
  - unfold post_calculos. rewrite (comAuth_ok _ _ _ _ _ Hauth).
    unfold tryCatch, bind, liftResult. rewrite Hs.
    destruct e; discriminate.
Qed.

(** X25. A calculation that POST /api/calculos has just answered with is
    in the next listing of its creator, admin or not, on a first page that is
    long enough; and it is in no listing of another user who is not admin. *)
Theorem post_calculos_depois_lista (env env2 : Env)
  (authorization authorization2 : option string) (db : Prisma)
  (u u2 : Perfil) (body : CriarCalculoBody) (k : Calculo.t) (limit : Z)
  (query : CalculosQuery) :
  autenticado env authorization db u ->
  calculoDaResposta (post_calculos env authorization body db) = Some k ->
  let db' := snd (post_calculos env authorization body db) in
  autenticado env2 authorization2 db' u2 ->
  (p_id u2 = p_id u ->
   Z.of_nat (length (calculo db')) <= limit ->
   In k (calculosDaResposta
           (get_calculos env2 authorization2
              (mkCalculosQuery None (Some limit) None) db')))
  /\ (p_id u2 <> p_id u -> p_role u2 <> "admin" ->
      ~ In k (calculosDaResposta
                (get_calculos env2 authorization2 query db'))).
Proof.
  intros Hauth Hk db' Hauth2.
  destruct (post_calculos_inv _ _ _ _ _ _ Hauth Hk) as (Hin & Hu & _).
  fold db' in Hin. split.
  - intros Hid Hlen.
    apply (calculosDaResposta_tudo _ _ _ _ _ _ Hauth2);
      [left; reflexivity| |exact Hin|].
    + cbn [orDefault q_limit].
      pose proof (filter_length_le
                    (visivel u2 (mkCalculosQuery None (Some limit) None))
                    (calculo db')).
      lia.
    + unfold visivel, doClientePedido, doUsuario. cbn [q_clienteId].
      rewrite Hu, Hid, String.eqb_refl. apply orb_true_r.
  - intros Hid Hrole Hlista.
    destruct (calculosDaResposta_visivel _ _ _ _ _ _ Hauth2 Hlista)
      as [_ Hs].
    unfold visivel, doUsuario in Hs.
    apply String.eqb_neq in Hrole. rewrite Hrole, Hu in Hs. cbn [orb] in Hs.
    apply andb_true_iff in Hs. destruct Hs as [_ Hs].
    apply String.eqb_eq in Hs. congruence.
Qed.

End CriarEListar.

Lemma post_calculos_depois_lista_exemplo :
  exists k,
    calculoDaResposta ExemploExtra.aposCriar = Some k
    /\ Calculo.id k = "kd"
    /\ In k (calculosDaResposta
               (@get_calculos Exemplo.provedores Exemplo.motor Exemplo.env
                  Exemplo.bearerGabriel
                  (mkCalculosQuery None (Some 50) None)
                  (snd ExemploExtra.aposCriar))).
Proof.
  destruct (calculoDaResposta ExemploExtra.aposCriar) as [k|] eqn:Hk;
    [|discriminate Hk].
  exists k. split; [reflexivity|].
  split; [cbv in Hk; injection Hk as <-; reflexivity|].
  apply (@post_calculos_depois_lista Exemplo.provedores Exemplo.motor
           Exemplo.env Exemplo.env Exemplo.bearerGabriel Exemplo.bearerGabriel
           Exemplo.db Exemplo.perfilGabriel Exemplo.perfilGabriel
           Exemplo.corpo k 50 (mkCalculosQuery None None None)
           exemplo_autenticado_gabriel Hk eq_refl).
  - reflexivity.
  - cbn. lia.
Defined.

(** ** prisma/seed *)

Lemma find_map_preserva {A} (p : A -> bool) (g : A -> A) (l : list A) :
  (forall v, p (g v) = p v) ->
  find p (map g l) = option_map g (find p l).
Proof.
  intros Hp. induction l as [|x l IH]; cbn; [reflexivity|].
  rewrite Hp. destruct (p x); [reflexivity|exact IH].
Qed.

Lemma find_app_fora {A} (p : A -> bool) (l : list A) (x : A) :
  p x = false -> find p (l ++ [x]) = find p l.
Proof.
  intros Hx. induction l as [|y l IH]; cbn; [rewrite Hx; reflexivity|].
  destruct (p y); [reflexivity|exact IH].
Qed.

(** What one upsert of the seed leaves in the table. *)
Lemma usuario_upsert_efeito novoId agora nome email senha role db u db' :
  usuario_upsert novoId agora nome email senha role db = (Ok u, db') ->
  (exists v, find (usuarioPorEmail email) (usuario db') = Some v
             /\ Usuario.nome v = nome /\ Usuario.senha v = senha
             /\ Usuario.role v = role /\ Usuario.email v = email)
  /\ (forall e', e' <> email ->
        find (usuarioPorEmail e') (usuario db')
        = find (usuarioPorEmail e') (usuario db))
  /\ (length (usuario db) <= length (usuario db')
      <= S (length (usuario db)))%nat
  /\ cliente db' = cliente db /\ calculo db' = calculo db.
Proof.
  unfold usuario_upsert.
  destruct (find (usuarioPorEmail email) (usuario db)) as [w|] eqn:Hf.
  - intros H. injection H as <- <-. cbn [usuario cliente calculo].
    pose proof (find_some _ _ Hf) as [_ Hw].
    unfold usuarioPorEmail in Hw. apply String.eqb_eq in Hw.
    split; [|split; [|split; [|split; reflexivity]]].
    + eexists. split.
      * rewrite (find_map_where (usuarioPorEmail email)
                   (fun v => Usuario.mk (Usuario.id v) nome (Usuario.email v)
                               senha role (Usuario.createdAt v) agora)), Hf;
          [reflexivity|].
        intros x Hx. exact Hx.
      * cbn. auto.
    + intros e' Hne. rewrite find_map_preserva.
      * destruct (find (usuarioPorEmail e') (usuario db)) as [x|] eqn:Hx;
          [|reflexivity].
        cbn. pose proof (find_some _ _ Hx) as [_ Hxe].
        unfold usuarioPorEmail in *. apply String.eqb_eq in Hxe.
        replace (String.eqb (Usuario.email x) email) with false;
          [reflexivity|].
        symmetry. apply String.eqb_neq. congruence.
      * intros v. destruct (usuarioPorEmail email v); reflexivity.
    + rewrite length_map. lia.
  - intros H.
    destruct (usuario_create_inv _ _ _ _ _ _ _ _ _ H) as (-> & -> & _ & _).
    cbn [usuario cliente calculo].
    split; [|split; [|split; [|split; reflexivity]]].
    + eexists. split.
      * apply (find_novo _ _ _ Hf). unfold usuarioPorEmail. cbn.
        apply String.eqb_refl.
      * cbn. auto.
    + intros e' Hne. apply find_app_fora. unfold usuarioPorEmail. cbn.
      apply String.eqb_neq. congruence.
    + rewrite length_app. cbn. lia.
Qed.

Section Seed.

Context {P : Provedores} {E : Emissores} {Mo : Motor}.

(** X26. When the seed has run to its end, each of its two users can log
    in with the e-mail and the password written in the seed, and the login
    answers with the name and the role written there: "admin" for the first
    one.  That holds whether the e-mail was new or already in the table; the
    seed adds two users at most and touches no client and no calculation. *)
Theorem seed_depois_login (oraculo : nat -> Env * Id) (db db' : Prisma)
  (env : Env) (su : SeedUser) :
  main oraculo db = (Ok tt, db') ->
  hashConfere ->
  In su users ->
  isEmail (su_email su) = true ->
  (exists id token,
      post_usuarios_login env (mkLoginBody (su_email su) (su_senha su)) db'
      = (Ok (Entrega 200
               (DataLogin
                  (mkPerfil id (su_nome su) (su_email su) (su_role su)) token)
               (Some "Login realizado com sucesso!")), db'))
  /\ (length (usuario db') <= 2 + length (usuario db))%nat
  /\ cliente db' = cliente db
  /\ calculo db' = calculo db.
Proof.
  intros Hmain Hhash Hsu Hmail.
  unfold main, users, seedLoop, bind in Hmain.
  destruct (oraculo 0%nat) as [env0 id0]. destruct (oraculo 1%nat) as [env1 id1].
  destruct (usuario_upsert id0 _ _ _ _ _ db) as [[u0|e0] db0] eqn:H0;
    [|discriminate].
  destruct (usuario_upsert id1 _ _ _ _ _ db0) as [[u1|e1] db1] eqn:H1;
    [|discriminate].
  cbn in Hmain. injection Hmain as <-.
  destruct (usuario_upsert_efeito _ _ _ _ _ _ _ _ _ H0)
    as ((v0 & Hf0 & Hn0 & Hs0 & Hr0 & He0) & _ & Hl0 & Hc0 & Hk0).
  destruct (usuario_upsert_efeito _ _ _ _ _ _ _ _ _ H1)
    as ((v1 & Hf1 & Hn1 & Hs1 & Hr1 & He1) & Hfora1 & Hl1 & Hc1 & Hk1).
  cbn [su_nome su_email su_senha su_role] in *.
  rewrite <- Hfora1 in Hf0 by discriminate.
  split; [|split; [lia|split; congruence]].
  assert (Hlogin : forall v senha,
             find (usuarioPorEmail (su_email su)) (usuario db1) = Some v ->
             Usuario.senha v = bcrypt_hash senha (su_senha su) ->
             post_usuarios_login env
               (mkLoginBody (su_email su) (su_senha su)) db1
             = (Ok (Entrega 200
                      (DataLogin (perfilDe v)
                         (jwt_sign (agora env)
                            (mkClaims (Usuario.id v) (Usuario.email v))))
                      (Some "Login realizado com sucesso!")), db1)).
  { intros v sal Hf Hs. unfold post_usuarios_login. apply tryCatch_ok.
    erewrite bind_ok with (a := mkLoginBody (su_email su) (su_senha su)).
    2:{ unfold liftResult, loginSchema, zEmail, zMin.
        cbn [lb_email lb_senha]. rewrite Hmail.
        destruct Hsu as [<- | [<- | []]]; reflexivity. }
    cbn [lb_email lb_senha].
    erewrite bind_ok; [|unfold usuario_findUnique; rewrite Hf; reflexivity].
    cbv zeta iota beta. rewrite Hs, Hhash. reflexivity. }
  destruct Hsu as [<- | [<- | []]]; cbn [su_nome su_email su_senha su_role]
    in *.
  - exists (Usuario.id v0), (jwt_sign (agora env)
                               (mkClaims (Usuario.id v0) (Usuario.email v0))).
    rewrite (Hlogin v0 (salt env0) Hf0 Hs0). unfold perfilDe.
    rewrite Hn0, Hr0, He0. reflexivity.
  - exists (Usuario.id v1), (jwt_sign (agora env)
                               (mkClaims (Usuario.id v1) (Usuario.email v1))).
    rewrite (Hlogin v1 (salt env1) Hf1 Hs1). unfold perfilDe.
    rewrite Hn1, Hr1, He1. reflexivity.
Qed.

End Seed.

Lemma seed_depois_login_exemplo :
  exists id token,
    @post_usuarios_login Exemplo.provedores ExemploExtra.emissores Exemplo.env
      (mkLoginBody "ti@uprealiza.com.br" "TIup123")
      (snd ExemploExtra.aposSeed)
    = (Ok (Entrega 200
             (DataLogin
                (mkPerfil id "TI Uprealiza" "ti@uprealiza.com.br" "admin")
                token)
             (Some "Login realizado com sucesso!")),
       snd ExemploExtra.aposSeed).
Proof.
  destruct (@seed_depois_login Exemplo.provedores ExemploExtra.emissores
              ExemploExtra.oraculo Exemplo.db (snd ExemploExtra.aposSeed)
              Exemplo.env
              (mkSeedUser "TI Uprealiza" "ti@uprealiza.com.br" "TIup123"
                 "admin")
              eq_refl exemplo_hashConfere (or_introl eq_refl) eq_refl)
    as (H & _).
  exact H.
Defined.

(** ** Clients and their calculations *)

Section ClienteCalculos.

Context {P : Provedores} {Mo : Motor}.

(** X27. No route of routes/cliente.ts changes the calculations or the
    users.  In particular DELETE /api/clientes/:id never removes a
    calculation: it deletes a client only when none points to it, so the
    cascade of the foreign key has nothing to take. *)
Theorem cliente_rotas_nao_tocam_calculos (env : Env) (db : Prisma) :
  (forall query res db',
      get_clientes query db = (res, db') -> db' = db)
  /\ (forall id res db',
         get_clientes_id id db = (res, db') -> db' = db)
  /\ (forall body res db',
         post_clientes env body db = (res, db') ->
         calculo db' = calculo db /\ usuario db' = usuario db)
  /\ (forall id body res db',
         put_clientes_id env id body db = (res, db') ->
         calculo db' = calculo db /\ usuario db' = usuario db)
  /\ (forall id res db',
         delete_clientes_id id db = (res, db') ->
         calculo db' = calculo db /\ usuario db' = usuario db).
Proof.
  split; [|split; [|split; [|split]]].
  - intros query res db'.
    unfold get_clientes, tryCatch, bind, cliente_findMany, cliente_count,
      catch500, ret.
    destruct (window _ _ _); intros H; injection H as _ <-; reflexivity.
  - intros id res db'.
    unfold get_clientes_id, tryCatch, bind, cliente_findUnique_calculos, ret.
    destruct (find _ (cliente db)); intros H; injection H as _ <-;
      reflexivity.
  - intros body res db' H.
    destruct (post_clientes_casos _ _ _ _ _ H)
      as [(-> & _)|(_ & _ & _ & _ & ->)]; split; reflexivity.
  - intros id body res db'.
    unfold put_clientes_id, tryCatch, bind at 1, liftResult.
    destruct (clienteSchema body) as [dados|e].
    2:{ destruct (recusa_catchZod e db) as (r & -> & _).
        intros H. injection H as _ <-. split; reflexivity. }
    unfold bind at 1, cliente_findUnique at 1.
    destruct (find (clientePorId id) (cliente db)) as [c|] eqn:Hf.
    2:{ cbn. intros H. injection H as _ <-. split; reflexivity. }
    unfold bind at 1.
    destruct ((if negb (String.eqb (d_cpf dados) (Cliente.cpf c))
               then cliente_findUnique (clientePorCpf (d_cpf dados))
               else ret None) db) as [[[outro|]|e] db0] eqn:Hem.
    + assert (db0 = db) as ->
        by (destruct (negb _); unfold cliente_findUnique, ret in Hem;
            congruence).
      cbn. intros H. injection H as _ <-. split; reflexivity.
    + assert (db0 = db) as ->
        by (destruct (negb _); unfold cliente_findUnique, ret in Hem;
            congruence).
      unfold bind, cliente_update_id. rewrite Hf.
      destruct (existsb _ (cliente db)).
      * destruct (recusa_catchZod P2002 db) as (r & -> & _).
        intros H. injection H as _ <-. split; reflexivity.
      * cbn. intros H. injection H as _ <-. split; reflexivity.
    + exfalso. destruct (negb _); unfold cliente_findUnique, ret in Hem;
        discriminate.
  - intros id res db'. rewrite delete_clientes_id_eq.
    destruct (find (clientePorId id) (cliente db)) as [c|] eqn:Hf.
    2:{ intros H. injection H as _ <-. split; reflexivity. }
    destruct (0 <? countCalculos db c) eqn:Hc.
    + intros H. injection H as _ <-. split; reflexivity.
    + intros H. injection H as _ <-. cbn [calculo usuario].
      split; [|reflexivity].
      pose proof (find_some _ _ Hf) as [_ Hid]. apply String.eqb_eq in Hid.
      apply Z.ltb_ge in Hc. unfold countCalculos in Hc. rewrite Hid in Hc.
      apply (filter_none_length (calculoDoCliente id)). lia.
Qed.

(** X28. A client with one calculation cannot be deleted; once DELETE
    /api/calculos/:id has removed that calculation, DELETE /api/clientes/:id
    on the client answers 200. *)
Theorem delete_calculo_libera_cliente (env : Env)
  (authorization : option string) (db db' : Prisma) (u : Perfil)
  (c : Cliente.t) (k : Calculo.t) (res : Result Response) :
  autenticado env authorization db u ->
  find (clientePorId (Cliente.id c)) (cliente db) = Some c ->
  filter (calculoDoCliente (Cliente.id c)) (calculo db) = [k] ->
  delete_calculos_id env authorization (Calculo.id k) db = (res, db') ->
  fst (delete_clientes_id (Cliente.id c) db)
  = Ok (falha 400 "Não é possível deletar cliente que possui cálculos")
  /\ respondeu 200 res
  /\ fst (delete_clientes_id (Cliente.id c) db')
     = Ok (mkResponse 200
             (Sucesso None (Some "Cliente deletado com sucesso!") None)).
Proof.
  intros Hauth Hf Hk Hdel.
  assert (Hin : In k (calculo db)).
  { assert (H : In k (filter (calculoDoCliente (Cliente.id c)) (calculo db)))
      by (rewrite Hk; left; reflexivity).
    apply filter_In in H. tauto. }
  assert (Hfk : exists k0, find (calculoPorId (Calculo.id k)) (calculo db)
                           = Some k0).
  { apply existsb_find. apply existsb_exists. exists k.
    split; [exact Hin|]. unfold calculoPorId. apply String.eqb_refl. }
  destruct Hfk as (k0 & Hfk).
  split; [|split].
  - rewrite delete_clientes_id_eq, Hf. unfold countCalculos. rewrite Hk.
    reflexivity.
  - unfold delete_calculos_id in Hdel.
    rewrite (comAuth_ok _ _ _ _ _ Hauth) in Hdel.
    unfold tryCatch, bind, calculo_findUnique, calculo_delete, ret in Hdel.
    rewrite Hfk in Hdel. rewrite Hfk in Hdel. injection Hdel as <- _.
    eexists. split; reflexivity.
  - unfold delete_calculos_id in Hdel.
    rewrite (comAuth_ok _ _ _ _ _ Hauth) in Hdel.
    unfold tryCatch, bind, calculo_findUnique, calculo_delete, ret in Hdel.
    rewrite Hfk in Hdel. rewrite Hfk in Hdel. injection Hdel as _ <-.
    rewrite delete_clientes_id_eq. cbn [cliente calculo usuario]. rewrite Hf.
    unfold countCalculos. cbn [calculo].
    replace (filter (calculoDoCliente (Cliente.id c))
               (filter (fun k1 => negb (calculoPorId (Calculo.id k) k1))
                  (calculo db))) with (@nil Calculo.t); [reflexivity|].
    symmetry.
    assert (Hcomm : forall l,
               filter (calculoDoCliente (Cliente.id c))
                 (filter (fun k1 => negb (calculoPorId (Calculo.id k) k1)) l)
               = filter (fun k1 => negb (calculoPorId (Calculo.id k) k1))
                   (filter (calculoDoCliente (Cliente.id c)) l)).
    { induction l as [|x l IH]; cbn; [reflexivity|].
      destruct (calculoPorId (Calculo.id k) x) eqn:E1,
               (calculoDoCliente (Cliente.id c) x) eqn:E2; cbn;
        rewrite ?E1, ?E2; cbn; rewrite IH; reflexivity. }
    rewrite Hcomm, Hk. cbn. unfold calculoPorId.
    rewrite String.eqb_refl. reflexivity.
Qed.

End ClienteCalculos.

(** A creation refused for its CPF leaves the calculations alone. *)
Lemma cliente_rotas_nao_tocam_calculos_exemplo :
  calculo (snd (@post_clientes Exemplo.provedores Exemplo.env
                  Exemplo.dadosAna Exemplo.db))
  = [Exemplo.kb; Exemplo.ka; Exemplo.kc].
Proof.
  destruct (@cliente_rotas_nao_tocam_calculos Exemplo.provedores
              Exemplo.motor Exemplo.env Exemplo.db) as (_ & _ & Hpost & _).
  destruct (Hpost Exemplo.dadosAna _ _ (surjective_pairing _)) as [Hk _].
  exact Hk.
Defined.

(** Gabriel deletes [kb], the one calculation of Ana in [dbUm]; Ana can then
    be deleted. *)
Lemma delete_calculo_libera_cliente_exemplo :
  fst (delete_clientes_id "c1" ExemploExtra.dbUm)
  = Ok (falha 400 "Não é possível deletar cliente que possui cálculos")
  /\ fst (delete_clientes_id "c1" (snd ExemploExtra.semKb))
     = Ok (mkResponse 200
             (Sucesso None (Some "Cliente deletado com sucesso!") None)).
Proof.
  destruct (@delete_calculo_libera_cliente Exemplo.provedores Exemplo.env
              Exemplo.bearerGabriel ExemploExtra.dbUm
              (snd ExemploExtra.semKb) Exemplo.perfilGabriel Exemplo.ana
              Exemplo.kb (fst ExemploExtra.semKb)
              eq_refl eq_refl eq_refl (surjective_pairing _))
    as (Hantes & _ & Hdepois).
  split; [exact Hantes|exact Hdepois].
Defined.
